(** * Startup validator: a shallow embedding of the Python sources

    The development follows the layout of the repository:

    - [Py]: the fragment of Python's data model the sources rely on
      (exceptions, JSON-like values, [int]/[float] arithmetic, strings,
      dictionaries);
    - one module per source file: [Controller] (agents/controller.py),
      [StrategyAdvisor], [TechnicalArchitect], [FinancialAnalyst],
      [MarketAnalyst] with the search tools in [MarketSearch],
      [CompetitorResearcher] and [Orchestrator] (main_orchestrator.py);
    - [Reference]: a runtime to run the definitions with (a JSON-like
      codec that is its own inverse, canned agents);
    - the properties, one module of facts per module of definitions.

    Python [float]s are IEEE binary64 numbers and are modelled by Rocq's
    primitive floats, Python [int]s by [Z].  Strings are Rocq [string]s,
    that is sequences of 8-bit characters; [str.lower] is the ASCII one. *)

From Stdlib Require Import ZArith List String Ascii Bool Floats Lia.
From Stdlib Require Import QArith Qpower.
Import ListNotations.
Close Scope Q_scope.

Set Implicit Arguments.
Set Warnings "-register-all,-inexact-float".

(* ================================================================== *)
(** * The Python fragment *)
(* ================================================================== *)

Module Py.

(** ** Exceptions and results *)

(** The exception classes the sources can meet.  All of them derive from
    [Exception], so an [except Exception] clause catches every one. *)
Inductive exn : Type :=
| ValueError
| TypeError
| AttributeError
| KeyError
| IndexError
| OverflowError
| ZeroDivisionError
| JSONDecodeError
| RuntimeError (msg : string).

(** A Python expression either yields a value or raises. *)
Inductive result (A : Type) : Type :=
| Ok (a : A)
| Raise (e : exn).

Arguments Ok {A} a.
Arguments Raise {A} e.

Definition bind {A B} (r : result A) (k : A -> result B) : result B :=
  match r with
  | Ok a => k a
  | Raise e => Raise e
  end.

(** [try: body / except Exception as e: handler e]. *)
Definition try_except {A} (body : result A) (handler : exn -> result A)
    : result A :=
  match body with
  | Ok a => Ok a
  | Raise e => handler e
  end.

Definition is_ok {A} (r : result A) : bool :=
  match r with Ok _ => true | Raise _ => false end.

Declare Scope py_scope.
Delimit Scope py_scope with py.
Notation "x <- e ;; k" := (bind e (fun x => k))
  (at level 61, e at next level, right associativity) : py_scope.
Notation "e ;;; k" := (bind e (fun _ => k))
  (at level 61, right associativity) : py_scope.

(** ** Values *)

(** The values that travel between the agents: what [json.loads] can
    produce.  A [dict] is kept as an association list in insertion
    order, as Python iterates it. *)
Inductive pyval : Type :=
| VNone
| VBool (b : bool)
| VInt (z : Z)
| VFloat (f : float)
| VStr (s : string)
| VList (l : list pyval)
| VDict (d : list (string * pyval)).

Definition dict := list (string * pyval).

(** ** Strings *)

Definition lower_ascii (c : ascii) : ascii :=
  let n := nat_of_ascii c in
  if (65 <=? n)%nat && (n <=? 90)%nat then ascii_of_nat (n + 32) else c.

(** [s.lower()] *)
Fixpoint lower (s : string) : string :=
  match s with
  | EmptyString => EmptyString
  | String c r => String (lower_ascii c) (lower r)
  end.

(** [sub in s] on strings. *)
Fixpoint contains (sub s : string) : bool :=
  match s with
  | EmptyString => String.prefix sub EmptyString
  | String _ r => String.prefix sub s || contains sub r
  end.

(** [s.startswith(p)] *)
Definition startswith (p s : string) : bool := String.prefix p s.

(** [any(keyword in s for keyword in keywords)] *)
Definition any_in (keywords : list string) (s : string) : bool :=
  existsb (fun keyword => contains keyword s) keywords.

(** [s[:n]] on strings. *)
Fixpoint str_take (n : nat) (s : string) : string :=
  match n, s with
  | O, _ => EmptyString
  | S _, EmptyString => EmptyString
  | S m, String c r => String c (str_take m r)
  end.

Fixpoint str_repeat (n : nat) (s : string) : string :=
  match n with
  | O => EmptyString
  | S m => String.append s (str_repeat m s)
  end.

(** ** Numbers *)

(** The exact value of a number: not-a-number, an infinity, or the
    dyadic rational [m * 2^e]. *)
Inductive dyadic : Type :=
| DNaN
| DInf (negative : bool)
| DFin (m e : Z).

Definition float_exact (f : float) : dyadic :=
  match Prim2SF f with
  | S754_zero _ => DFin 0 0
  | S754_infinity s => DInf s
  | S754_nan => DNaN
  | S754_finite s m e => DFin (if s then Z.neg m else Z.pos m) e
  end.

(** Python's numbers: [bool] is a subclass of [int]. *)
Inductive pynum : Type :=
| NInt (z : Z)
| NFloat (f : float).

Definition as_number (v : pyval) : option pynum :=
  match v with
  | VBool b => Some (NInt (if b then 1 else 0))
  | VInt z => Some (NInt z)
  | VFloat f => Some (NFloat f)
  | _ => None
  end.

Definition of_number (n : pynum) : pyval :=
  match n with
  | NInt z => VInt z
  | NFloat f => VFloat f
  end.

Definition exact (n : pynum) : dyadic :=
  match n with
  | NInt z => DFin z 0
  | NFloat f => float_exact f
  end.

(** Comparison of exact values; [None] when a NaN is involved (every
    ordering test on a NaN is false). *)
Definition dyadic_compare (a b : dyadic) : option comparison :=
  match a, b with
  | DNaN, _ | _, DNaN => None
  | DInf sa, DInf sb =>
      Some (if sa then (if sb then Eq else Lt) else (if sb then Gt else Eq))
  | DInf sa, DFin _ _ => Some (if sa then Lt else Gt)
  | DFin _ _, DInf sb => Some (if sb then Gt else Lt)
  | DFin m1 e1, DFin m2 e2 =>
      let e := Z.min e1 e2 in
      Some (Z.compare (m1 * 2 ^ (e1 - e)) (m2 * 2 ^ (e2 - e)))
  end.

Definition num_compare (a b : pynum) : option comparison :=
  dyadic_compare (exact a) (exact b).

(** [a < b], [a <= b], [a > b], [a >= b] on numbers. *)
Definition num_lt (a b : pynum) : bool :=
  match num_compare a b with Some Lt => true | _ => false end.
Definition num_le (a b : pynum) : bool :=
  match num_compare a b with Some Lt | Some Eq => true | _ => false end.
Definition num_gt (a b : pynum) : bool := num_lt b a.
Definition num_ge (a b : pynum) : bool := num_le b a.

(** [float(n)] for an [int]: the nearest binary64 number (ties to even);
    [OverflowError] beyond the range of [float]. *)
Definition float_of_Z (z : Z) : result float :=
  match binary_normalize prec emax z 0 false with
  | S754_infinity _ => Raise OverflowError
  | sf => Ok (SF2Prim sf)
  end.

Definition to_float (n : pynum) : result float :=
  match n with
  | NInt z => float_of_Z z
  | NFloat f => Ok f
  end.

Local Open Scope py_scope.

Definition num_binop (fz : Z -> Z -> Z) (ff : float -> float -> float)
    (a b : pynum) : result pynum :=
  match a, b with
  | NInt x, NInt y => Ok (NInt (fz x y))
  | _, _ =>
      x <- to_float a ;;
      y <- to_float b ;;
      Ok (NFloat (ff x y))
  end.

Definition num_add := num_binop Z.add PrimFloat.add.
Definition num_sub := num_binop Z.sub PrimFloat.sub.
Definition num_mul := num_binop Z.mul PrimFloat.mul.

Definition spec_of_Z (z : Z) : spec_float :=
  match z with
  | Z0 => S754_zero false
  | Zpos p => S754_finite false p 0
  | Zneg p => S754_finite true p 0
  end.

(** The binary64 number nearest to the rational [n / d] ([d <> 0]). *)
Definition float_of_ratio (n d : Z) : spec_float :=
  SFdiv prec emax (spec_of_Z n) (spec_of_Z d).

Definition is_zero (n : pynum) : bool :=
  match exact n with
  | DFin 0 _ => true
  | _ => false
  end.

(** [a / b]: true division.  Two [int]s give the correctly rounded
    quotient; otherwise both operands are converted to [float]. *)
Definition num_truediv (a b : pynum) : result pynum :=
  if is_zero b then Raise ZeroDivisionError
  else
    match a, b with
    | NInt x, NInt y =>
        match float_of_ratio x y with
        | S754_infinity _ => Raise OverflowError
        | sf => Ok (NFloat (SF2Prim sf))
        end
    | _, _ =>
        x <- to_float a ;;
        y <- to_float b ;;
        Ok (NFloat (x / y)%float)
    end.

(** Rounding of the rational [n / d] ([0 < d]) to the nearest integer,
    ties to the even one. *)
Definition round_half_even (n d : Z) : Z :=
  let q := (n / d)%Z in
  let r := (n mod d)%Z in
  match Z.compare (2 * r) d with
  | Lt => q
  | Gt => (q + 1)%Z
  | Eq => if Z.even q then q else (q + 1)%Z
  end.

(** [round(x, ndigits)] for a [float] and [ndigits >= 0]: the exact
    value of [x] is rounded to [ndigits] decimals (ties to even) and the
    decimal is read back as the nearest [float]; the sign of a zero
    result is the sign of [x]. *)
Definition float_round (x : float) (ndigits : nat) : float :=
  match float_exact x with
  | DFin m e =>
      if (0 <=? e)%Z then x
      else
        let p := (10 ^ Z.of_nat ndigits)%Z in
        let n := round_half_even (m * p) (2 ^ (- e)) in
        if (n =? 0)%Z then (if (m <? 0)%Z then (-0)%float else 0%float)
        else SF2Prim (float_of_ratio n p)
  | _ => x
  end.

(** [round(n, ndigits)]: an [int] is unchanged when [ndigits >= 0]. *)
Definition num_round (n : pynum) (ndigits : nat) : pynum :=
  match n with
  | NInt z => NInt z
  | NFloat f => NFloat (float_round f ndigits)
  end.

(** [int(x)]: truncation towards zero. *)
Definition num_int (n : pynum) : result Z :=
  match exact n with
  | DNaN => Raise ValueError
  | DInf _ => Raise OverflowError
  | DFin m e => Ok (if (0 <=? e)%Z then m * 2 ^ e else Z.quot m (2 ^ (- e)))%Z
  end.

(** [max(a, b)] on numbers: [b] when [b > a], else [a]. *)
Definition num_max (a b : pynum) : pynum :=
  if num_gt b a then b else a.

(** [sum(xs)]: left to right from the [int] 0. *)
Fixpoint num_sum_from (acc : pynum) (xs : list pynum) : result pynum :=
  match xs with
  | [] => Ok acc
  | x :: r => acc' <- num_add acc x ;; num_sum_from acc' r
  end.

Definition num_sum (xs : list pynum) : result pynum :=
  num_sum_from (NInt 0) xs.

(** ** Operations on values *)

(** Truth value of an object in a condition. *)
Definition truthy (v : pyval) : bool :=
  match v with
  | VNone => false
  | VBool b => b
  | VInt z => negb (z =? 0)%Z
  | VFloat f => negb (is_zero (NFloat f))
  | VStr s => negb (String.eqb s "")
  | VList l => match l with [] => false | _ => true end
  | VDict d => match d with [] => false | _ => true end
  end.

(** Lookup of a key in a dictionary. *)
Fixpoint lookup (k : string) (d : dict) : option pyval :=
  match d with
  | [] => None
  | (k', v) :: r => if String.eqb k k' then Some v else lookup k r
  end.

(** [d[k] = v]: an existing key keeps its place, a new one goes last. *)
Fixpoint dict_set (k : string) (v : pyval) (d : dict) : dict :=
  match d with
  | [] => [(k, v)]
  | (k', v') :: r =>
      if String.eqb k k' then (k', v) :: r else (k', v') :: dict_set k v r
  end.

(** [v.get(k, default)]: only a [dict] has the method. *)
Definition get (v : pyval) (k : string) (default : pyval) : result pyval :=
  match v with
  | VDict d => Ok (match lookup k d with Some x => x | None => default end)
  | _ => Raise AttributeError
  end.

(** [v[k]] for a string key. *)
Definition getitem (v : pyval) (k : string) : result pyval :=
  match v with
  | VDict d =>
      match lookup k d with
      | Some x => Ok x
      | None => Raise KeyError
      end
  | _ => Raise TypeError
  end.

(** [v == s] for a string [s]. *)
Definition eq_str (v : pyval) (s : string) : bool :=
  match v with
  | VStr s' => String.eqb s' s
  | _ => false
  end.

(** [k in v] for a string [k]: key of a [dict], substring of a [str],
    element of a [list]; other objects are not containers. *)
Definition contains_key (k : string) (v : pyval) : result bool :=
  match v with
  | VDict d => Ok (match lookup k d with Some _ => true | None => false end)
  | VStr s => Ok (contains k s)
  | VList l => Ok (existsb (fun x => eq_str x k) l)
  | _ => Raise TypeError
  end.

(** [v < c], [v >= c], ... for a number [c]: [TypeError] unless [v] is a
    number. *)
Definition compare_with (test : pynum -> pynum -> bool) (v : pyval)
    (c : pynum) : result bool :=
  match as_number v with
  | Some n => Ok (test n c)
  | None => Raise TypeError
  end.

(** [v * c] for a number [c]: product of numbers, repetition of a
    sequence by an [int]. *)
Definition mul_by (v : pyval) (c : pynum) : result pyval :=
  match as_number v with
  | Some n => r <- num_mul n c ;; Ok (of_number r)
  | None =>
      match v, c with
      | VStr s, NInt k => Ok (VStr (str_repeat (Z.to_nat k) s))
      | VList l, NInt k => Ok (VList (List.concat (List.repeat l (Z.to_nat k))))
      | _, _ => Raise TypeError
      end
  end.

(** [sum(vs)]: an element that is not a number cannot be added to the
    running total. *)
Fixpoint sum_from (acc : pynum) (vs : list pyval) : result pynum :=
  match vs with
  | [] => Ok acc
  | v :: r =>
      match as_number v with
      | Some n => acc' <- num_add acc n ;; sum_from acc' r
      | None => Raise TypeError
      end
  end.

Definition sum (vs : list pyval) : result pynum := sum_from (NInt 0) vs.

(** [v[:n]] *)
Definition slice_to (n : nat) (v : pyval) : result pyval :=
  match v with
  | VList l => Ok (VList (firstn n l))
  | VStr s => Ok (VStr (str_take n s))
  | _ => Raise TypeError
  end.

(** [a + b] *)
Definition add (a b : pyval) : result pyval :=
  match as_number a, as_number b with
  | Some x, Some y => r <- num_add x y ;; Ok (of_number r)
  | _, _ =>
      match a, b with
      | VStr s, VStr t => Ok (VStr (String.append s t))
      | VList l, VList m => Ok (VList (l ++ m))
      | _, _ => Raise TypeError
      end
  end.

(** ** Decimal literals *)

Definition is_digit (c : ascii) : bool :=
  let n := nat_of_ascii c in (48 <=? n)%nat && (n <=? 57)%nat.

(** The number written by a string of digits, most significant first;
    [None] when a character is not a digit. *)
Fixpoint digits_value (acc : Z) (s : string) : option Z :=
  match s with
  | EmptyString => Some acc
  | String c r =>
      if is_digit c
      then digits_value (10 * acc + Z.of_nat (nat_of_ascii c - 48)) r
      else None
  end.

(** Split at the first ['.']. *)
Fixpoint split_dot (s : string) : string * option string :=
  match s with
  | EmptyString => (EmptyString, None)
  | String c r =>
      if Ascii.eqb c "."%char then (EmptyString, Some r)
      else let '(a, b) := split_dot r in (String c a, b)
  end.

(** [float(s)] for the strings the sources convert, which are made of
    digits and dots: digits with at most one dot and at least one digit
    are read as the nearest [float] (an infinity when out of range);
    anything else is a [ValueError]. *)
Definition float_of_string (s : string) : result float :=
  let '(int_part, rest) := split_dot s in
  let frac_part := match rest with Some f => f | None => EmptyString end in
  if ((String.length int_part + String.length frac_part) =? 0)%nat
  then Raise ValueError
  else
    match digits_value 0 int_part, digits_value 0 frac_part with
    | Some i, Some f =>
        let p := (10 ^ Z.of_nat (String.length frac_part))%Z in
        Ok (SF2Prim (float_of_ratio (i * p + f) p))
    | _, _ => Raise ValueError
    end.

(** ** Regular expressions *)

(** The fragment of [re] the sources use: character classes,
    concatenation, alternation, greedy repetition and one capturing
    group, matched by backtracking as [re] does. *)
Inductive regex : Type :=
| Eps
| Chr (p : ascii -> bool)
| Cat (r1 r2 : regex)
| Alt (r1 r2 : regex)
| Star (r : regex)
| Group (r : regex).

Definition Plus (r : regex) : regex := Cat r (Star r).
Definition Opt (r : regex) : regex := Alt r Eps.

(** A literal string; with [ignorecase], as under [re.I]. *)
Fixpoint Lit (ignorecase : bool) (s : string) : regex :=
  match s with
  | EmptyString => Eps
  | String c r =>
      Cat (Chr (fun x => if ignorecase
                         then Ascii.eqb (lower_ascii x) (lower_ascii c)
                         else Ascii.eqb x c))
          (Lit ignorecase r)
  end.

(** [\d] and [\s] *)
Definition digit : regex := Chr is_digit.
Definition space : regex :=
  Chr (fun c => let n := nat_of_ascii c in
                (n =? 32)%nat || ((9 <=? n)%nat && (n <=? 13)%nat)).

(** [matches r s g k]: match [r] at the start of [s] and hand the rest
    of the text and the group captured so far to [k]; the first success
    in backtracking order wins. *)
Fixpoint matches (r : regex) (s : string) (g : option string)
    (k : string -> option string -> option (string * option string))
    : option (string * option string) :=
  match r with
  | Eps => k s g
  | Chr p =>
      match s with
      | String c s' => if p c then k s' g else None
      | EmptyString => None
      end
  | Cat r1 r2 => matches r1 s g (fun s' g' => matches r2 s' g' k)
  | Alt r1 r2 =>
      match matches r1 s g k with
      | Some x => Some x
      | None => matches r2 s g k
      end
  | Star r1 =>
      (fix star (n : nat) (s : string) (g : option string) :=
         match n with
         | O => k s g
         | S n' =>
             match matches r1 s g (fun s' g' =>
                     if (String.length s' <? String.length s)%nat
                     then star n' s' g' else None) with
             | Some x => Some x
             | None => k s g
             end
         end) (String.length s) s g
  | Group r1 =>
      matches r1 s g (fun s' _ =>
        k s' (Some (str_take (String.length s - String.length s') s)))
  end.

(** [re.match]: the text left after the match and the captured group. *)
Definition match_here (r : regex) (s : string)
    : option (string * option string) :=
  matches r s None (fun s' g => Some (s', g)).

(** [re.findall r s]: the matches from left to right, without overlap;
    each is reported by its group when the pattern has one, else by the
    matched text. *)
Fixpoint findall_from (fuel : nat) (r : regex) (s : string) : list string :=
  match fuel with
  | O => []
  | S fuel' =>
      match match_here r s with
      | Some (rest, g) =>
          let whole := str_take (String.length s - String.length rest) s in
          let item := match g with Some t => t | None => whole end in
          match s with
          | EmptyString => [item]
          | String _ s' =>
              if (String.length rest <? String.length s)%nat
              then item :: findall_from fuel' r rest
              else item :: findall_from fuel' r s'
          end
      | None =>
          match s with
          | EmptyString => []
          | String _ s' => findall_from fuel' r s'
          end
      end
  end.

Definition findall (r : regex) (s : string) : list string :=
  findall_from (S (String.length s)) r s.

(** [for x in v]: the elements of a [list], the keys of a [dict], the
    characters of a [str]. *)
Fixpoint chars (s : string) : list pyval :=
  match s with
  | EmptyString => []
  | String c r => VStr (String c EmptyString) :: chars r
  end.

Definition iterate (v : pyval) : result (list pyval) :=
  match v with
  | VList l => Ok l
  | VDict d => Ok (map (fun kv => VStr (fst kv)) d)
  | VStr s => Ok (chars s)
  | _ => Raise TypeError
  end.

(** [while cond: body], run for at most [fuel] tests of the condition:
    [None] when the loop has not finished by then. *)
Fixpoint while {S} (fuel : nat) (cond : S -> bool) (body : S -> result S)
    (s : S) : option (result S) :=
  match fuel with
  | O => None
  | Datatypes.S fuel' =>
      if cond s then
        match body s with
        | Ok s' => while fuel' cond body s'
        | Raise e => Some (Raise e)
        end
      else Some (Ok s)
  end.

(** ** Stateful code *)

(** A method that reads and updates an object and may raise: the state
    survives an exception, as mutations do in Python. *)
Definition M (S A : Type) : Type := S -> result A * S.

Definition ret {S A} (a : A) : M S A := fun s => (Ok a, s).

Definition bindM {S A B} (m : M S A) (k : A -> M S B) : M S B :=
  fun s =>
    match m s with
    | (Ok a, s') => k a s'
    | (Raise e, s') => (Raise e, s')
    end.

Definition lift {S A} (r : result A) : M S A := fun s => (r, s).

Definition gets {S A} (f : S -> A) : M S A := fun s => (Ok (f s), s).

Definition modify {S} (f : S -> S) : M S unit := fun s => (Ok tt, f s).

Definition try_exceptM {S A} (body : M S A) (handler : exn -> M S A)
    : M S A :=
  fun s =>
    match body s with
    | (Ok a, s') => (Ok a, s')
    | (Raise e, s') => handler e s'
    end.

Declare Scope pym_scope.
Delimit Scope pym_scope with pym.
Notation "x <~ e ;; k" := (bindM e (fun x => k))
  (at level 61, e at next level, right associativity) : pym_scope.
Notation "e ;;~ k" := (bindM e (fun _ => k))
  (at level 61, right associativity) : pym_scope.

(** [for x in xs: body x] *)
Fixpoint for_each {S A} (xs : list A) (body : A -> M S unit) : M S unit :=
  match xs with
  | [] => ret tt
  | x :: r => bindM (body x) (fun _ => for_each r body)
  end.

(** ** What the sources take from libraries and from the machine *)

(** The [json] module, string formatting and the clock are not part of
    the repository: the model is parametric in them. *)
Class Runtime : Type := {
  (** [json.dumps] *)
  json_dumps : pyval -> string;
  (** What [json.loads] returns; [None] when it raises. *)
  json_loads : string -> option pyval;
  (** [format(v, spec)], the conversion behind [f"{v:spec}"]; the empty
      [spec] is [str(v)]. *)
  format : pyval -> string -> string;
  (** [str(e)] for an exception. *)
  str_exn : exn -> string;
  (** [os.getenv] *)
  getenv : string -> option string;
  (** The successive readings of [time.time()], in seconds. *)
  time : nat -> float;
  (** The successive readings of [datetime.now()], in microseconds. *)
  clock : nat -> Z;
  (** [t.isoformat()] *)
  isoformat : Z -> string;
}.

(** [json.loads(text)] *)
Definition loads {R : Runtime} (text : string) : result pyval :=
  match json_loads text with
  | Some v => Ok v
  | None => Raise JSONDecodeError
  end.

(** [json.loads (json.dumps v)] gives [v] back. *)
Definition json_roundtrip (R : Runtime) : Prop :=
  forall v : pyval, json_loads (json_dumps v) = Some v.

End Py.

(* ================================================================== *)
(** * agents/controller.py *)
(* ================================================================== *)

Module Controller.
Import Py.
Local Open Scope string_scope.
Local Open Scope pym_scope.

(** Records of the module's [logger]. *)
Inductive level : Type := INFO | WARNING | ERROR.

(** [self.workflow_state]: a dictionary with a fixed set of keys. *)
Record workflow_state : Type := {
  status : string;
  current_task : pyval;
  completed_tasks : list pyval;
  failed_tasks : list pyval;
  start_time : option Z;
  validation_data : dict;
}.

(** A [ControllerAgent]: its workflow state, and the clock and the log
    it acts on.  The CrewAI agent and the language model it holds are
    not used by the methods below. *)
Record ControllerAgent : Type := {
  state : workflow_state;
  ticks : nat;
  log : list (level * string);
}.

(** [ControllerAgent.__init__] *)
Definition init : ControllerAgent :=
  {| state := {| status := "idle"; current_task := VNone;
                 completed_tasks := []; failed_tasks := [];
                 start_time := None; validation_data := [] |};
     ticks := 0;
     log := [] |}.

Definition with_state (f : workflow_state -> workflow_state)
    : M ControllerAgent unit :=
  modify (fun self =>
    {| state := f (state self); ticks := ticks self; log := log self |}).

Definition set_status (s : string) : M ControllerAgent unit :=
  with_state (fun w =>
    {| status := s; current_task := current_task w;
       completed_tasks := completed_tasks w; failed_tasks := failed_tasks w;
       start_time := start_time w; validation_data := validation_data w |}).

Definition set_start_time (t : Z) : M ControllerAgent unit :=
  with_state (fun w =>
    {| status := status w; current_task := current_task w;
       completed_tasks := completed_tasks w; failed_tasks := failed_tasks w;
       start_time := Some t; validation_data := validation_data w |}).

(** [self.workflow_state["validation_data"][k] = v] *)
Definition set_validation_data (k : string) (v : pyval)
    : M ControllerAgent unit :=
  with_state (fun w =>
    {| status := status w; current_task := current_task w;
       completed_tasks := completed_tasks w; failed_tasks := failed_tasks w;
       start_time := start_time w;
       validation_data := dict_set k v (validation_data w) |}).

(** [logger.info], [logger.warning], [logger.error] *)
Definition logger (l : level) (msg : string) : M ControllerAgent unit :=
  modify (fun self =>
    {| state := state self; ticks := ticks self;
       log := log self ++ [(l, msg)] |}).

Section WithRuntime.
Context {R : Runtime}.

(** [datetime.now()] *)
Definition datetime_now : M ControllerAgent Z :=
  fun self =>
    (Ok (clock (ticks self)),
     {| state := state self; ticks := S (ticks self); log := log self |}).

Definition rule (order : Z) (agent : string) (min_confidence : float)
    (fallback : string) (success_criteria : dict) : pyval :=
  VDict [("required", VBool true); ("order", VInt order);
         ("agent", VStr agent); ("min_confidence", VFloat min_confidence);
         ("fallback", VStr fallback);
         ("success_criteria", VDict success_criteria)].

Definition _define_routing_rules : dict :=
  [("market_validation",
     rule 1 "market_analyst" 0.7 "basic_market_check"
       [("market_size_found", VBool true); ("tam_calculated", VBool true);
        ("growth_rate_identified", VBool true)]);
   ("competitor_analysis",
     rule 2 "competitor_researcher" 0.6 "simplified_competitor_search"
       [("competitors_found", VStr ">=3");
        ("market_gaps_identified", VBool true)]);
   ("technical_feasibility",
     rule 3 "technical_architect" 0.8 "basic_tech_assessment"
       [("tech_stack_defined", VBool true); ("timeline_estimated", VBool true);
        ("risks_identified", VBool true)]);
   ("financial_analysis",
     rule 4 "financial_analyst" 0.7 "simple_cost_estimate"
       [("costs_calculated", VBool true); ("revenue_projected", VBool true);
        ("break_even_estimated", VBool true)]);
   ("strategy_synthesis",
     rule 5 "strategy_advisor" 0.8 "basic_recommendation"
       [("verdict_provided", VBool true); ("score_calculated", VBool true);
        ("next_steps_defined", VBool true)])].

Definition spam_keywords : list string := ["test"; "asdf"; "123"; "xxx"].

Definition _pre_validation_check (startup_idea : string)
    : M ControllerAgent bool :=
  if (String.length startup_idea <? 10)%nat then
    logger WARNING "Startup idea too short" ;;~
    ret false
  else if any_in spam_keywords (lower startup_idea) then
    logger WARNING "Potential spam detected" ;;~
    ret false
  else ret true.

Definition _execute_task (task_name : string) (rules : pyval)
    : M ControllerAgent pyval :=
  logger INFO ("Executing task: " ++ task_name) ;;~
  ret (VDict [("status", VStr "completed");
              ("confidence", VFloat 0.85);
              ("data", VStr ("Mock data for " ++ task_name))]).

Definition _execute_fallback (task_name : string) (fallback_strategy : pyval)
    : M ControllerAgent pyval :=
  logger INFO ("Executing fallback for " ++ task_name ++ ": "
               ++ format fallback_strategy "") ;;~
  ret (VDict [("status", VStr "completed_with_fallback");
              ("confidence", VFloat 0.6);
              ("data", VStr ("Fallback data for " ++ task_name))]).

Definition _check_success_criteria (result criteria : pyval) : Py.result bool :=
  (st <- get result "status" VNone ;;
   if eq_str st "completed" then
     c <- get result "confidence" (VInt 0) ;;
     compare_with num_gt c (NFloat 0.5)
   else Ok false)%py.

Definition weights : list (string * float) :=
  [("market_validation", 0.3%float); ("competitor_analysis", 0.2%float);
   ("technical_feasibility", 0.2%float); ("financial_analysis", 0.2%float);
   ("strategy_synthesis", 0.1%float)].

Fixpoint score_loop (data : dict) (ws : list (string * float))
    (total_score : pyval) : result pyval :=
  match ws with
  | [] => Ok total_score
  | (key, weight) :: r =>
      match lookup key data with
      | Some task =>
          if truthy task then
            (confidence <- get task "confidence" (VFloat 0.5) ;;
             x <- mul_by confidence (NFloat weight) ;;
             y <- mul_by x (NInt 10) ;;
             total <- add total_score y ;;
             score_loop data r total)%py
          else score_loop data r total_score
      | None => score_loop data r total_score
      end
  end.

Definition _calculate_validation_score (data : dict) : result pynum :=
  (total_score <- score_loop data weights (VInt 0) ;;
   match as_number total_score with
   | Some n => Ok (num_round n 1)
   | None => Raise TypeError
   end)%py.

Definition _determine_verdict (score : pynum) : string :=
  if num_ge score (NFloat 7.5) then "GO ✅"
  else if num_ge score (NFloat 5.0) then "PIVOT ⚠️"
  else "NO-GO ❌".

Fixpoint confidences_of (tasks : list pyval) : list pyval :=
  match tasks with
  | [] => []
  | VDict d :: r =>
      match lookup "confidence" d with
      | Some c => c :: confidences_of r
      | None => confidences_of r
      end
  | _ :: r => confidences_of r
  end.

Definition _calculate_confidence : M ControllerAgent pynum :=
  data <~ gets (fun self => validation_data (state self)) ;;
  let confidences := confidences_of (map snd data) in
  match confidences with
  | [] => ret (NFloat 0.5)
  | _ =>
      lift (total <- sum confidences ;;
            num_truediv total (NInt (Z.of_nat (List.length confidences))))%py
  end.

(** [(t1 - t0).seconds]: the seconds field of the time difference. *)
Definition timedelta_seconds (t1 t0 : Z) : Z :=
  (((t1 - t0) / 1000000) mod 86400)%Z.

Definition or_none (o : option pyval) : pyval :=
  match o with Some v => v | None => VNone end.

Definition _synthesize_results : M ControllerAgent pyval :=
  data <~ gets (fun self => validation_data (state self)) ;;
  score <~ lift (_calculate_validation_score data) ;;
  let verdict := _determine_verdict score in
  now <~ datetime_now ;;
  started <~ gets (fun self => start_time (state self)) ;;
  execution_time <~ lift (match started with
                          | Some t0 => Ok (timedelta_seconds now t0)
                          | None => Raise TypeError
                          end) ;;
  stamp <~ datetime_now ;;
  confidence <~ _calculate_confidence ;;
  ret (VDict
    [("idea", or_none (lookup "idea" data));
     ("score", of_number score);
     ("verdict", VStr verdict);
     ("execution_time", VInt execution_time);
     ("market_analysis", or_none (lookup "market_validation" data));
     ("competitors", or_none (lookup "competitor_analysis" data));
     ("technical", or_none (lookup "technical_feasibility" data));
     ("financial", or_none (lookup "financial_analysis" data));
     ("strategy", or_none (lookup "strategy_synthesis" data));
     ("metadata", VDict [("timestamp", VStr (isoformat stamp));
                         ("version", VStr "1.0");
                         ("confidence", of_number confidence)])]).

Definition _handle_critical_error (e : exn) : M ControllerAgent pyval :=
  now <~ datetime_now ;;
  ret (VDict [("error", VBool true);
              ("message", VStr ("Validation failed: " ++ str_exn e));
              ("status", VStr "failed");
              ("timestamp", VStr (isoformat now))]).

Definition _create_error_response (message : string)
    : M ControllerAgent pyval :=
  now <~ datetime_now ;;
  ret (VDict [("error", VBool true);
              ("message", VStr message);
              ("status", VStr "error");
              ("timestamp", VStr (isoformat now))]).

(** The body of the loop over [self.routing_rules.items()]. *)
Definition route (item : string * pyval) : M ControllerAgent unit :=
  let '(task_name, rules) := item in
  required <~ lift (getitem rules "required") ;;
  if truthy required then
    result <~ _execute_task task_name rules ;;
    set_validation_data task_name result ;;~
    criteria <~ lift (getitem rules "success_criteria") ;;
    met <~ lift (_check_success_criteria result criteria) ;;
    if negb met then
      logger WARNING ("Task " ++ task_name ++ " didn't meet success criteria") ;;~
      fallback <~ lift (getitem rules "fallback") ;;
      result' <~ _execute_fallback task_name fallback ;;
      set_validation_data task_name result'
    else ret tt
  else ret tt.

Definition start_validation (startup_idea : string)
    : M ControllerAgent pyval :=
  logger INFO ("Starting validation for: " ++ startup_idea) ;;~
  set_status "running" ;;~
  now <~ datetime_now ;;
  set_start_time now ;;~
  set_validation_data "idea" (VStr startup_idea) ;;~
  valid <~ _pre_validation_check startup_idea ;;
  if negb valid then _create_error_response "Invalid input"
  else
    try_exceptM
      (for_each _define_routing_rules route ;;~
       final_result <~ _synthesize_results ;;
       set_status "completed" ;;~
       ret final_result)
      (fun e =>
         logger ERROR ("Validation failed: " ++ str_exn e) ;;~
         _handle_critical_error e).

(** [get_status] *)
Definition get_status : M ControllerAgent pyval :=
  w <~ gets state ;;
  elapsed_time <~ match start_time w with
                  | Some t0 =>
                      now <~ datetime_now ;;
                      ret (timedelta_seconds now t0)
                  | None => ret 0%Z
                  end ;;
  ret (VDict
    [("status", VStr (status w));
     ("current_task", current_task w);
     ("completed_tasks", VInt (Z.of_nat (List.length (completed_tasks w))));
     ("elapsed_time", VInt elapsed_time)]).

End WithRuntime.

End Controller.

(* ================================================================== *)
(** * agents/strategy_advisor.py *)
(* ================================================================== *)

Module StrategyAdvisor.
Import Py.
Local Open Scope string_scope.
Local Open Scope py_scope.

Section WithRuntime.
Context {R : Runtime}.

Definition strs (l : list string) : pyval := VList (map VStr l).

(** The scoring weights and the component scores of
    [calculate_validation_score]. *)
Definition weights : list (string * float) :=
  [("market_size", 0.25%float); ("competition", 0.20%float);
   ("technical_feasibility", 0.20%float);
   ("financial_viability", 0.20%float); ("timing", 0.15%float)].

Definition scores : dict :=
  [("market_size", VFloat 7.5); ("competition", VFloat 6.0);
   ("technical_feasibility", VFloat 8.0);
   ("financial_viability", VFloat 7.0); ("timing", VFloat 7.5)].

(** [scores[key] * weights[key] for key in weights] *)
Fixpoint weighted (ws : list (string * float)) : result (list pyval) :=
  match ws with
  | [] => Ok []
  | (key, weight) :: r =>
      score <- getitem (VDict scores) key ;;
      x <- mul_by score (NFloat weight) ;;
      xs <- weighted r ;;
      Ok (x :: xs)
  end.

Definition calculate_validation_score (analysis_data : string)
    : result string :=
  try_except
    (data <- (if contains "{" analysis_data
              then loads analysis_data
              else Ok (VDict [])) ;;
     terms <- weighted weights ;;
     total_score <- sum terms ;;
     Ok (json_dumps (VDict
       [("overall_score", of_number (num_round total_score 1));
        ("component_scores", VDict scores);
        ("confidence", VFloat 0.85)])))
    (fun e =>
       Ok (json_dumps (VDict [("overall_score", VFloat 6.5);
                              ("error", VStr (str_exn e))]))).

Definition generate_recommendations (score : pyval) : result string :=
  go <- compare_with num_ge score (NFloat 7.5) ;;
  choice <-
    (if go then
       Ok ("GO", "✅",
           ["Proceed with MVP development";
            "Focus on rapid market entry";
            "Secure seed funding";
            "Build core team";
            "Establish early customer relationships"])
     else
       pivot <- compare_with num_ge score (NFloat 5.0) ;;
       if pivot then
         Ok ("PIVOT", "⚠️",
             ["Refine value proposition";
              "Focus on underserved niche";
              "Reduce initial scope";
              "Validate with potential customers";
              "Consider alternative business models"])
       else
         Ok ("NO-GO", "❌",
             ["Reconsider the fundamental concept";
              "Research alternative markets";
              "Explore different problem spaces";
              "Join an accelerator for guidance";
              "Consider partnering with existing players"])) ;;
  let '(verdict, emoji, recommendations) := choice in
  Ok (json_dumps (VDict
    [("verdict", VStr (verdict ++ " " ++ emoji));
     ("recommendations", strs recommendations);
     ("key_success_factors",
      strs ["Strong execution"; "Customer focus"; "Rapid iteration"])])).

Definition plan (immediate_actions goals_30 goals_90 : list string) : pyval :=
  VDict [("immediate_actions", strs immediate_actions);
         ("30_day_goals", strs goals_30);
         ("90_day_goals", strs goals_90)].

Definition create_action_plan (verdict : pyval) : result string :=
  go <- contains_key "GO" verdict ;;
  if go then
    Ok (json_dumps (plan
      ["Validate with 20 potential customers"; "Build technical prototype";
       "Form founding team"; "Apply to accelerators"]
      ["Complete customer interviews"; "Finalize MVP features";
       "Secure technical co-founder"]
      ["Launch MVP"; "Acquire first 100 users"; "Raise pre-seed funding"]))
  else
    pivot <- contains_key "PIVOT" verdict ;;
    if pivot then
      Ok (json_dumps (plan
        ["Identify specific niche to target"; "Revise value proposition";
         "Survey target customers"]
        ["Complete pivot strategy"; "Test new positioning";
         "Update business model"]
        ["Launch revised MVP"; "Measure traction metrics";
         "Decide on path forward"]))
    else
      Ok (json_dumps (plan
        ["Document lessons learned"; "Explore adjacent opportunities";
         "Network with other entrepreneurs"]
        ["Generate new ideas"; "Join startup community";
         "Find mentor or advisor"]
        ["Validate new concept"; "Build skills in weak areas";
         "Consider joining existing startup"])).

Definition synthesize (all_analyses : pyval) : result pyval :=
  score_text <- calculate_validation_score (json_dumps all_analyses) ;;
  score_result <- loads score_text ;;
  overall_score <- getitem score_result "overall_score" ;;
  recommendations_text <- generate_recommendations overall_score ;;
  recommendations <- loads recommendations_text ;;
  verdict <- getitem recommendations "verdict" ;;
  plan_text <- create_action_plan verdict ;;
  action_plan <- loads plan_text ;;
  verdict' <- getitem recommendations "verdict" ;;
  recs <- getitem recommendations "recommendations" ;;
  factors <- getitem recommendations "key_success_factors" ;;
  verdict'' <- getitem recommendations "verdict" ;;
  Ok (VDict
    [("score", overall_score);
     ("verdict", verdict');
     ("recommendations", recs);
     ("action_plan", action_plan);
     ("key_success_factors", factors);
     ("confidence", VFloat 0.85);
     ("summary", VStr ("Validation Score: " ++ format overall_score ""
                       ++ "/10 - " ++ format verdict'' ""))]).

End WithRuntime.

End StrategyAdvisor.

(* ================================================================== *)
(** * agents/technical_architect.py *)
(* ================================================================== *)

Module TechnicalArchitect.
Import Py.
Local Open Scope string_scope.
Local Open Scope py_scope.

Section WithRuntime.
Context {R : Runtime}.

Definition high_keywords : list string :=
  ["ai"; "machine learning"; "blockchain"; "ar"; "vr"; "quantum";
   "autonomous"; "robotics"; "deep learning"; "neural"].

Definition medium_keywords : list string :=
  ["marketplace"; "platform"; "app"; "saas"; "api"; "integration";
   "analytics"; "dashboard"; "automation"; "cloud"].

Definition low_keywords : list string :=
  ["website"; "blog"; "landing page"; "newsletter"; "directory";
   "simple"; "basic"; "static"].

Definition complexity_indicators : list (string * list string) :=
  [("high", high_keywords); ("medium", medium_keywords);
   ("low", low_keywords)].

(** [{'high': 8, 'medium': 5, 'low': 3}[level]] *)
Definition level_score (level : string) : result pyval :=
  getitem (VDict [("high", VInt 8); ("medium", VInt 5); ("low", VInt 3)])
          level.

(** The loop over [complexity_indicators.items()], left at the first
    level one of whose keywords occurs in [idea_lower]. *)
Fixpoint classify (idea_lower : string)
    (indicators : list (string * list string))
    (complexity : string) (complexity_score : pyval)
    : result (string * pyval) :=
  match indicators with
  | [] => Ok (complexity, complexity_score)
  | (level, keywords) :: r =>
      if any_in keywords idea_lower then
        score <- level_score level ;;
        Ok (level, score)
      else classify idea_lower r complexity complexity_score
  end.

(** The dictionary [assess_technical_complexity] serialises. *)
Definition complexity_result (idea : string) : result pyval :=
  let idea_lower := lower idea in
  found <- classify idea_lower complexity_indicators "medium" (VInt 5) ;;
  let '(complexity, complexity_score) := found in
  Ok (VDict
    [("complexity", VStr complexity);
     ("score", complexity_score);
     ("description", VStr ("This project has " ++ complexity
                           ++ " technical complexity"))]).

Definition assess_technical_complexity (idea : string) : result string :=
  result <- complexity_result idea ;;
  Ok (json_dumps result).

Definition recommend_tech_stack (idea : string) : result string :=
  let idea_lower := lower idea in
  let stack :=
    [("frontend", VStr "React/Next.js");
     ("backend", VStr "Node.js/Python FastAPI");
     ("database", VStr "PostgreSQL");
     ("hosting", VStr "AWS/Vercel");
     ("additional", VList [])] in
  let append_additional (x : string) (stack : dict) : dict :=
    match lookup "additional" stack with
    | Some (VList l) => dict_set "additional" (VList (l ++ [VStr x])) stack
    | _ => stack
    end in
  let stack :=
    if contains "mobile" idea_lower || contains "app" idea_lower
    then append_additional "Push notifications"
           (dict_set "mobile" (VStr "React Native or Flutter") stack)
    else stack in
  let stack :=
    if contains "ai" idea_lower || contains "machine learning" idea_lower
    then append_additional "GPU infrastructure"
           (dict_set "ml" (VStr "TensorFlow/PyTorch")
              (dict_set "backend" (VStr "Python FastAPI") stack))
    else stack in
  let stack :=
    if contains "real-time" idea_lower || contains "live" idea_lower
    then append_additional "Redis for caching"
           (dict_set "realtime" (VStr "WebSockets/Socket.io") stack)
    else stack in
  let stack :=
    if contains "marketplace" idea_lower || contains "payment" idea_lower
    then append_additional "Payment processing"
           (dict_set "payments" (VStr "Stripe/PayPal") stack)
    else stack in
  Ok (json_dumps (VDict stack)).

Definition timelines : dict :=
  [("low", VDict [("mvp", VStr "1-2 months"); ("beta", VStr "2-3 months");
                  ("launch", VStr "3-4 months");
                  ("team_size", VStr "1-2 developers")]);
   ("medium", VDict [("mvp", VStr "3-4 months"); ("beta", VStr "4-6 months");
                     ("launch", VStr "6-8 months");
                     ("team_size", VStr "2-4 developers")]);
   ("high", VDict [("mvp", VStr "6-8 months"); ("beta", VStr "8-10 months");
                   ("launch", VStr "10-12 months");
                   ("team_size", VStr "4-8 developers")])].

Definition estimate_development_timeline (complexity : pyval)
    : result string :=
  match complexity with
  | VStr c =>
      default <- getitem (VDict timelines) "medium" ;;
      timeline <- get (VDict timelines) (lower c) default ;;
      Ok (json_dumps timeline)
  | _ => Raise AttributeError
  end.

Definition analyze (startup_idea : string) : result pyval :=
  complexity_text <- assess_technical_complexity startup_idea ;;
  complexity_result <- loads complexity_text ;;
  stack_text <- recommend_tech_stack startup_idea ;;
  tech_stack <- loads stack_text ;;
  complexity <- getitem complexity_result "complexity" ;;
  timeline_text <- estimate_development_timeline complexity ;;
  timeline <- loads timeline_text ;;
  complexity' <- getitem complexity_result "complexity" ;;
  mvp <- getitem timeline "mvp" ;;
  Ok (VDict
    [("complexity", complexity_result);
     ("tech_stack", tech_stack);
     ("timeline", timeline);
     ("confidence", VFloat 0.85);
     ("summary", VStr ("Technical complexity: " ++ format complexity' ""
                       ++ ", MVP timeline: " ++ format mvp ""))]).

End WithRuntime.

End TechnicalArchitect.

(* ================================================================== *)
(** * agents/financial_analyst.py *)
(* ================================================================== *)

Module FinancialAnalyst.
Import Py.
Local Open Scope string_scope.
Local Open Scope py_scope.

Section WithRuntime.
Context {R : Runtime}.

Definition cost_table (development marketing operations legal other : Z)
    : dict :=
  [("development", VInt development); ("marketing", VInt marketing);
   ("operations", VInt operations); ("legal", VInt legal);
   ("other", VInt other)].

Definition calculate_startup_costs (idea_type : string) : result string :=
  let idea_lower := lower idea_type in
  let costs :=
    if contains "marketplace" idea_lower || contains "platform" idea_lower
    then cost_table 50000 20000 15000 10000 5000
    else if contains "app" idea_lower || contains "mobile" idea_lower
    then cost_table 30000 15000 10000 5000 5000
    else if contains "saas" idea_lower || contains "software" idea_lower
    then cost_table 40000 25000 10000 5000 5000
    else cost_table 25000 10000 8000 3000 4000 in
  total <- sum (map snd costs) ;;
  let costs := dict_set "total" (of_number total) costs in
  let costs :=
    dict_set "formatted_total"
      (VStr ("$" ++ format (of_number total) ",")) costs in
  Ok (json_dumps (VDict costs)).

(** The pattern "[\d.]+" *)
Definition number_run : regex :=
  Plus (Chr (fun c => is_digit c || Ascii.eqb c "."%char)).

(** [int(market_value * capture_rate * factor)] *)
Definition projection (market_value capture_rate : pynum) (factor : float)
    : result pyval :=
  x <- num_mul market_value capture_rate ;;
  y <- num_mul x (NFloat factor) ;;
  z <- num_int y ;;
  Ok (VInt z).

(** The dictionary [project_revenue] serialises. *)
Definition revenue_projections (market_size : string) (capture_rate : pynum)
    : result pyval :=
  let multiplier :=
    if contains "B" market_size || contains "billion" (lower market_size)
    then 1000000000%Z
    else if contains "M" market_size || contains "million" (lower market_size)
    then 1000000%Z
    else 1000000%Z in
  let numbers := findall number_run market_size in
  base_number <- match numbers with
                 | first :: _ => f <- float_of_string first ;; Ok (NFloat f)
                 | [] => Ok (NInt 100)
                 end ;;
  market_value <- num_mul base_number (NInt multiplier) ;;
  year_1 <- projection market_value capture_rate 0.1 ;;
  year_2 <- projection market_value capture_rate 0.3 ;;
  year_3 <- projection market_value capture_rate 1.0 ;;
  year_5 <- projection market_value capture_rate 2.5 ;;
  let projections :=
    [("year_1", year_1); ("year_2", year_2);
     ("year_3", year_3); ("year_5", year_5)] in
  let formatted :=
    map (fun kv => (fst kv ++ "_formatted",
                    VStr ("$" ++ format (snd kv) ","))) projections in
  Ok (VDict (fold_left (fun d kv => dict_set (fst kv) (snd kv) d)
               formatted projections)).

Definition project_revenue (market_size : string) (capture_rate : pynum)
    : result string :=
  projections <- revenue_projections market_size capture_rate ;;
  Ok (json_dumps projections).

(** The default of [capture_rate]. *)
Definition default_capture_rate : pynum := NFloat 0.001.

(** The variables of the break-even loop. *)
Record simulation : Type := {
  months : Z;
  cumulative_loss : pynum;
  current_revenue : pynum;
}.

(** [cumulative_loss < total_costs and months < 36] *)
Definition running (total_costs : pynum) (s : simulation) : bool :=
  num_lt (cumulative_loss s) total_costs && (months s <? 36)%Z.

(** One month of the simulation. *)
Definition month (monthly_burn revenue_growth : pynum) (s : simulation)
    : result simulation :=
  let months' := (months s + 1)%Z in
  profit <- num_sub (current_revenue s) monthly_burn ;;
  rest <- num_sub (cumulative_loss s) profit ;;
  let cumulative_loss' := num_max (NInt 0) rest in
  current_revenue' <- num_mul (current_revenue s) revenue_growth ;;
  Ok {| months := months';
        cumulative_loss := cumulative_loss';
        current_revenue := current_revenue' |}.

(** The fuel of the break-even loop; [FinancialAnalystFacts.break_even_months]
    shows that it is never exhausted. *)
Definition loop_fuel : nat := 37.

(** The values computed before the loop: [total_costs] as found and as
    a number, and [monthly_burn]. *)
Definition burn_rate (costs : string) : result (pyval * pynum * pynum) :=
  costs_data <- (if contains "{" costs
                 then loads costs
                 else Ok (VDict [("total", VInt 100000)])) ;;
  total_costs <- get costs_data "total" (VInt 100000) ;;
  burn <- mul_by total_costs (NFloat 0.3) ;;
  monthly_burn <- match as_number burn with
                  | Some b => num_truediv b (NInt 12)
                  | None => Raise TypeError
                  end ;;
  total <- match as_number total_costs with
           | Some t => Ok t
           | None => Raise TypeError
           end ;;
  Ok (total_costs, total, monthly_burn).

(** The dictionary the [try] block of [calculate_break_even] builds;
    [None] if the loop exhausts its fuel. *)
Definition break_even (costs : string) : option (result pyval) :=
  match burn_rate costs with
  | Raise e => Some (Raise e)
  | Ok (total_costs, total, monthly_burn) =>
      let starting_revenue := NInt 5000 in
      let revenue_growth := NFloat 1.15 in
      match while loop_fuel (running total)
              (month monthly_burn revenue_growth)
              {| months := 0; cumulative_loss := NInt 0;
                 current_revenue := starting_revenue |} with
      | None => None
      | Some (Raise e) => Some (Raise e)
      | Some (Ok final) =>
          Some (Ok (VDict
            [("months_to_break_even", VInt (months final));
             ("break_even_timeline",
              VStr (format (VInt (months final)) "" ++ " months"));
             ("initial_investment", VStr ("$" ++ format total_costs ","));
             ("monthly_burn",
              VStr ("$" ++ format (of_number monthly_burn) ",.0f"))]))
      end
  end.

(** The dictionary the [except] clause of [calculate_break_even]
    returns. *)
Definition break_even_default : pyval :=
  VDict [("months_to_break_even", VInt 18);
         ("break_even_timeline", VStr "18 months");
         ("note", VStr "Estimated based on industry average")].

Definition calculate_break_even (costs monthly_revenue : string)
    : option (result string) :=
  match break_even costs with
  | None => None
  | Some body =>
      Some (try_except
              (result <- body ;; Ok (json_dumps result))
              (fun e => Ok (json_dumps break_even_default)))
  end.

Definition analyze (startup_idea : string) (market_data : pyval)
    : option (result pyval) :=
  match
    (costs_text <- calculate_startup_costs startup_idea ;;
     costs <- loads costs_text ;;
     market_size <-
       (if negb (truthy market_data) then Ok (VStr "$100B")
        else tam <- get market_data "TAM" (VDict []) ;;
             get tam "formatted" (VStr "$100B")) ;;
     revenue_text <- match market_size with
                     | VStr s => project_revenue s default_capture_rate
                     | _ => Raise TypeError
                     end ;;
     revenue <- loads revenue_text ;;
     Ok (costs, revenue))
  with
  | Raise e => Some (Raise e)
  | Ok (costs, revenue) =>
      match calculate_break_even (json_dumps costs) "10000" with
      | None => None
      | Some text =>
          Some
            (break_even_text <- text ;;
             break_even <- loads break_even_text ;;
             formatted_total <- getitem costs "formatted_total" ;;
             timeline <- getitem break_even "break_even_timeline" ;;
             Ok (VDict
               [("startup_costs", costs);
                ("revenue_projections", revenue);
                ("break_even_analysis", break_even);
                ("confidence", VFloat 0.75);
                ("summary",
                 VStr ("Initial investment: " ++ format formatted_total ""
                       ++ ", Break-even: " ++ format timeline ""))]))
      end
  end.

End WithRuntime.

End FinancialAnalyst.

(* ================================================================== *)
(** * agents/market_analyst_fixed.py *)
(* ================================================================== *)

Module MarketAnalyst.
Import Py.
Local Open Scope string_scope.
Local Open Scope py_scope.

(** The two tools that query the search service.  Each wraps its body
    in [try ... except Exception] and returns JSON text in every case;
    what the text holds depends on the network. *)
Class Search : Type := {
  search_market_data : string -> string;
  analyze_market_trends : string -> string;
}.

Section WithRuntime.
Context {R : Runtime} {N : Search}.

Definition baselines : list (string * pynum) :=
  [("ai", NInt 200); ("fintech", NInt 380); ("healthtech", NInt 450);
   ("edtech", NInt 300); ("ecommerce", NInt 5000); ("saas", NInt 195);
   ("meal", NInt 100); ("food", NInt 2000); ("sustainability", NInt 250);
   ("nutrition", NFloat 15.8); ("diabetes", NInt 450)].

Fixpoint first_baseline (industry_lower : string)
    (items : list (string * pynum)) : pynum :=
  match items with
  | [] => NInt 100
  | (key, value) :: r =>
      if contains key industry_lower then value
      else first_baseline industry_lower r
  end.

Definition _get_industry_baseline (industry : string) : pynum :=
  first_baseline (lower industry) baselines.

(** The pattern "\d+\.?\d*" *)
Definition number : regex :=
  Cat (Plus digit) (Cat (Opt (Lit false ".")) (Star digit)).

(** The pattern "(?:USD S)?(N) S (?:word|letter)" under [re.I], where N
    is [number] and S is any run of "\s", with no blank in between. *)
Definition sized (word letter : string) : regex :=
  Cat (Opt (Cat (Lit true "USD") (Star space)))
      (Cat (Group number)
           (Cat (Star space) (Alt (Lit true word) (Lit true letter)))).

Definition billion_pattern : regex := sized "billion" "B".
Definition million_pattern : regex := sized "million" "M".

(** The pattern "[\d.]+" *)
Definition number_run : regex :=
  Plus (Chr (fun c => is_digit c || Ascii.eqb c "."%char)).

(** [float(text) * unit] *)
Definition scaled (text : string) (unit : Z) : result pyval :=
  value <- float_of_string text ;;
  t <- num_mul (NFloat value) (NInt unit) ;;
  Ok (of_number t).

(** The loop over the [numbers] of an insight: the value of
    [tam_value] when the loop is left. *)
Fixpoint scan_numbers (numbers : list pyval) (tam_value : pyval)
    : result pyval :=
  match numbers with
  | [] => Ok tam_value
  | VStr num :: r =>
      match findall number_run num with
      | first :: _ =>
          value <- float_of_string first ;;
          if contains "B" num || contains "billion" (lower num) then
            t <- num_mul (NFloat value) (NInt 1000000000) ;;
            Ok (of_number t)
          else if contains "M" num || contains "million" (lower num) then
            t <- num_mul (NFloat value) (NInt 1000000) ;;
            Ok (of_number t)
          else scan_numbers r tam_value
      | [] => scan_numbers r tam_value
      end
  | _ :: _ => Raise TypeError
  end.

(** The loop over the insights. *)
Fixpoint scan_insights (insights : list pyval) (tam_value : pyval)
    : result pyval :=
  match insights with
  | [] => Ok tam_value
  | insight :: r =>
      insight_text <- get insight "insight" (VStr "") ;;
      numbers <- get insight "numbers" (VList []) ;;
      match insight_text with
      | VStr text =>
          match findall billion_pattern text,
                findall million_pattern text with
          | first :: _, _ => scaled first 1000000000
          | [], first :: _ => scaled first 1000000
          | [], [] =>
              nums <- iterate numbers ;;
              tam_value' <- scan_numbers nums tam_value ;;
              if truthy tam_value' then Ok tam_value'
              else scan_insights r tam_value'
          end
      | _ => Raise TypeError
      end
  end.

(** [tam_value] after the inner [try] block. *)
Definition extract_tam (market_data : option string) : result pyval :=
  match market_data with
  | Some text =>
      if negb (String.eqb text "") then
        try_except
          (data <- loads text ;;
           insights <- get data "market_insights" (VList []) ;;
           items <- iterate insights ;;
           scan_insights items VNone)
          (fun e => Ok VNone)
      else Ok VNone
  | None => Ok VNone
  end.

(** [f"${v/1_000_000_000:.1f}B" if v >= 1_000_000_000 else
    f"${v/1_000_000:.1f}M"] *)
Definition money (v : pynum) : result pyval :=
  if num_ge v (NInt 1000000000) then
    q <- num_truediv v (NInt 1000000000) ;;
    Ok (VStr ("$" ++ format (of_number q) ".1f" ++ "B"))
  else
    q <- num_truediv v (NInt 1000000) ;;
    Ok (VStr ("$" ++ format (of_number q) ".1f" ++ "M")).

Definition sized_market (value : pynum) (formatted : pyval) : pyval :=
  VDict [("value", of_number value); ("formatted", formatted)].

(** The dictionary the outer [try] block of [calculate_tam_sam_som]
    builds. *)
Definition tam_sam_som (industry : string) (market_data : option string)
    : result pyval :=
  found <- extract_tam market_data ;;
  tam_value <-
    (if negb (truthy found) then
       num_mul (_get_industry_baseline industry) (NInt 1000000000)
     else match as_number found with
          | Some t => Ok t
          | None => Raise TypeError
          end) ;;
  sam <- num_mul tam_value (NFloat 0.15) ;;
  som <- num_mul sam (NFloat 0.05) ;;
  tam_text <- money tam_value ;;
  sam_text <- money sam ;;
  som_text <- money som ;;
  let given := match market_data with
               | Some text => negb (String.eqb text "")
               | None => false
               end in
  Ok (VDict
    [("TAM", sized_market tam_value tam_text);
     ("SAM", sized_market sam sam_text);
     ("SOM", sized_market som som_text);
     ("data_source",
      VStr (if given && truthy (of_number tam_value)
            then "real_search" else "industry_baseline"))]).

(** The dictionary the outer [except] clause returns. *)
Definition tam_sam_som_default (e : exn) : pyval :=
  VDict
    [("TAM", VDict [("value", VInt 100000000000);
                    ("formatted", VStr "$100.0B")]);
     ("SAM", VDict [("value", VInt 15000000000);
                    ("formatted", VStr "$15.0B")]);
     ("SOM", VDict [("value", VInt 750000000);
                    ("formatted", VStr "$750.0M")]);
     ("data_source", VStr "fallback");
     ("error", VStr (str_exn e))].

Definition calculate_tam_sam_som (industry : string)
    (market_data : option string) : result string :=
  try_except
    (result <- tam_sam_som industry market_data ;; Ok (json_dumps result))
    (fun e => Ok (json_dumps (tam_sam_som_default e))).

Definition industries : list string :=
  ["fintech"; "healthtech"; "edtech"; "ecommerce"; "saas"; "ai"; "meal";
   "food"; "app"; "nutrition"; "diabetes"; "sustainability"; "fashion";
   "travel"; "gaming"; "social"; "marketplace"].

Definition _extract_industry (idea : string) : string :=
  let idea_lower := lower idea in
  match find (fun industry => contains industry idea_lower) industries with
  | Some industry => industry
  | None => "general"
  end.

Definition analyze (startup_idea : string) : result pyval :=
  market_data <- loads (search_market_data startup_idea) ;;
  let industry := _extract_industry startup_idea in
  tam_text <- calculate_tam_sam_som industry (Some (json_dumps market_data)) ;;
  tam_sam_som <- loads tam_text ;;
  trends <- loads (analyze_market_trends startup_idea) ;;
  has_real_data <- get market_data "search_successful" (VBool false) ;;
  let confidence := if truthy has_real_data then 0.9%float else 0.6%float in
  tam <- get tam_sam_som "TAM" (VDict []) ;;
  formatted <- get tam "formatted" (VStr "Unknown") ;;
  growth <- get trends "average_growth_rate" (VStr "Unknown") ;;
  Ok (VDict
    [("market_opportunity", tam_sam_som);
     ("market_research", market_data);
     ("trends", trends);
     ("confidence", VFloat confidence);
     ("data_source",
      VStr (if truthy has_real_data
            then "Real web search via Serper API" else "Industry baselines"));
     ("summary", VStr ("Market TAM: " ++ format formatted ""
                       ++ ", Growth: " ++ format growth ""))]).

End WithRuntime.

End MarketAnalyst.

(* ================================================================== *)
(** * The search service *)
(* ================================================================== *)

(** What the tools of agents/market_analyst_fixed.py and of
    agents/competitor_researcher_fixed.py share: each reads the key of
    the search service from the environment and answers JSON text from
    its [try] block or from its [except] clause. *)
Module Serper.
Import Py.
Local Open Scope string_scope.

Section WithRuntime.
Context {R : Runtime}.

(** [os.getenv('SERPER_API_KEY')] when it passes for true: the variable
    is set and not empty. *)
Definition serper_key : option string :=
  match getenv "SERPER_API_KEY" with
  | Some key => if String.eqb key "" then None else Some key
  | None => None
  end.

(** The text a tool returns: the dictionary of its [try] block, or the
    error of its [except] clause. *)
Definition answer (body : result dict) (failure : string) : string :=
  match body with
  | Ok d => json_dumps (VDict d)
  | Raise e => json_dumps (VDict [("error", VStr (failure ++ str_exn e))])
  end.

End WithRuntime.

End Serper.

(* ================================================================== *)
(** * agents/market_analyst_fixed.py: the search tools *)
(* ================================================================== *)

Module MarketSearch.
Import Py Serper.
Local Open Scope string_scope.

(** What each of the two tools does once it holds a key: the query to
    the search service and the reading of its answer, up to the
    dictionary the tool serialises.  An exception raised on the way is
    caught by the tool. *)
Class Service : Type := {
  search_market : string -> string -> result dict;
  search_trends : string -> string -> result dict;
}.

Section WithRuntime.
Context {R : Runtime} {V : Service}.

Definition search_market_data (query : string) : string :=
  answer
    match serper_key with
    | None => Ok [("error", VStr "No Serper API key found")]
    | Some key => search_market key query
    end
    "Search error: ".

Definition analyze_market_trends (market : string) : string :=
  answer
    match serper_key with
    | None => Ok [("error", VStr "No Serper API key")]
    | Some key => search_trends key market
    end
    "Trend analysis error: ".

(** The tools as [MarketAnalystAgent.analyze] calls them. *)
Definition tools : MarketAnalyst.Search :=
  {| MarketAnalyst.search_market_data := search_market_data;
     MarketAnalyst.analyze_market_trends := analyze_market_trends |}.

End WithRuntime.

End MarketSearch.

(* ================================================================== *)
(** * agents/competitor_researcher_fixed.py *)
(* ================================================================== *)

Module CompetitorResearcher.
Import Py Serper.
Local Open Scope string_scope.
Local Open Scope py_scope.

(** What each tool does once it holds a key: the query to the search
    service and the reading of its answer, up to the dictionary the
    tool serialises.  An exception raised on the way is caught by the
    tool. *)
Class Service : Type := {
  search_competitors : string -> string -> result dict;
  search_competitor : string -> pyval -> result dict;
  search_gaps : string -> list pyval -> result dict;
}.

Section WithRuntime.
Context {R : Runtime} {N : Service}.

Definition find_competitors (startup_idea : string) : string :=
  answer
    match serper_key with
    | None => Ok [("error", VStr "No Serper API key found")]
    | Some key => search_competitors key startup_idea
    end
    "Competitor search error: ".

Definition analyze_competitor (competitor_name : pyval) : string :=
  answer
    match serper_key with
    | None => Ok [("error", VStr "No Serper API key")]
    | Some key => search_competitor key competitor_name
    end
    "Competitor analysis error: ".

(** The gaps returned without a search. *)
Definition common_gaps : dict :=
  [("unserved_segments",
    VList [VStr "Small businesses"; VStr "Non-technical users";
           VStr "Emerging markets"]);
   ("missing_features",
    VList [VStr "AI automation"; VStr "Mobile-first experience";
           VStr "Offline capability"]);
   ("pricing_opportunities",
    VList [VStr "Freemium model"; VStr "Usage-based pricing";
           VStr "SMB-focused tier"]);
   ("geographic_gaps",
    VList [VStr "Southeast Asia"; VStr "Latin America"; VStr "Africa"])].

(** [[c.get('name', '') for c in competitors]] *)
Fixpoint names_of (competitors : list pyval) : result (list pyval) :=
  match competitors with
  | [] => Ok []
  | c :: r =>
      name <- get c "name" (VStr "") ;;
      names <- names_of r ;;
      Ok (name :: names)
  end.

Definition identify_market_gaps (competitors : string) : string :=
  answer
    (comp_data <- loads competitors ;;
     listed <- get comp_data "competitors" (VList []) ;;
     items <- iterate listed ;;
     competitor_names <- names_of items ;;
     match serper_key, competitor_names with
     | Some key, _ :: _ => search_gaps key competitor_names
     | _, _ => Ok common_gaps
     end)
    "Gap identification error: ".

(** The loop over the first competitors: the analyses appended to
    [detailed_analysis]. *)
Fixpoint detail (competitors : list pyval) : result (list pyval) :=
  match competitors with
  | [] => Ok []
  | competitor :: r =>
      named <- contains_key "name" competitor ;;
      if named then
        name <- getitem competitor "name" ;;
        analysis <- loads (analyze_competitor name) ;;
        analyses <- detail r ;;
        Ok (analysis :: analyses)
      else detail r
  end.

Definition analyze (startup_idea : string) : result pyval :=
  competitors_result <- loads (find_competitors startup_idea) ;;
  listed <- get competitors_result "competitors" (VList []) ;;
  top <- slice_to 3 listed ;;
  items <- iterate top ;;
  detailed_analysis <- detail items ;;
  gaps <- loads (identify_market_gaps (json_dumps competitors_result)) ;;
  has_real_data <- get competitors_result "search_successful" (VBool false) ;;
  let confidence :=
    if truthy has_real_data && (2 <=? List.length detailed_analysis)%nat
    then 0.85%float else 0.65%float in
  count <- get competitors_result "count" (VInt 0) ;;
  competitor_list <- get competitors_result "competitors" (VList []) ;;
  Ok (VDict
    [("competitors_found", count);
     ("competitor_list", competitor_list);
     ("detailed_analysis", VList detailed_analysis);
     ("market_gaps", gaps);
     ("confidence", VFloat confidence);
     ("data_source",
      VStr (if truthy has_real_data
            then "Real web search via Serper API" else "Limited data"));
     ("summary",
      VStr ("Found " ++ format count ""
            ++ " real competitors. Key gaps identified in market."))]).

End WithRuntime.

End CompetitorResearcher.

(* ================================================================== *)
(** * main_orchestrator.py *)
(* ================================================================== *)

Module Orchestrator.
Import Py.
Local Open Scope string_scope.
Local Open Scope pym_scope.

(** The five agents the orchestrator holds, by the one method of each
    that it calls.  The orchestrator imports the market and competitor
    agents from one of two modules, so it is modelled for any
    implementation of the methods; each may raise. *)
Class Agents : Type := {
  market_analyst_analyze : string -> result pyval;
  competitor_researcher_analyze : string -> result pyval;
  technical_architect_analyze : string -> result pyval;
  financial_analyst_analyze : string -> pyval -> result pyval;
  strategy_advisor_synthesize : pyval -> result pyval;
}.

Inductive stage : Type :=
| MarketAnalysis
| CompetitorResearch
| TechnicalAssessment
| FinancialAnalysis
| StrategicSynthesis.

(** What a run of [validate_idea] does to the outside, in order. *)
Inductive event : Type :=
| Called (s : stage) (arguments : list pyval)
| Progress (message : string) (percent : Z)
| Printed (text : string).

(** The local dictionary [results], the clock and the events so far. *)
Record world : Type := {
  results : dict;
  ticks : nat;
  events : list event;
}.

Definition start : world := {| results := []; ticks := 0; events := [] |}.

Definition emit (e : event) : M world unit :=
  modify (fun w =>
    {| results := results w; ticks := ticks w; events := events w ++ [e] |}).

(** [print(text)] *)
Definition print (text : string) : M world unit := emit (Printed text).

(** [results[k] = v] *)
Definition store (k : string) (v : pyval) : M world unit :=
  modify (fun w =>
    {| results := dict_set k v (results w); ticks := ticks w;
       events := events w |}).

(** [if progress_callback: progress_callback(message, percent)] *)
Definition report (progress_callback : option (string -> Z -> result unit))
    (message : string) (percent : Z) : M world unit :=
  match progress_callback with
  | Some callback =>
      emit (Progress message percent) ;;~ lift (callback message percent)
  | None => ret tt
  end.

(** A call of an agent's method: the call is an event, made before the
    method runs. *)
Definition call (s : stage) (arguments : list pyval) (r : result pyval)
    : M world pyval :=
  emit (Called s arguments) ;;~ lift r.

Definition nl : string := String (ascii_of_nat 10) EmptyString.

(** [v.get(a, {}).get(b, default)] and
    [v.get(a, {}).get(b, {}).get(c, default)] *)
Definition get2 (v : pyval) (a b : string) (default : pyval) : result pyval :=
  (x <- get v a (VDict []) ;; get x b default)%py.

Definition get3 (v : pyval) (a b c : string) (default : pyval)
    : result pyval :=
  (x <- get v a (VDict []) ;; y <- get x b (VDict []) ;; get y c default)%py.

(** [v.startswith(p)]: a method of [str]. *)
Definition startswith_val (v : pyval) (p : string) : result bool :=
  match v with
  | VStr s => Ok (startswith p s)
  | _ => Raise AttributeError
  end.

Section WithRuntime.
Context {R : Runtime} {A : Agents}.

(** [time.time()] *)
Definition time_time : M world pynum :=
  fun w =>
    (Ok (NFloat (time (ticks w))),
     {| results := results w; ticks := S (ticks w); events := events w |}).

(** [datetime.now()] *)
Definition datetime_now : M world Z :=
  fun w =>
    (Ok (clock (ticks w)),
     {| results := results w; ticks := S (ticks w); events := events w |}).

(** The score of the competitor data. *)
Definition competitor_score (results : dict) : result pyval :=
  (analysis <- get (VDict results) "competitor_analysis" (VDict []) ;;
   found <- get analysis "competitors_found" (VInt 0) ;;
   many <- compare_with num_ge found (NInt 3) ;;
   if many then Ok (VInt 85)
   else
     analysis' <- get (VDict results) "competitor_analysis" (VDict []) ;;
     found' <- get analysis' "competitors_found" (VInt 0) ;;
     some <- compare_with num_gt found' (NInt 0) ;;
     if some then Ok (VInt 70) else Ok (VInt 50))%py.

(** The loop over the three other agents' keys. *)
Fixpoint agent_confidences (results : dict) (keys : list string)
    (confidence_scores : list pyval) : result (list pyval) :=
  match keys with
  | [] => Ok confidence_scores
  | key :: r =>
      match lookup key results with
      | Some output =>
          (has <- contains_key "confidence" output ;;
           if has then
             confidence <- getitem output "confidence" ;;
             score <- mul_by confidence (NInt 100) ;;
             agent_confidences results r (confidence_scores ++ [score])%list
           else agent_confidences results r confidence_scores)%py
      | None => agent_confidences results r confidence_scores
      end
  end.

(** The list [confidence_scores] at the end of
    [_calculate_overall_confidence]. *)
Definition confidence_scores (results : dict) : result (list pyval) :=
  (successful <- get3 (VDict results) "market_analysis" "market_research"
                   "search_successful" VNone ;;
   let scores := [if truthy successful then VInt 90 else VInt 60] in
   competitors <- competitor_score results ;;
   let scores := (scores ++ [competitors])%list in
   agent_confidences results
     ["technical_analysis"; "financial_analysis"; "strategy"] scores)%py.

(** [int(sum(scores) / len(scores)) if scores else 50] *)
Definition mean_or_50 (scores : list pyval) : result Z :=
  (match scores with
   | [] => Ok 50%Z
   | _ =>
       total <- sum scores ;;
       mean <- num_truediv total (NInt (Z.of_nat (List.length scores))) ;;
       num_int mean
   end)%py.

Definition _calculate_overall_confidence (results : dict) : result Z :=
  (scores <- confidence_scores results ;; mean_or_50 scores)%py.

Definition _create_summary (results : dict) : result pyval :=
  (let r := VDict results in
   market_source <- get2 r "market_analysis" "data_source" (VStr "") ;;
   real_market_data <- startswith_val market_source "Real" ;;
   competitor_source <- get2 r "competitor_analysis" "data_source" (VStr "") ;;
   real_competitor_data <- startswith_val competitor_source "Real" ;;
   score <- get2 r "strategy" "score" (VInt 0) ;;
   verdict <- get2 r "strategy" "verdict" (VStr "Unknown") ;;
   market_size <- get (VDict results) "market_analysis" (VDict []) ;;
   market_size <- get2 market_size "market_opportunity" "TAM" (VDict []) ;;
   market_size <- get market_size "formatted" (VStr "Unknown") ;;
   competitors_found <- get2 r "competitor_analysis" "competitors_found"
                          (VInt 0) ;;
   technical_complexity <- get3 r "technical_analysis" "complexity"
                             "complexity" (VStr "Unknown") ;;
   initial_investment <- get3 r "financial_analysis" "startup_costs"
                           "formatted_total" (VStr "Unknown") ;;
   break_even <- get3 r "financial_analysis" "break_even_analysis"
                   "break_even_timeline" (VStr "Unknown") ;;
   recommendations <- get2 r "strategy" "recommendations" (VList []) ;;
   top_recommendations <- slice_to 3 recommendations ;;
   Ok (VDict
     [("score", score);
      ("verdict", verdict);
      ("market_size", market_size);
      ("competitors_found", competitors_found);
      ("technical_complexity", technical_complexity);
      ("initial_investment", initial_investment);
      ("break_even", break_even);
      ("top_recommendations", top_recommendations);
      ("data_quality",
       VDict [("market", VStr (if real_market_data
                               then "Real Research" else "Estimated"));
              ("competitors", VStr (if real_competitor_data
                                    then "Real Search" else "Estimated"))])]))%py.

(** [print(f"{label}{v}")] for a value that may fail to evaluate. *)
Definition print_value (label : string) (v : result pyval) : M world unit :=
  x <~ lift v ;; print (label ++ format x "").

Definition market_phase (startup_idea : string)
    (progress_callback : option (string -> Z -> result unit))
    : M world pyval :=
  report progress_callback "🔍 Researching real market data..." 20 ;;~
  print (nl ++ "📊 Phase 1: Market Analysis") ;;~
  print ("   Searching for real market data on: "
         ++ str_take 50 startup_idea ++ "...") ;;~
  market_results <~ call MarketAnalysis [VStr startup_idea]
                      (market_analyst_analyze startup_idea) ;;
  store "market_analysis" market_results ;;~
  successful <~ lift (get2 market_results "market_research"
                        "search_successful" VNone) ;;
  (if truthy successful then
     print "   ✅ Found real market data!" ;;~
     print_value "   - TAM: "
       (get3 market_results "market_opportunity" "TAM" "formatted"
          (VStr "Unknown")) ;;~
     print_value "   - Source: "
       (get market_results "data_source" (VStr "Unknown"))
   else print "   ⚠️ Using fallback market data") ;;~
  ret market_results.

Definition competitor_phase (startup_idea : string)
    (progress_callback : option (string -> Z -> result unit))
    : M world pyval :=
  report progress_callback "🎯 Finding real competitors..." 40 ;;~
  print (nl ++ "🎯 Phase 2: Competitor Research") ;;~
  print "   Searching for actual competitors..." ;;~
  competitor_results <~ call CompetitorResearch [VStr startup_idea]
                          (competitor_researcher_analyze startup_idea) ;;
  store "competitor_analysis" competitor_results ;;~
  comp_count <~ lift (get competitor_results "competitors_found" (VInt 0)) ;;
  some <~ lift (compare_with num_gt comp_count (NInt 0)) ;;
  (if some then
     print ("   ✅ Found " ++ format comp_count "" ++ " real competitors!") ;;~
     listed <~ lift (get competitor_results "competitor_list" (VList [])) ;;
     top <~ lift (slice_to 3 listed) ;;
     comps <~ lift (iterate top) ;;
     for_each comps (fun comp =>
       print_value "      - " (get comp "name" (VStr "Unknown")))
   else print "   ⚠️ No competitors found via search") ;;~
  ret competitor_results.

Definition technical_phase (startup_idea : string)
    (progress_callback : option (string -> Z -> result unit))
    : M world pyval :=
  report progress_callback "⚙️ Assessing technical feasibility..." 60 ;;~
  print (nl ++ "⚙️ Phase 3: Technical Assessment") ;;~
  technical_results <~ call TechnicalAssessment [VStr startup_idea]
                         (technical_architect_analyze startup_idea) ;;
  store "technical_analysis" technical_results ;;~
  print_value "   - Complexity: "
    (get2 technical_results "complexity" "complexity" (VStr "Unknown")) ;;~
  print_value "   - MVP Timeline: "
    (get2 technical_results "timeline" "mvp" (VStr "Unknown")) ;;~
  ret technical_results.

Definition financial_phase (startup_idea : string)
    (progress_callback : option (string -> Z -> result unit))
    (market_results : pyval) : M world pyval :=
  report progress_callback "💰 Creating financial projections..." 80 ;;~
  print (nl ++ "💰 Phase 4: Financial Analysis") ;;~
  print_value "   Using market data: TAM = "
    (get3 market_results "market_opportunity" "TAM" "formatted"
       (VStr "Unknown")) ;;~
  opportunity <~ lift (get market_results "market_opportunity" (VDict [])) ;;
  financial_results <~ call FinancialAnalysis [VStr startup_idea; opportunity]
                         (financial_analyst_analyze startup_idea opportunity) ;;
  store "financial_analysis" financial_results ;;~
  print_value "   - Initial Investment: "
    (get2 financial_results "startup_costs" "formatted_total"
       (VStr "Unknown")) ;;~
  print_value "   - Break-even: "
    (get2 financial_results "break_even_analysis" "break_even_timeline"
       (VStr "Unknown")) ;;~
  ret financial_results.

Definition strategy_phase
    (progress_callback : option (string -> Z -> result unit))
    (market_results competitor_results technical_results
       financial_results : pyval) : M world pyval :=
  report progress_callback "📊 Synthesizing recommendations..." 90 ;;~
  print (nl ++ "📊 Phase 5: Strategic Synthesis") ;;~
  let all_analyses :=
    VDict [("market", market_results);
           ("competitors", competitor_results);
           ("technical", technical_results);
           ("financial", financial_results)] in
  strategy_results <~ call StrategicSynthesis [all_analyses]
                        (strategy_advisor_synthesize all_analyses) ;;
  store "strategy" strategy_results ;;~
  score <~ lift (get strategy_results "score" (VInt 0)) ;;
  print ("   - Score: " ++ format score "" ++ "/10") ;;~
  print_value "   - Verdict: "
    (get strategy_results "verdict" (VStr "Unknown")) ;;~
  ret strategy_results.

(** The end of the [try] block, after the five stages. *)
Definition completion
    (progress_callback : option (string -> Z -> result unit))
    (start_time : pynum) : M world pyval :=
  finish <~ time_time ;;
  execution_time <~ lift (num_sub finish start_time) ;;
  store "execution_time" (of_number (num_round execution_time 2)) ;;~
  store "status" (VStr "completed") ;;~
  so_far <~ gets results ;;
  confidence <~ lift (_calculate_overall_confidence so_far) ;;
  store "confidence_score" (VInt confidence) ;;~
  so_far <~ gets results ;;
  summary <~ lift (_create_summary so_far) ;;
  store "summary" summary ;;~
  report progress_callback "✅ Validation complete!" 100 ;;~
  print (nl ++ str_repeat 50 "=") ;;~
  print ("✅ VALIDATION COMPLETE in "
         ++ format (of_number execution_time) ".1f" ++ " seconds") ;;~
  so_far <~ gets results ;;
  real <~ lift (getitem (VDict so_far) "using_real_data") ;;
  print ("   Data Quality: "
         ++ (if truthy real then "REAL" else "SIMULATED")) ;;~
  score <~ lift (getitem (VDict so_far) "confidence_score") ;;
  print ("   Confidence: " ++ format score "" ++ "%") ;;~
  print (str_repeat 50 "=" ++ nl) ;;~
  final <~ gets results ;;
  ret (VDict final).

(** The [except] clause. *)
Definition failure (e : exn) : M world pyval :=
  print (nl ++ "❌ ERROR: " ++ str_exn e) ;;~
  store "status" (VStr "error") ;;~
  store "error" (VStr (str_exn e)) ;;~
  final <~ gets results ;;
  ret (VDict final).

(** The five stages, each handed what it needs of the earlier ones. *)
Definition stages (startup_idea : string)
    (progress_callback : option (string -> Z -> result unit))
    : M world unit :=
  market_results <~ market_phase startup_idea progress_callback ;;
  competitor_results <~ competitor_phase startup_idea progress_callback ;;
  technical_results <~ technical_phase startup_idea progress_callback ;;
  financial_results <~ financial_phase startup_idea progress_callback
                         market_results ;;
  strategy_results <~ strategy_phase progress_callback market_results
                        competitor_results technical_results
                        financial_results ;;
  ret tt.

Definition validate_idea (startup_idea : string)
    (progress_callback : option (string -> Z -> result unit))
    : M world pyval :=
  start_time <~ time_time ;;
  now <~ datetime_now ;;
  modify (fun w =>
    {| results :=
         [("idea", VStr startup_idea);
          ("timestamp", VStr (isoformat now));
          ("status", VStr "processing");
          ("using_real_data",
           VBool (match getenv "SERPER_API_KEY" with
                  | Some key => negb (String.eqb key "")
                  | None => false
                  end))];
       ticks := ticks w; events := events w |}) ;;~
  try_exceptM
    (stages startup_idea progress_callback ;;~
     completion progress_callback start_time)
    failure.

End WithRuntime.

End Orchestrator.

(* ================================================================== *)
(** * A reference runtime *)
(* ================================================================== *)

(** An implementation of [Runtime] to run the model on examples: a
    self-delimiting text encoding of values stands for the JSON syntax
    (a dictionary opens with a brace, as in JSON), and reading back
    what was written gives the value again
    ([ReferenceFacts.reference_roundtrip]). *)
Module Reference.
Import Py.
Local Open Scope string_scope.

Fixpoint enc_pos (p : positive) : string :=
  match p with
  | xH => "."
  | xO q => String "0" (enc_pos q)
  | xI q => String "1" (enc_pos q)
  end.

Fixpoint dec_pos (s : string) : option (positive * string) :=
  match s with
  | EmptyString => None
  | String c r =>
      if Ascii.eqb c "." then Some (xH, r)
      else if Ascii.eqb c "0" then
        match dec_pos r with
        | Some (q, r') => Some (xO q, r')
        | None => None
        end
      else if Ascii.eqb c "1" then
        match dec_pos r with
        | Some (q, r') => Some (xI q, r')
        | None => None
        end
      else None
  end.

Definition enc_Z (z : Z) : string :=
  match z with
  | Z0 => "z"
  | Zpos p => String "+" (enc_pos p)
  | Zneg p => String "-" (enc_pos p)
  end.

Definition dec_Z (s : string) : option (Z * string) :=
  match s with
  | EmptyString => None
  | String c r =>
      if Ascii.eqb c "z" then Some (0%Z, r)
      else if Ascii.eqb c "+" then
        match dec_pos r with
        | Some (p, r') => Some (Zpos p, r')
        | None => None
        end
      else if Ascii.eqb c "-" then
        match dec_pos r with
        | Some (p, r') => Some (Zneg p, r')
        | None => None
        end
      else None
  end.

Definition enc_nat (n : nat) : string := enc_Z (Z.of_nat n).

Definition dec_nat (s : string) : option (nat * string) :=
  match dec_Z s with
  | Some (z, r) => Some (Z.to_nat z, r)
  | None => None
  end.

Definition enc_bool (b : bool) : string := if b then "t" else "f".

Definition dec_bool (s : string) : option (bool * string) :=
  match s with
  | EmptyString => None
  | String c r =>
      if Ascii.eqb c "t" then Some (true, r)
      else if Ascii.eqb c "f" then Some (false, r)
      else None
  end.

(** The first [n] characters of a text and the rest. *)
Fixpoint split_at (n : nat) (s : string) : option (string * string) :=
  match n with
  | O => Some (EmptyString, s)
  | S m =>
      match s with
      | EmptyString => None
      | String c r =>
          match split_at m r with
          | Some (a, b) => Some (String c a, b)
          | None => None
          end
      end
  end.

Definition enc_str (s : string) : string :=
  enc_nat (String.length s) ++ s.

Definition dec_str (s : string) : option (string * string) :=
  match dec_nat s with
  | Some (n, r) => split_at n r
  | None => None
  end.

Definition enc_float (f : spec_float) : string :=
  match f with
  | S754_zero s => String "o" (enc_bool s)
  | S754_infinity s => String "i" (enc_bool s)
  | S754_nan => "n"
  | S754_finite s m e => String "f" (enc_bool s ++ enc_pos m ++ enc_Z e)
  end.

Definition dec_float (s : string) : option (spec_float * string) :=
  match s with
  | EmptyString => None
  | String c r =>
      if Ascii.eqb c "n" then Some (S754_nan, r)
      else
        match dec_bool r with
        | None => None
        | Some (b, r1) =>
            if Ascii.eqb c "o" then Some (S754_zero b, r1)
            else if Ascii.eqb c "i" then Some (S754_infinity b, r1)
            else if Ascii.eqb c "f" then
              match dec_pos r1 with
              | None => None
              | Some (m, r2) =>
                  match dec_Z r2 with
                  | None => None
                  | Some (e, r3) => Some (S754_finite b m e, r3)
                  end
              end
            else None
        end
  end.

Section Items.

Variable enc_one : pyval -> string.
Variable dec_one : string -> option (pyval * string).
Variable depth_one : pyval -> nat.

Fixpoint enc_items (l : list pyval) : string :=
  match l with
  | [] => EmptyString
  | x :: r => enc_one x ++ enc_items r
  end.

Fixpoint enc_fields (d : list (string * pyval)) : string :=
  match d with
  | [] => EmptyString
  | (k, x) :: r => enc_str k ++ enc_one x ++ enc_fields r
  end.

Fixpoint dec_items (n : nat) (s : string) : option (list pyval * string) :=
  match n with
  | O => Some ([], s)
  | S m =>
      match dec_one s with
      | None => None
      | Some (x, s') =>
          match dec_items m s' with
          | None => None
          | Some (xs, s'') => Some (x :: xs, s'')
          end
      end
  end.

Fixpoint dec_fields (n : nat) (s : string)
    : option (list (string * pyval) * string) :=
  match n with
  | O => Some ([], s)
  | S m =>
      match dec_str s with
      | None => None
      | Some (k, s1) =>
          match dec_one s1 with
          | None => None
          | Some (x, s') =>
              match dec_fields m s' with
              | None => None
              | Some (xs, s'') => Some ((k, x) :: xs, s'')
              end
          end
      end
  end.

Fixpoint deepest (l : list pyval) : nat :=
  match l with
  | [] => O
  | x :: r => Nat.max (depth_one x) (deepest r)
  end.

Fixpoint deepest_field (d : list (string * pyval)) : nat :=
  match d with
  | [] => O
  | (_, x) :: r => Nat.max (depth_one x) (deepest_field r)
  end.

End Items.

Fixpoint enc (v : pyval) : string :=
  match v with
  | VNone => "N"
  | VBool b => String "B" (enc_bool b)
  | VInt z => String "I" (enc_Z z)
  | VFloat f => String "R" (enc_float (Prim2SF f))
  | VStr s => String "S" (enc_str s)
  | VList l => String "L" (enc_nat (List.length l) ++ enc_items enc l)
  | VDict d => String "{" (enc_nat (List.length d) ++ enc_fields enc d)
  end.

(** The nesting depth of a value. *)
Fixpoint depth (v : pyval) : nat :=
  match v with
  | VList l => S (deepest depth l)
  | VDict d => S (deepest_field depth d)
  | _ => O
  end.

Fixpoint dec (fuel : nat) (s : string) : option (pyval * string) :=
  match fuel with
  | O => None
  | S fuel' =>
      match s with
      | EmptyString => None
      | String c r =>
          if Ascii.eqb c "N" then Some (VNone, r)
          else if Ascii.eqb c "B" then
            match dec_bool r with
            | Some (b, r') => Some (VBool b, r')
            | None => None
            end
          else if Ascii.eqb c "I" then
            match dec_Z r with
            | Some (z, r') => Some (VInt z, r')
            | None => None
            end
          else if Ascii.eqb c "R" then
            match dec_float r with
            | Some (f, r') => Some (VFloat (SF2Prim f), r')
            | None => None
            end
          else if Ascii.eqb c "S" then
            match dec_str r with
            | Some (t, r') => Some (VStr t, r')
            | None => None
            end
          else if Ascii.eqb c "L" then
            match dec_nat r with
            | None => None
            | Some (n, r') =>
                match dec_items (dec fuel') n r' with
                | Some (l, r'') => Some (VList l, r'')
                | None => None
                end
            end
          else if Ascii.eqb c "{" then
            match dec_nat r with
            | None => None
            | Some (n, r') =>
                match dec_fields (dec fuel') n r' with
                | Some (d, r'') => Some (VDict d, r'')
                | None => None
                end
            end
          else None
      end
  end.

(** The text of a value: the fuel its reader needs, then the value. *)
Definition dumps (v : pyval) : string := enc_nat (S (depth v)) ++ enc v.

Definition parse (s : string) : option pyval :=
  match dec_nat s with
  | None => None
  | Some (fuel, r) =>
      match dec fuel r with
      | Some (v, EmptyString) => Some v
      | _ => None
      end
  end.

Definition exn_name (e : exn) : string :=
  match e with
  | ValueError => "ValueError"
  | TypeError => "TypeError"
  | AttributeError => "AttributeError"
  | KeyError => "KeyError"
  | IndexError => "IndexError"
  | OverflowError => "OverflowError"
  | ZeroDivisionError => "ZeroDivisionError"
  | JSONDecodeError => "JSONDecodeError"
  | RuntimeError msg => msg
  end.

Fixpoint digits_of (fuel : nat) (n : Z) (acc : string) : string :=
  match fuel with
  | O => acc
  | S fuel' =>
      let acc' := String (ascii_of_nat (48 + Z.to_nat (n mod 10))) acc in
      if (n <? 10)%Z then acc' else digits_of fuel' (n / 10) acc'
  end.

(** The decimal digits of an integer. *)
Definition decimal (z : Z) : string :=
  let digits := digits_of (S (Z.to_nat (Z.log2 (Z.abs z)))) (Z.abs z) "" in
  if (z <? 0)%Z then String "-" digits else digits.

(** Strings are shown as they are and integers in decimal; other values
    by their encoding. *)
Definition show (v : pyval) (spec : string) : string :=
  match v with
  | VStr s => s
  | VInt z => decimal z
  | _ => enc v
  end.

#[local] Instance runtime : Runtime := {|
  json_dumps := dumps;
  json_loads := parse;
  format := show;
  str_exn := exn_name;
  getenv := fun _ => None;
  time := fun n => SF2Prim (binary_normalize prec emax (Z.of_nat n) 0 false);
  clock := fun n => (Z.of_nat n * 1000000)%Z;
  isoformat := decimal;
|}.

(** A search service that is out of reach: both tools report an
    error. *)
#[local] Instance offline : MarketAnalyst.Search := {|
  MarketAnalyst.search_market_data := fun _ =>
    dumps (VDict [("error", VStr "No Serper API key found")]);
  MarketAnalyst.analyze_market_trends := fun _ =>
    dumps (VDict [("error", VStr "No Serper API key")]);
|}.

(** Agents that answer with fixed dictionaries. *)
#[local] Instance canned : Orchestrator.Agents := {|
  Orchestrator.market_analyst_analyze := fun _ =>
    Ok (VDict [("market_opportunity",
                VDict [("TAM", VDict [("formatted", VStr "$100.0B")])]);
               ("confidence", VFloat 0.6);
               ("data_source", VStr "Industry baselines")]);
  Orchestrator.competitor_researcher_analyze := fun _ =>
    Ok (VDict [("competitors_found", VInt 0);
               ("confidence", VFloat 0.65);
               ("data_source", VStr "Limited data")]);
  Orchestrator.technical_architect_analyze := fun _ =>
    Ok (VDict [("complexity", VDict [("complexity", VStr "medium")]);
               ("confidence", VFloat 0.85)]);
  Orchestrator.financial_analyst_analyze := fun _ _ =>
    Ok (VDict [("confidence", VFloat 0.75)]);
  Orchestrator.strategy_advisor_synthesize := fun _ =>
    Ok (VDict [("score", VFloat 7.2); ("verdict", VStr "PIVOT ⚠️");
               ("confidence", VFloat 0.85)]);
|}.

(** [format(x, '.1f')]: the exact value of [x] rounded to one decimal,
    ties to even. *)
Definition fixed1 (x : float) : string :=
  match Prim2SF x with
  | S754_nan => "nan"
  | S754_infinity s => if s then "-inf" else "inf"
  | S754_zero s => if s then "-0.0" else "0.0"
  | S754_finite s m e =>
      let tenths :=
        if (0 <=? e)%Z then (Z.pos m * 2 ^ e * 10)%Z
        else round_half_even (Z.pos m * 10) (2 ^ (- e)) in
      (if s then "-" else "")
      ++ decimal (tenths / 10) ++ "." ++ decimal (tenths mod 10)
  end.

(** The reference runtime with the fixed notation for [float]s. *)
Definition python : Runtime := {|
  json_dumps := dumps;
  json_loads := parse;
  format := fun v spec =>
    match v with
    | VFloat x => if String.eqb spec ".1f" then fixed1 x else show v spec
    | _ => show v spec
    end;
  str_exn := exn_name;
  getenv := fun _ => None;
  time := fun n => SF2Prim (binary_normalize prec emax (Z.of_nat n) 0 false);
  clock := fun n => (Z.of_nat n * 1000000)%Z;
  isoformat := decimal;
|}.

(** A runtime that holds a key for the search service. *)
Definition keyed : Runtime := {|
  json_dumps := dumps;
  json_loads := parse;
  format := show;
  str_exn := exn_name;
  getenv := fun name =>
    if String.eqb name "SERPER_API_KEY" then Some "key" else None;
  time := fun n => SF2Prim (binary_normalize prec emax (Z.of_nat n) 0 false);
  clock := fun n => (Z.of_nat n * 1000000)%Z;
  isoformat := decimal;
|}.

(** A search service out of reach: every query raises. *)
Definition unreachable : CompetitorResearcher.Service := {|
  CompetitorResearcher.search_competitors := fun _ _ =>
    Raise (RuntimeError "no network");
  CompetitorResearcher.search_competitor := fun _ _ =>
    Raise (RuntimeError "no network");
  CompetitorResearcher.search_gaps := fun _ _ =>
    Raise (RuntimeError "no network");
|}.

Definition unreachable_market : MarketSearch.Service := {|
  MarketSearch.search_market := fun _ _ => Raise (RuntimeError "no network");
  MarketSearch.search_trends := fun _ _ => Raise (RuntimeError "no network");
|}.

(** The five agents of the sources, run without the search service. *)
Definition sources : Orchestrator.Agents := {|
  Orchestrator.market_analyst_analyze :=
    MarketAnalyst.analyze (R := python)
      (N := MarketSearch.tools (R := python) (V := unreachable_market));
  Orchestrator.competitor_researcher_analyze :=
    CompetitorResearcher.analyze (R := python) (N := unreachable);
  Orchestrator.technical_architect_analyze :=
    TechnicalArchitect.analyze (R := python);
  Orchestrator.financial_analyst_analyze := fun startup_idea market_data =>
    match FinancialAnalyst.analyze (R := python) startup_idea market_data with
    | Some answer => answer
    | None => Raise (RuntimeError "out of fuel")
    end;
  Orchestrator.strategy_advisor_synthesize :=
    StrategyAdvisor.synthesize (R := python);
|}.

End Reference.

(* ================================================================== *)
(** * Properties *)
(* ================================================================== *)

(** ** Numbers and their values *)

Module PyFacts.
Import Py.

(** The rational a finite exact value denotes. *)
Definition dyadic_Q (m e : Z) : Q := (inject_Z m * 2 ^ e)%Q.

(** The value of a number, when it is finite. *)
Definition value (n : pynum) : option Q :=
  match exact n with
  | DFin m e => Some (dyadic_Q m e)
  | _ => None
  end.

Lemma two_power_pos (e : Z) : (0 < 2 ^ e)%Q.
Proof. apply Qpower_0_lt. reflexivity. Qed.

Lemma dyadic_Q_shift (m e k : Z) :
  (0 <= k)%Z -> (dyadic_Q m (e + k) == dyadic_Q (m * 2 ^ k) e)%Q.
Proof.
  intros Hk. unfold dyadic_Q.
  rewrite Qpower_plus by discriminate.
  rewrite inject_Z_mult, (Zpower_Qpower 2 k) by assumption.
  change (inject_Z 2) with 2%Q.
  generalize (2 ^ e)%Q (2 ^ k)%Q (inject_Z m). intros x y z. ring.
Qed.

Lemma dyadic_Q_compare (a b e : Z) :
  (dyadic_Q a e ?= dyadic_Q b e)%Q = (a ?= b)%Z.
Proof.
  unfold dyadic_Q.
  pose proof (two_power_pos e) as Hp.
  destruct (Z.compare_spec a b) as [E | L | G].
  - subst. apply Qeq_alt. reflexivity.
  - apply Qlt_alt. apply Qmult_lt_compat_r; [assumption|].
    rewrite <- Zlt_Qlt. assumption.
  - apply Qgt_alt. apply Qmult_lt_compat_r; [assumption|].
    rewrite <- Zlt_Qlt. assumption.
Qed.

(** [dyadic_compare] orders finite values as the rationals they
    denote. *)
Lemma dyadic_compare_value (m1 e1 m2 e2 : Z) :
  dyadic_compare (DFin m1 e1) (DFin m2 e2)
  = Some (dyadic_Q m1 e1 ?= dyadic_Q m2 e2)%Q.
Proof.
  simpl. f_equal.
  set (e := Z.min e1 e2).
  rewrite <- (dyadic_Q_compare _ _ e).
  assert (H1 : (dyadic_Q m1 e1 == dyadic_Q (m1 * 2 ^ (e1 - e)) e)%Q).
  { rewrite <- dyadic_Q_shift by lia.
    replace (e + (e1 - e))%Z with e1 by lia. reflexivity. }
  assert (H2 : (dyadic_Q m2 e2 == dyadic_Q (m2 * 2 ^ (e2 - e)) e)%Q).
  { rewrite <- dyadic_Q_shift by lia.
    replace (e + (e2 - e))%Z with e2 by lia. reflexivity. }
  rewrite H1, H2. reflexivity.
Qed.

Lemma num_ge_value (score c : pynum) (q qc : Q) :
  value score = Some q -> value c = Some qc ->
  (num_ge score c = true <-> (qc <= q)%Q).
Proof.
  unfold value, num_ge, num_le, num_compare.
  destruct (exact score) as [| |m e]; try discriminate.
  destruct (exact c) as [| |mc ec]; try discriminate.
  intros [= <-] [= <-].
  rewrite dyadic_compare_value.
  rewrite Qle_alt.
  destruct (dyadic_Q mc ec ?= dyadic_Q m e)%Q; split; congruence.
Qed.

Lemma as_number_of_number (n : pynum) : as_number (of_number n) = Some n.
Proof. destruct n; reflexivity. Qed.

End PyFacts.

(** ** Substrings *)

Module SubstringFacts.
Import Py.
Local Open Scope string_scope.

(** [part] occurs in [s] at some position. *)
Definition occurs (part s : string) : Prop :=
  exists before after_, s = before ++ part ++ after_.

Lemma prefix_append (p s : string) :
  String.prefix p s = true <-> exists r, s = p ++ r.
Proof.
  revert s. induction p as [|c p IH]; intros s.
  - split; [intros _; exists s; reflexivity | destruct s; reflexivity].
  - destruct s as [|d s]; simpl.
    + split; [discriminate | intros [r E]; discriminate].
    + destruct (Ascii.ascii_dec c d) as [E|N].
      * subst d. rewrite IH.
        split; intros [r E]; exists r; [now rewrite E | now injection E].
      * split; [discriminate | intros [r E]; injection E; intros; congruence].
Qed.

Lemma contains_occurs (part s : string) :
  contains part s = true <-> occurs part s.
Proof.
  induction s as [|c s IH]; unfold contains; fold contains.
  - rewrite prefix_append. split.
    + intros [r E]. exists "", r. exact E.
    + intros (b & a & E). destruct b; [exists a; exact E | discriminate].
  - rewrite orb_true_iff, IH, prefix_append. split.
    + intros [[r E] | (b & a & E)].
      * exists "", r. exact E.
      * exists (String c b), a. simpl. now rewrite E.
    + intros (b & a & E). destruct b as [|d b]; simpl in E.
      * left. exists a. exact E.
      * right. injection E as _ E. exists b, a. exact E.
Qed.

Lemma append_associative (a b c : string) :
  (a ++ b) ++ c = a ++ b ++ c.
Proof. induction a; simpl; congruence. Qed.

Lemma occurs_trans (a b s : string) : occurs a b -> occurs b s -> occurs a s.
Proof.
  intros (b1 & b2 & ->) (s1 & s2 & ->).
  exists (s1 ++ b1), (b2 ++ s2). now rewrite !append_associative.
Qed.

Lemma contains_trans (a b s : string) :
  contains a b = true -> contains b s = true -> contains a s = true.
Proof. rewrite !contains_occurs. apply occurs_trans. Qed.

End SubstringFacts.

(** ** The reference runtime *)

Module ReferenceFacts.
Import Py Reference.
Local Open Scope string_scope.

Lemma append_assoc (a b c : string) : (a ++ b) ++ c = a ++ (b ++ c).
Proof. induction a as [|x a IH]; simpl; [reflexivity | now rewrite IH]. Qed.

Lemma append_empty (s : string) : s ++ "" = s.
Proof. induction s as [|c s IH]; simpl; congruence. Qed.

Lemma dec_enc_pos (p : positive) (rest : string) :
  dec_pos (enc_pos p ++ rest) = Some (p, rest).
Proof.
  induction p as [q IH | q IH |]; simpl; try rewrite IH; reflexivity.
Qed.

Lemma dec_enc_Z (z : Z) (rest : string) :
  dec_Z (enc_Z z ++ rest) = Some (z, rest).
Proof.
  destruct z; simpl; try rewrite dec_enc_pos; reflexivity.
Qed.

Lemma dec_enc_nat (n : nat) (rest : string) :
  dec_nat (enc_nat n ++ rest) = Some (n, rest).
Proof.
  unfold dec_nat, enc_nat. rewrite dec_enc_Z, Nat2Z.id. reflexivity.
Qed.

Lemma dec_enc_bool (b : bool) (rest : string) :
  dec_bool (enc_bool b ++ rest) = Some (b, rest).
Proof. destruct b; reflexivity. Qed.

Lemma split_at_length (s rest : string) :
  split_at (String.length s) (s ++ rest) = Some (s, rest).
Proof.
  induction s as [|c s IH]; simpl; [reflexivity | now rewrite IH].
Qed.

Lemma dec_enc_str (s rest : string) :
  dec_str (enc_str s ++ rest) = Some (s, rest).
Proof.
  unfold dec_str, enc_str.
  rewrite append_assoc, dec_enc_nat. apply split_at_length.
Qed.

Lemma dec_enc_float (f : spec_float) (rest : string) :
  dec_float (enc_float f ++ rest) = Some (f, rest).
Proof.
  destruct f as [s | s | | s m e]; simpl.
  - rewrite dec_enc_bool. reflexivity.
  - rewrite dec_enc_bool. reflexivity.
  - reflexivity.
  - rewrite append_assoc, dec_enc_bool. simpl.
    rewrite append_assoc, dec_enc_pos, dec_enc_Z. reflexivity.
Qed.

Section Items.

Variable e : pyval -> string.
Variable d : string -> option (pyval * string).
Variable h : pyval -> nat.
Variable bound : nat.
Hypothesis inverse :
  forall x rest, (h x < bound)%nat -> d (e x ++ rest) = Some (x, rest).

Lemma dec_enc_items (l : list pyval) (rest : string) :
  (deepest h l < bound)%nat ->
  dec_items d (List.length l) (enc_items e l ++ rest) = Some (l, rest).
Proof.
  induction l as [|x l IH]; simpl; intros Hl; [reflexivity|].
  rewrite append_assoc, inverse by lia.
  rewrite IH by lia. reflexivity.
Qed.

Lemma dec_enc_fields (l : list (string * pyval)) (rest : string) :
  (deepest_field h l < bound)%nat ->
  dec_fields d (List.length l) (enc_fields e l ++ rest) = Some (l, rest).
Proof.
  induction l as [|[k x] l IH]; simpl; intros Hl; [reflexivity|].
  rewrite append_assoc, dec_enc_str.
  rewrite append_assoc, inverse by lia.
  rewrite IH by lia. reflexivity.
Qed.

End Items.

Lemma dec_enc (fuel : nat) :
  forall (v : pyval) (rest : string),
    (depth v < fuel)%nat -> dec fuel (enc v ++ rest) = Some (v, rest).
Proof.
  induction fuel as [|fuel IH]; intros v rest Hd; [lia|].
  destruct v as [| b | z | f | s | l | l]; simpl in *.
  - reflexivity.
  - rewrite dec_enc_bool. reflexivity.
  - rewrite dec_enc_Z. reflexivity.
  - rewrite dec_enc_float, SF2Prim_Prim2SF. reflexivity.
  - rewrite dec_enc_str. reflexivity.
  - rewrite append_assoc, dec_enc_nat.
    rewrite (@dec_enc_items enc (dec fuel) depth fuel IH l rest) by lia.
    reflexivity.
  - rewrite append_assoc, dec_enc_nat.
    rewrite (@dec_enc_fields enc (dec fuel) depth fuel IH l rest) by lia.
    reflexivity.
Qed.

(** Reading back what the reference runtime wrote gives the value. *)
Lemma reference_roundtrip : json_roundtrip Reference.runtime.
Proof.
  intro v. simpl. unfold parse, dumps.
  rewrite dec_enc_nat.
  pose proof (@dec_enc (S (depth v)) v "" (Nat.lt_succ_diag_r _)) as E.
  rewrite append_empty in E. rewrite E. reflexivity.
Qed.

End ReferenceFacts.

(** ** The verdict (agents/controller.py, agents/strategy_advisor.py) *)

Module VerdictFacts.
Import Py PyFacts Controller StrategyAdvisor.
Local Open Scope string_scope.

Definition GO : string := "GO ✅".
Definition PIVOT : string := "PIVOT ⚠️".
Definition NO_GO : string := "NO-GO ❌".

Lemma value_7_5 :
  exists q, value (NFloat 7.5) = Some q /\ (q == 75 # 10)%Q.
Proof. eexists. split; vm_compute; reflexivity. Qed.

Lemma value_5_0 :
  exists q, value (NFloat 5.0) = Some q /\ (q == 5)%Q.
Proof. eexists. split; vm_compute; reflexivity. Qed.

(** C1: the verdict is chosen by thresholds on the score and is one of
    the three labels.  For every score, [ControllerAgent._determine_verdict]
    and the [generate_recommendations] tool produce the same label, which
    is GO, PIVOT or NO-GO; when the score is a finite number [s], the
    label is GO if [7.5 <= s], PIVOT if [5.0 <= s < 7.5] and NO-GO if
    [s < 5.0]. *)
Theorem verdict_by_threshold (R : Runtime) (score : pynum) :
  let verdict := _determine_verdict score in
  (verdict = GO \/ verdict = PIVOT \/ verdict = NO_GO)
  /\ (exists recommendations factors,
        generate_recommendations (of_number score)
        = Ok (json_dumps (VDict [("verdict", VStr verdict);
                                 ("recommendations", recommendations);
                                 ("key_success_factors", factors)])))
  /\ (forall s : Q, value score = Some s ->
        ((75 # 10 <= s)%Q -> verdict = GO)
        /\ ((5 <= s)%Q /\ (s < 75 # 10)%Q -> verdict = PIVOT)
        /\ ((s < 5)%Q -> verdict = NO_GO)).
Proof.
  intros verdict. subst verdict.
  unfold _determine_verdict, generate_recommendations, compare_with.
  rewrite as_number_of_number. simpl bind.
  destruct value_7_5 as (q7 & V7 & E7), value_5_0 as (q5 & V5 & E5).
  split; [|split; [|intros s V; split; [|split]]].
  - destruct (num_ge score (NFloat 7.5)); [now left|].
    destruct (num_ge score (NFloat 5.0)); [right; now left | right; now right].
  - destruct (num_ge score (NFloat 7.5)); [do 2 eexists; reflexivity|].
    simpl bind.
    destruct (num_ge score (NFloat 5.0)); do 2 eexists; reflexivity.
  - intros H. rewrite <- E7 in H.
    apply (num_ge_value score (NFloat 7.5) V V7) in H. now rewrite H.
  - intros [H5 H7].
    destruct (num_ge score (NFloat 7.5)) eqn:G7.
    + apply (num_ge_value score (NFloat 7.5) V V7) in G7.
      rewrite E7 in G7. exfalso. apply (Qlt_not_le _ _ H7 G7).
    + rewrite <- E5 in H5.
      apply (num_ge_value score (NFloat 5.0) V V5) in H5. now rewrite H5.
  - intros H5.
    destruct (num_ge score (NFloat 7.5)) eqn:G7.
    + apply (num_ge_value score (NFloat 7.5) V V7) in G7.
      rewrite E7 in G7. exfalso.
      apply (Qlt_not_le _ _ H5).
      apply Qle_trans with (75 # 10)%Q; [discriminate | assumption].
    + destruct (num_ge score (NFloat 5.0)) eqn:G5; [|reflexivity].
      apply (num_ge_value score (NFloat 5.0) V V5) in G5.
      rewrite E5 in G5. exfalso. apply (Qlt_not_le _ _ H5 G5).
Qed.

(** The labels at the thresholds and around them, and for the scores
    that are no finite number. *)
Example verdict_samples :
  map _determine_verdict
    [NFloat 7.5; NFloat 7.4999; NFloat 5.0; NFloat 4.9999; NInt 8; NInt 7;
     NInt 5; NInt 4; NFloat infinity; NFloat neg_infinity; NFloat nan]
  = [GO; PIVOT; PIVOT; NO_GO; GO; PIVOT; PIVOT; NO_GO; GO; NO_GO; NO_GO].
Proof. vm_compute. reflexivity. Qed.

End VerdictFacts.

(** ** agents/controller.py *)

Module ControllerFacts.
Import Py Controller.
Local Open Scope string_scope.

(** What [start_validation] does before the check of its input. *)
Definition started (R : Runtime) (startup_idea : string)
    (self : ControllerAgent) : ControllerAgent :=
  {| state :=
       {| status := "running";
          current_task := current_task (state self);
          completed_tasks := completed_tasks (state self);
          failed_tasks := failed_tasks (state self);
          start_time := Some (clock (ticks self));
          validation_data :=
            dict_set "idea" (VStr startup_idea)
              (validation_data (state self)) |};
     ticks := S (ticks self);
     log := log self ++ [(INFO, "Starting validation for: " ++ startup_idea)] |}.

(** The response of [_create_error_response] at clock reading [now]. *)
Definition error_response (R : Runtime) (message : string) (now : Z)
    : pyval :=
  VDict [("error", VBool true); ("message", VStr message);
         ("status", VStr "error"); ("timestamp", VStr (isoformat now))].

(** C9: [start_validation] rejects invalid input before it runs any
    stage.  For every idea of fewer than 10 characters, or whose
    lowercased text contains "test", "asdf", "123" or "xxx", the call
    returns the error response (error true, message "Invalid input",
    status "error"); the agent is left as it was after the first steps
    of the call, but for the clock and one warning in the log: no task
    was executed and no result stored. *)
Theorem invalid_input_rejected (R : Runtime) (startup_idea : string)
    (self : ControllerAgent) :
  (String.length startup_idea < 10)%nat
  \/ any_in ["test"; "asdf"; "123"; "xxx"] (lower startup_idea) = true ->
  exists warning : string,
    let before := started R startup_idea self in
    start_validation startup_idea self
    = (Ok (error_response R "Invalid input" (clock (ticks before))),
       {| state := state before;
          ticks := S (ticks before);
          log := log before ++ [(WARNING, warning)] |}).
Proof.
  intros H.
  unfold start_validation, _pre_validation_check, _create_error_response,
    error_response, started, datetime_now, logger, set_status,
    set_start_time, set_validation_data, with_state, modify, bindM, ret,
    spam_keywords.
  destruct (String.length startup_idea <? 10)%nat eqn:L.
  - eexists. simpl. reflexivity.
  - destruct H as [H | H].
    + apply Nat.ltb_lt in H. congruence.
    + rewrite H. eexists. simpl. reflexivity.
Qed.

(** The theorem at the idea "short", for a fresh agent. *)
Lemma invalid_input_rejected_witness :
  exists warning : string,
    start_validation (R := Reference.runtime) "short" init
    = (Ok (error_response Reference.runtime "Invalid input" 1000000),
       {| state :=
            {| status := "running"; current_task := VNone;
               completed_tasks := []; failed_tasks := [];
               start_time := Some 0%Z;
               validation_data := [("idea", VStr "short")] |};
          ticks := 2;
          log := [(INFO, "Starting validation for: short");
                  (WARNING, warning)] |}).
Proof.
  apply (@invalid_input_rejected Reference.runtime "short" init).
  left. simpl. lia.
Defined.

(** An idea the check lets through is routed through the five tasks in
    the order of the routing rules. *)
Example valid_input_runs :
  let '(response, self) :=
    start_validation (R := Reference.runtime)
      "A marketplace for used bicycles" init in
  (match response with
   | Ok r => (get r "score" VNone, get r "verdict" VNone)
   | Raise e => (Raise e, Raise e)
   end,
   status (state self), map fst (validation_data (state self)))
  = ((Ok (VFloat 8.5), Ok (VStr "GO ✅")), "completed",
     ["idea"; "market_validation"; "competitor_analysis";
      "technical_feasibility"; "financial_analysis"; "strategy_synthesis"]).
Proof. vm_compute. reflexivity. Qed.

(** The result [_execute_task] returns for a task. *)
Definition mock (task_name : string) : pyval :=
  VDict [("status", VStr "completed"); ("confidence", VFloat 0.85);
         ("data", VStr ("Mock data for " ++ task_name))].

Definition tasks : list string :=
  ["market_validation"; "competitor_analysis"; "technical_feasibility";
   "financial_analysis"; "strategy_synthesis"].

(** The data of an agent that has validated [idea]. *)
Definition validated (idea : string) : dict :=
  ("idea", VStr idea) :: map (fun task => (task, mock task)) tasks.

(** The data of an agent that is fresh, that has rejected an idea, or
    that has validated one. *)
Definition known (data : dict) : Prop :=
  data = []
  \/ exists idea, data = [("idea", VStr idea)] \/ data = validated idea.

(** The agent after [_execute_task] and the recording of its result. *)
Definition ran (task : string) (self : ControllerAgent) : ControllerAgent :=
  {| state :=
       {| status := status (state self);
          current_task := current_task (state self);
          completed_tasks := completed_tasks (state self);
          failed_tasks := failed_tasks (state self);
          start_time := start_time (state self);
          validation_data :=
            dict_set task (mock task) (validation_data (state self)) |};
     ticks := ticks self;
     log := log self ++ [(INFO, "Executing task: " ++ task)] |}.

Section WithRuntime.
Context {R : Runtime}.

(** A required task is executed; its mock result meets the success
    criteria, so that no fallback is executed. *)
Lemma route_runs (task agent fallback : string) (order : Z)
    (min_confidence : float) (criteria : dict) (self : ControllerAgent) :
  route (task, rule order agent min_confidence fallback criteria) self
  = (Ok tt, ran task self).
Proof. reflexivity. Qed.

Lemma routes_run (self : ControllerAgent) :
  for_each _define_routing_rules route self
  = (Ok tt, fold_left (fun s task => ran task s) tasks self).
Proof.
  unfold _define_routing_rules, for_each, bindM.
  rewrite !route_runs. reflexivity.
Qed.

Lemma score_of_validated (idea : string) :
  _calculate_validation_score (validated idea) = Ok (NFloat 8.5).
Proof. vm_compute. reflexivity. Qed.

Lemma confidence_of_validated (idea : string) (self : ControllerAgent) :
  validation_data (state self) = validated idea ->
  _calculate_confidence self = (Ok (NFloat 0.85), self).
Proof.
  unfold _calculate_confidence, gets, bindM. intros ->.
  change (confidences_of (map snd (validated idea)))
    with (List.repeat (VFloat 0.85) 5).
  cbn [List.repeat]. unfold lift.
  replace (total <- sum _ ;; _)%py with (Ok (NFloat 0.85) : result pynum)
    by (vm_compute; reflexivity).
  reflexivity.
Qed.

Lemma synthesize_validated (idea : string) (t0 : Z) (self : ControllerAgent) :
  validation_data (state self) = validated idea ->
  start_time (state self) = Some t0 ->
  _synthesize_results self
  = (Ok (VDict
       [("idea", VStr idea);
        ("score", VFloat 8.5);
        ("verdict", VStr "GO ✅");
        ("execution_time", VInt (timedelta_seconds (clock (ticks self)) t0));
        ("market_analysis", mock "market_validation");
        ("competitors", mock "competitor_analysis");
        ("technical", mock "technical_feasibility");
        ("financial", mock "financial_analysis");
        ("strategy", mock "strategy_synthesis");
        ("metadata", VDict [("timestamp", VStr (isoformat (clock (1 + ticks self))));
                            ("version", VStr "1.0");
                            ("confidence", VFloat 0.85)])]),
     {| state := state self; ticks := 2 + ticks self; log := log self |}).
Proof.
  intros D T. unfold _synthesize_results.
  unfold bindM at 1. unfold gets at 1. rewrite D.
  unfold bindM at 1. unfold lift at 1. rewrite score_of_validated.
  unfold bindM at 1. unfold datetime_now at 1.
  unfold bindM at 1. unfold gets at 1. cbn [state]. rewrite T.
  unfold bindM at 1. unfold lift at 1.
  unfold bindM at 1. unfold datetime_now at 1. cbn [ticks state log].
  unfold bindM at 1.
  rewrite (@confidence_of_validated idea) by exact D.
  reflexivity.
Qed.

End WithRuntime.

Definition record (data : dict) (task : string) : dict :=
  dict_set task (mock task) data.

Lemma data_after (idea : string) (data : dict) :
  known data ->
  fold_left record tasks (dict_set "idea" (VStr idea) data) = validated idea.
Proof. intros [-> | [idea' [-> | ->]]]; reflexivity. Qed.

Lemma ran_all (self : ControllerAgent) :
  fold_left (fun s task => ran task s) tasks self
  = {| state :=
         {| status := status (state self);
            current_task := current_task (state self);
            completed_tasks := completed_tasks (state self);
            failed_tasks := failed_tasks (state self);
            start_time := start_time (state self);
            validation_data :=
              fold_left record tasks (validation_data (state self)) |};
       ticks := ticks self;
       log := List.app (log self)
                (map (fun task => (INFO, "Executing task: " ++ task)) tasks) |}.
Proof.
  unfold tasks, fold_left, ran, map. cbn [state ticks log status current_task
    completed_tasks failed_tasks start_time validation_data].
  rewrite <- !app_assoc. reflexivity.
Qed.

(** X5: a valid idea is validated to the end, with one answer.  For
    an agent that is fresh or has only been through [start_validation]
    before, and every idea of at least 10 characters without a spam
    keyword, the five tasks are executed in the order of the routing
    rules, each once and none by its fallback, the score is 8.5, the
    verdict GO and the confidence 0.85, whatever the idea says; the
    agent ends "completed", with the idea and the five mock results as
    its data. *)
Theorem valid_input_completes (R : Runtime) (startup_idea : string)
    (self : ControllerAgent) :
  known (validation_data (state self)) ->
  (10 <= String.length startup_idea)%nat ->
  any_in ["test"; "asdf"; "123"; "xxx"] (lower startup_idea) = false ->
  let started := clock (ticks self) in
  let finished := clock (1 + ticks self) in
  let stamped := clock (2 + ticks self) in
  start_validation startup_idea self
  = (Ok (VDict
       [("idea", VStr startup_idea);
        ("score", VFloat 8.5);
        ("verdict", VStr "GO ✅");
        ("execution_time", VInt (timedelta_seconds finished started));
        ("market_analysis", mock "market_validation");
        ("competitors", mock "competitor_analysis");
        ("technical", mock "technical_feasibility");
        ("financial", mock "financial_analysis");
        ("strategy", mock "strategy_synthesis");
        ("metadata", VDict [("timestamp", VStr (isoformat stamped));
                            ("version", VStr "1.0");
                            ("confidence", VFloat 0.85)])]),
     {| state :=
          {| status := "completed";
             current_task := current_task (state self);
             completed_tasks := completed_tasks (state self);
             failed_tasks := failed_tasks (state self);
             start_time := Some started;
             validation_data := validated startup_idea |};
        ticks := 3 + ticks self;
        log := List.app (log self)
                 ((INFO, "Starting validation for: " ++ startup_idea)
                  :: map (fun task => (INFO, "Executing task: " ++ task))
                       tasks) |}).
Proof.
  intros K L S. cbv zeta.
  unfold start_validation, _pre_validation_check, spam_keywords.
  apply Nat.ltb_ge in L.
  unfold bindM at 1; unfold bindM at 1; unfold bindM at 1; unfold bindM at 1;
  unfold bindM at 1; unfold bindM at 1.
  unfold logger at 1, set_status, datetime_now at 1, set_start_time,
    set_validation_data at 1, with_state, modify.
  cbv beta iota. cbn [state ticks log]. rewrite L, S.
  unfold ret at 1. cbv beta iota. cbn [negb].
  cbn [status current_task completed_tasks failed_tasks start_time
       validation_data].
  unfold try_exceptM. unfold bindM at 1. rewrite routes_run, ran_all.
  cbn [status current_task completed_tasks failed_tasks start_time
       validation_data state ticks log].
  rewrite (data_after startup_idea K).
  unfold bindM at 1.
  rewrite (@synthesize_validated R startup_idea (clock (ticks self)))
    by reflexivity.
  unfold bindM, set_status, with_state, modify, ret.
  cbn [status current_task completed_tasks failed_tasks start_time
       validation_data state ticks log].
  rewrite <- app_assoc. reflexivity.
Qed.


(** The theorem for a fresh agent. *)
Lemma valid_input_completes_witness :
  exists (response : pyval) (self' : ControllerAgent),
    start_validation (R := Reference.runtime)
      "A marketplace for used bicycles" init = (Ok response, self')
    /\ get response "score" VNone = Ok (VFloat 8.5)
    /\ get response "verdict" VNone = Ok (VStr "GO ✅")
    /\ status (state self') = "completed"
    /\ known (validation_data (state self')).
Proof.
  do 2 eexists. split.
  - apply (@valid_input_completes Reference.runtime
             "A marketplace for used bicycles" init).
    + left. reflexivity.
    + simpl. lia.
    + reflexivity.
  - repeat split. right. eexists. right. reflexivity.
Defined.

(** X6: a rejected idea leaves the workflow running.  After
    [start_validation] has answered "Invalid input", [get_status] still
    reports the status "running", with the time elapsed since the
    rejected call, and the rejected idea has replaced the idea in the
    validation data. *)
Theorem rejected_input_leaves_running (R : Runtime) (startup_idea : string)
    (self : ControllerAgent) :
  (String.length startup_idea < 10)%nat
  \/ any_in ["test"; "asdf"; "123"; "xxx"] (lower startup_idea) = true ->
  let after := snd (start_validation startup_idea self) in
  fst (get_status after)
  = Ok (VDict
      [("status", VStr "running");
       ("current_task", current_task (state self));
       ("completed_tasks",
        VInt (Z.of_nat (List.length (completed_tasks (state self)))));
       ("elapsed_time",
        VInt (timedelta_seconds (clock (2 + ticks self))
                (clock (ticks self))))])
  /\ validation_data (state after)
     = dict_set "idea" (VStr startup_idea) (validation_data (state self)).
Proof.
  intros H. cbv zeta.
  assert (E : snd (start_validation startup_idea self)
              = {| state :=
                     {| status := "running";
                        current_task := current_task (state self);
                        completed_tasks := completed_tasks (state self);
                        failed_tasks := failed_tasks (state self);
                        start_time := Some (clock (ticks self));
                        validation_data :=
                          dict_set "idea" (VStr startup_idea)
                            (validation_data (state self)) |};
                   ticks := 2 + ticks self;
                   log := log (snd (start_validation startup_idea self)) |}).
  { unfold start_validation, _pre_validation_check, _create_error_response,
      datetime_now, logger, set_status, set_start_time, set_validation_data,
      with_state, modify, bindM, ret, spam_keywords.
    destruct (String.length startup_idea <? 10)%nat eqn:L.
    - reflexivity.
    - destruct H as [H | H].
      + apply Nat.ltb_lt in H. congruence.
      + rewrite H. reflexivity. }
  rewrite E. split; reflexivity.
Qed.

(** The theorem for a fresh agent and the idea "short": two readings
    of the clock later, two seconds have elapsed. *)
Lemma rejected_input_leaves_running_witness :
  fst (get_status (R := Reference.runtime)
         (snd (start_validation (R := Reference.runtime) "short" init)))
  = Ok (VDict [("status", VStr "running"); ("current_task", VNone);
               ("completed_tasks", VInt 0); ("elapsed_time", VInt 2)]).
Proof.
  apply (@rejected_input_leaves_running Reference.runtime "short" init).
  left. simpl. lia.
Defined.

End ControllerFacts.

(** ** agents/strategy_advisor.py *)

Module StrategyAdvisorFacts.
Import Py StrategyAdvisor.
Local Open Scope string_scope.

(** The weighted sum of the component scores, as the [float] additions
    give it, and its rounding to one decimal. *)
Lemma weighted_total :
  bind (weighted weights) sum = Ok (NFloat 7.2000000000000011).
Proof. vm_compute. reflexivity. Qed.

Lemma rounded_total : num_round (NFloat 7.2000000000000011) 1 = NFloat 7.2.
Proof. vm_compute. reflexivity. Qed.

(** The dictionary [calculate_validation_score] serialises when its
    [try] block completes. *)
Definition score_result : pyval :=
  VDict [("overall_score", VFloat 7.2);
         ("component_scores", VDict scores);
         ("confidence", VFloat 0.85)].

(** The tool's answer does not depend on its argument, but for the
    case in which the argument cannot be parsed. *)
Lemma calculate_validation_score_constant (R : Runtime)
    (analysis_data : string) :
  calculate_validation_score analysis_data
  = if contains "{" analysis_data
    then match json_loads analysis_data with
         | Some _ => Ok (json_dumps score_result)
         | None =>
             Ok (json_dumps (VDict [("overall_score", VFloat 6.5);
                                    ("error", VStr (str_exn JSONDecodeError))]))
         end
    else Ok (json_dumps score_result).
Proof.
  unfold calculate_validation_score, loads.
  assert (E :
    (terms <- weighted weights ;;
     total_score <- sum terms ;;
     Ok (json_dumps (VDict
       [("overall_score", of_number (num_round total_score 1));
        ("component_scores", VDict scores);
        ("confidence", VFloat 0.85)])))%py
    = Ok (json_dumps score_result)).
  { pose proof weighted_total as W.
    destruct (weighted weights) as [terms|]; [|discriminate].
    cbv [bind] in W |- *. rewrite W. cbv beta iota.
    rewrite rounded_total. reflexivity. }
  destruct (contains "{" analysis_data).
  - destruct (json_loads analysis_data); cbn [bind].
    + rewrite E. reflexivity.
    + reflexivity.
  - cbn [bind]. rewrite E. reflexivity.
Qed.

(** What [synthesize] returns besides the score and the verdict. *)
Definition pivot_advice (R : Runtime) : dict :=
  [("recommendations",
    strs ["Refine value proposition";
          "Focus on underserved niche";
          "Reduce initial scope";
          "Validate with potential customers";
          "Consider alternative business models"]);
   ("action_plan",
    plan ["Identify specific niche to target"; "Revise value proposition";
          "Survey target customers"]
         ["Complete pivot strategy"; "Test new positioning";
          "Update business model"]
         ["Launch revised MVP"; "Measure traction metrics";
          "Decide on path forward"]);
   ("key_success_factors",
    strs ["Strong execution"; "Customer focus"; "Rapid iteration"]);
   ("confidence", VFloat 0.85);
   ("summary", VStr ("Validation Score: " ++ format (VFloat 7.2) ""
                     ++ "/10 - " ++ format (VStr "PIVOT ⚠️") ""))].

(** C2: [StrategyAdvisorAgent.synthesize] returns the score 7.2 and the
    verdict "PIVOT" (with its sign) for every dictionary of analyses,
    and the rest of its answer does not depend on the analyses either:
    the component scores and the weights of
    [calculate_validation_score] are constants.  The [json] module is
    assumed to read back what it wrote. *)
Theorem synthesize_constant (R : Runtime) (all_analyses : pyval) :
  json_roundtrip R ->
  scores = [("market_size", VFloat 7.5); ("competition", VFloat 6.0);
            ("technical_feasibility", VFloat 8.0);
            ("financial_viability", VFloat 7.0); ("timing", VFloat 7.5)]
  /\ weights = [("market_size", 0.25%float); ("competition", 0.20%float);
                ("technical_feasibility", 0.20%float);
                ("financial_viability", 0.20%float);
                ("timing", 0.15%float)]
  /\ synthesize all_analyses
     = Ok (VDict (("score", VFloat 7.2) :: ("verdict", VStr "PIVOT ⚠️")
                  :: pivot_advice R)).
Proof.
  intros RT. split; [reflexivity|]. split; [reflexivity|].
  unfold synthesize.
  rewrite calculate_validation_score_constant.
  rewrite (RT all_analyses).
  assert (E : (if contains "{" (json_dumps all_analyses)
               then Ok (json_dumps score_result)
               else Ok (json_dumps score_result))
              = Ok (json_dumps score_result) :> result string).
  { destruct (contains "{" (json_dumps all_analyses)); reflexivity. }
  rewrite E. clear E. simpl bind.
  unfold loads at 1. rewrite (RT score_result). simpl bind.
  assert (G : generate_recommendations (VFloat 7.2)
              = Ok (json_dumps (VDict
                  [("verdict", VStr "PIVOT ⚠️");
                   ("recommendations",
                    strs ["Refine value proposition";
                          "Focus on underserved niche";
                          "Reduce initial scope";
                          "Validate with potential customers";
                          "Consider alternative business models"]);
                   ("key_success_factors",
                    strs ["Strong execution"; "Customer focus";
                          "Rapid iteration"])]))).
  { vm_compute. reflexivity. }
  change (getitem score_result "overall_score") with (Ok (VFloat 7.2)).
  simpl bind. rewrite G. simpl bind.
  unfold loads at 1. rewrite RT. simpl bind.
  change (create_action_plan (VStr "PIVOT ⚠️"))
    with (Ok (json_dumps
      (plan ["Identify specific niche to target"; "Revise value proposition";
             "Survey target customers"]
            ["Complete pivot strategy"; "Test new positioning";
             "Update business model"]
            ["Launch revised MVP"; "Measure traction metrics";
             "Decide on path forward"]))).
  simpl bind. unfold loads. rewrite RT. reflexivity.
Qed.

(** The theorem for the reference runtime, at an empty dictionary of
    analyses. *)
Lemma synthesize_constant_witness :
  synthesize (R := Reference.runtime) (VDict [])
  = Ok (VDict (("score", VFloat 7.2) :: ("verdict", VStr "PIVOT ⚠️")
               :: pivot_advice Reference.runtime)).
Proof.
  apply (@synthesize_constant Reference.runtime (VDict [])
           ReferenceFacts.reference_roundtrip).
Defined.

(** X1: the action plan is chosen by the substrings "GO" and "PIVOT" of
    the verdict, looked for in this order, and "NO-GO" contains "GO".
    For every score, the plan for its verdict is the plan of a GO unless
    the verdict is PIVOT; a NO-GO is told to validate with customers and
    to launch. *)
Theorem action_plan_of_verdict (R : Runtime) (score : pynum) :
  let verdict := Controller._determine_verdict score in
  create_action_plan (VStr verdict)
  = create_action_plan
      (VStr (if String.eqb verdict "PIVOT ⚠️" then "PIVOT ⚠️" else "GO ✅"))
  /\ create_action_plan (VStr "NO-GO ❌")
     = Ok (json_dumps (plan
         ["Validate with 20 potential customers";
          "Build technical prototype"; "Form founding team";
          "Apply to accelerators"]
         ["Complete customer interviews"; "Finalize MVP features";
          "Secure technical co-founder"]
         ["Launch MVP"; "Acquire first 100 users";
          "Raise pre-seed funding"])).
Proof.
  cbv zeta. split; [|reflexivity].
  unfold Controller._determine_verdict.
  destruct (num_ge score (NFloat 7.5)); [reflexivity|].
  destruct (num_ge score (NFloat 5.0)); reflexivity.
Qed.

(** X7: the score tool answers for every text.  The text is parsed only
    if it holds a brace; when it then fails to parse, the [except]
    clause answers the score 6.5 with the text of the error, and in
    every other case the score is 7.2 with confidence 0.85, whatever
    the text says. *)
Theorem score_tool_fallback (R : Runtime) (analysis_data : string) :
  exists d : dict,
    calculate_validation_score analysis_data = Ok (json_dumps (VDict d))
    /\ (if contains "{" analysis_data
           && match json_loads analysis_data with
              | None => true
              | Some _ => false
              end
        then d = [("overall_score", VFloat 6.5);
                  ("error", VStr (str_exn JSONDecodeError))]
        else lookup "overall_score" d = Some (VFloat 7.2)
             /\ lookup "confidence" d = Some (VFloat 0.85)
             /\ lookup "error" d = None).
Proof.
  rewrite calculate_validation_score_constant.
  destruct (contains "{" analysis_data); [destruct (json_loads analysis_data)|];
    eexists; (split; [reflexivity|]); simpl; auto.
Qed.

End StrategyAdvisorFacts.

(** ** agents/technical_architect.py *)

Module TechnicalArchitectFacts.
Import Py TechnicalArchitect SubstringFacts.
Local Open Scope string_scope.

(** The classification in words: the high keywords are looked for
    first, then the medium ones, then the low ones; an idea with none
    of them is of medium complexity. *)
Definition classified (idea : string) : string * Z :=
  let idea_lower := lower idea in
  if any_in high_keywords idea_lower then ("high", 8%Z)
  else if any_in medium_keywords idea_lower then ("medium", 5%Z)
  else if any_in low_keywords idea_lower then ("low", 3%Z)
  else ("medium", 5%Z).

(** C6: the technical complexity is decided by the presence of
    keywords as substrings of the lowercased idea, the lists being tried
    in the order high, medium, low: [assess_technical_complexity]
    answers "high" with score 8, else "medium" with 5, else "low" with
    3, else the default "medium" with 5. *)
Theorem complexity_by_keywords (R : Runtime) (idea : string) :
  assess_technical_complexity idea
  = Ok (json_dumps (VDict
      [("complexity", VStr (fst (classified idea)));
       ("score", VInt (snd (classified idea)));
       ("description",
        VStr ("This project has " ++ fst (classified idea)
              ++ " technical complexity"))])).
Proof.
  unfold assess_technical_complexity, complexity_result, classified.
  unfold complexity_indicators, classify.
  destruct (any_in high_keywords (lower idea)); [reflexivity|].
  destruct (any_in medium_keywords (lower idea)); [reflexivity|].
  destruct (any_in low_keywords (lower idea)); reflexivity.
Qed.

(** The keywords the lists hold, among them those of the examples. *)
Example keyword_lists :
  high_keywords
  = ["ai"; "machine learning"; "blockchain"; "ar"; "vr"; "quantum";
     "autonomous"; "robotics"; "deep learning"; "neural"]
  /\ medium_keywords
     = ["marketplace"; "platform"; "app"; "saas"; "api"; "integration";
        "analytics"; "dashboard"; "automation"; "cloud"]
  /\ low_keywords
     = ["website"; "blog"; "landing page"; "newsletter"; "directory";
        "simple"; "basic"; "static"].
Proof. repeat split. Qed.

(** A keyword counts wherever it occurs, inside a word too: "ar" is
    found in "marketplace" and in "gardeners". *)
Example classified_samples :
  map classified
    ["A robotics kit for schools"; "An app for dog owners";
     "A simple blog for plumbers"; "A simple blog for gardeners";
     "Uber for dogs"; "A marketplace for used bicycles"]
  = [("high", 8%Z); ("medium", 5%Z); ("low", 3%Z); ("high", 8%Z);
     ("medium", 5%Z); ("high", 8%Z)].
Proof. vm_compute. reflexivity. Qed.

(** X4: two of the medium keywords are never reached.  "marketplace"
    and "dashboard" contain the high keyword "ar", and the high keywords
    are looked for first: every idea with one of these two words is
    classified as of high complexity, with score 8. *)
Theorem shadowed_medium_keywords (R : Runtime) (idea : string) :
  contains "marketplace" (lower idea) = true
  \/ contains "dashboard" (lower idea) = true ->
  exists description,
    assess_technical_complexity idea
    = Ok (json_dumps (VDict [("complexity", VStr "high");
                             ("score", VInt 8);
                             ("description", VStr description)])).
Proof.
  intros H.
  assert (A : contains "ar" (lower idea) = true).
  { destruct H as [H | H]; (eapply contains_trans; [|exact H]); reflexivity. }
  unfold assess_technical_complexity, complexity_result, complexity_indicators.
  unfold classify, high_keywords, any_in. simpl existsb.
  rewrite A, !orb_true_r. simpl. eexists. reflexivity.
Qed.

(** The theorem at an idea for a marketplace. *)
Lemma shadowed_medium_keywords_witness :
  exists description,
    assess_technical_complexity (R := Reference.runtime)
      "A Marketplace for used bicycles"
    = Ok (Reference.dumps (VDict [("complexity", VStr "high");
                             ("score", VInt 8);
                             ("description", VStr description)])).
Proof.
  apply (@shadowed_medium_keywords Reference.runtime
           "A Marketplace for used bicycles").
  left. reflexivity.
Defined.

(** The timeline of a level of complexity. *)
Definition timeline_of (level : string) : pyval :=
  match lookup level timelines with
  | Some t => t
  | None => VNone
  end.

Lemma classified_levels (idea : string) :
  In (classified idea) [("high", 8%Z); ("medium", 5%Z); ("low", 3%Z)].
Proof.
  unfold classified.
  destruct (any_in high_keywords _); [simpl; tauto|].
  destruct (any_in medium_keywords _); [simpl; tauto|].
  destruct (any_in low_keywords _); simpl; tauto.
Qed.

Lemma complexity_result_classified (idea : string) :
  complexity_result idea
  = Ok (VDict
      [("complexity", VStr (fst (classified idea)));
       ("score", VInt (snd (classified idea)));
       ("description",
        VStr ("This project has " ++ fst (classified idea)
              ++ " technical complexity"))]).
Proof.
  unfold complexity_result, classified, complexity_indicators, classify.
  destruct (any_in high_keywords (lower idea)); [reflexivity|].
  destruct (any_in medium_keywords (lower idea)); [reflexivity|].
  destruct (any_in low_keywords (lower idea)); reflexivity.
Qed.

(** Opens the outermost [let] of the left-hand side. *)
Ltac open_let :=
  lazymatch goal with
  | |- exists s, (let x := ?a in @?f x) = @?r s =>
      let y := fresh x in
      generalize a; intro y; change (exists s, f y = r s); cbv beta
  end.

Lemma stack_text (R : Runtime) (idea : string) :
  exists stack : dict,
    recommend_tech_stack idea = Ok (json_dumps (VDict stack)).
Proof.
  cbv beta delta [recommend_tech_stack]. repeat open_let.
  eexists. reflexivity.
Qed.

(** X9: the stack is the default one, changed by four tests on the
    lowercased idea.  "mobile" or "app" adds a mobile entry; "ai" or
    "machine learning" adds an ml entry and changes the backend;
    "real-time" or "live" adds a realtime entry; "marketplace" or
    "payment" adds a payments entry.  Each test that holds appends one
    item to the additional ones, in this order; frontend, database and
    hosting never change. *)
Theorem tech_stack_by_features (R : Runtime) (idea : string) :
  let has word := contains word (lower idea) in
  let mobile := has "mobile" || has "app" in
  let ai := has "ai" || has "machine learning" in
  let realtime := has "real-time" || has "live" in
  let payments := has "marketplace" || has "payment" in
  let entry (wanted : bool) (v : string) :=
    if wanted then Some (VStr v) else None in
  let item (wanted : bool) (v : string) :=
    if wanted then [VStr v] else [] in
  exists stack : dict,
    recommend_tech_stack idea = Ok (json_dumps (VDict stack))
    /\ map (fun k => lookup k stack) ["frontend"; "database"; "hosting"]
       = [Some (VStr "React/Next.js"); Some (VStr "PostgreSQL");
          Some (VStr "AWS/Vercel")]
    /\ lookup "backend" stack
       = Some (VStr (if ai then "Python FastAPI"
                     else "Node.js/Python FastAPI"))
    /\ lookup "mobile" stack = entry mobile "React Native or Flutter"
    /\ lookup "ml" stack = entry ai "TensorFlow/PyTorch"
    /\ lookup "realtime" stack = entry realtime "WebSockets/Socket.io"
    /\ lookup "payments" stack = entry payments "Stripe/PayPal"
    /\ lookup "additional" stack
       = Some (VList (item mobile "Push notifications"
                      ++ item ai "GPU infrastructure"
                      ++ item realtime "Redis for caching"
                      ++ item payments "Payment processing")).
Proof.
  cbv zeta. cbv beta delta [recommend_tech_stack].
  generalize (lower idea). intros idea_lower.
  lazymatch goal with
  | |- exists s, (let x := idea_lower in @?f x) = @?r s /\ @?rest s =>
      change (exists s, f idea_lower = r s /\ rest s); cbv beta
  end.
  (destruct (contains "mobile" idea_lower || contains "app" idea_lower);
  destruct (contains "ai" idea_lower
            || contains "machine learning" idea_lower);
  destruct (contains "real-time" idea_lower || contains "live" idea_lower);
  destruct (contains "marketplace" idea_lower
            || contains "payment" idea_lower);
  cbv; (eexists; split; [reflexivity | repeat split])).
Qed.

Lemma timeline_text (R : Runtime) (level : string) :
  In level ["high"; "medium"; "low"] ->
  estimate_development_timeline (VStr level)
  = Ok (json_dumps (timeline_of level)).
Proof. (intros [<- | [<- | [<- | []]]]; reflexivity). Qed.

(** X8: the technical analysis returns for every idea, and its
    timeline is the one of its complexity.  The level found by the
    keywords is one of the three keys of the timelines, so that the
    default of the timeline tool is never used: an MVP takes 6-8 months
    for a high complexity, 1-2 months for a low one and 3-4 months
    otherwise.  The [json] module is assumed to read back what it
    wrote. *)
Theorem analyze_timeline_matches_complexity (R : Runtime) (idea : string) :
  json_roundtrip R ->
  exists (tech_stack : pyval) (summary : string),
    let level := fst (classified idea) in
    analyze idea
    = Ok (VDict
        [("complexity",
          VDict [("complexity", VStr level);
                 ("score", VInt (snd (classified idea)));
                 ("description",
                  VStr ("This project has " ++ level
                        ++ " technical complexity"))]);
         ("tech_stack", tech_stack);
         ("timeline", timeline_of level);
         ("confidence", VFloat 0.85);
         ("summary", VStr summary)])
    /\ get (timeline_of level) "mvp" VNone
       = Ok (VStr (if String.eqb level "high" then "6-8 months"
                   else if String.eqb level "low" then "1-2 months"
                   else "3-4 months")).
Proof.
  intros J. unfold analyze.
  unfold assess_technical_complexity.
  rewrite complexity_result_classified. cbn [bind].
  unfold loads at 1. rewrite J. cbn [bind].
  destruct (stack_text R idea) as [stack ->].
  cbn [bind]. unfold loads at 1. rewrite J. cbn [bind].
  assert (L : In (fst (classified idea)) ["high"; "medium"; "low"]).
  { pose proof (classified_levels idea) as C.
    destruct (classified idea) as [level score]. simpl in *.
    destruct C as [C | [C | [C | []]]]; injection C as <- <-; tauto. }
  set (level := fst (classified idea)) in *.
  change (getitem (VDict (("complexity", VStr level) :: _)) "complexity")
    with (Ok (VStr level) : result pyval).
  cbn [bind]. rewrite (timeline_text R L). cbn [bind].
  unfold loads. rewrite J. cbn [bind].
  assert (M : exists mvp, getitem (timeline_of level) "mvp" = Ok (VStr mvp)
              /\ get (timeline_of level) "mvp" VNone
                 = Ok (VStr (if String.eqb level "high" then "6-8 months"
                             else if String.eqb level "low" then "1-2 months"
                             else "3-4 months"))).
  { (destruct L as [<- | [<- | [<- | []]]]; eexists; split; reflexivity). }
  destruct M as (mvp & -> & G). cbn [bind].
  (do 2 eexists; split; [reflexivity | exact G]).
Qed.

(** The theorem for a blog, with the reference runtime. *)
Lemma analyze_timeline_matches_complexity_witness :
  exists (tech_stack : pyval) (summary : string),
    analyze (R := Reference.runtime) "A blog on cooking"
    = Ok (VDict
        [("complexity",
          VDict [("complexity", VStr "low"); ("score", VInt 3);
                 ("description",
                  VStr "This project has low technical complexity")]);
         ("tech_stack", tech_stack);
         ("timeline", timeline_of "low");
         ("confidence", VFloat 0.85);
         ("summary", VStr summary)]).
Proof.
  destruct (@analyze_timeline_matches_complexity Reference.runtime
              "A blog on cooking" ReferenceFacts.reference_roundtrip)
    as (tech_stack & summary & E & _).
  exists tech_stack, summary. exact E.
Defined.

End TechnicalArchitectFacts.

(** ** agents/financial_analyst.py *)

Module FinancialAnalystFacts.
Import Py FinancialAnalyst.
Local Open Scope string_scope.

(** C7: the projections are multiples of one number taken from the
    market-size string, but [project_revenue] does not return for every
    string.  The first run of digits and dots is handed to [float]; in
    "U.S. market: $4.5B" that run is the dot after "U", and the tool
    raises [ValueError] instead of projecting from 4.5 or from the
    default 100. *)
Theorem project_revenue_first_run_not_a_number (R : Runtime) :
  findall number_run "U.S. market: $4.5B" = ["."; "."; "4.5"]
  /\ project_revenue "U.S. market: $4.5B" default_capture_rate
     = Raise ValueError.
Proof. split; vm_compute; reflexivity. Qed.

(** Where the first run is a number, or there is none, the projections
    are the truncated products the tool computes in [float]. *)
Example revenue_projection_samples (R : Runtime) :
  map (fun market_size =>
         match revenue_projections market_size default_capture_rate with
         | Ok (VDict d) => map snd (firstn 4 d)
         | _ => []
         end)
      ["$15.8B"; "$100B"; "$250M"; "large"; "about 3 billion"]
  = [[VInt 1580000; VInt 4740000; VInt 15800000; VInt 39500000];
     [VInt 10000000; VInt 30000000; VInt 100000000; VInt 250000000];
     [VInt 25000; VInt 75000; VInt 250000; VInt 625000];
     [VInt 10000; VInt 30000; VInt 100000; VInt 250000];
     [VInt 300000; VInt 900000; VInt 3000000; VInt 7500000]].
Proof. vm_compute. reflexivity. Qed.

(** A month of the simulation advances [months] by one. *)
Lemma month_months (monthly_burn revenue_growth : pynum)
    (s s' : simulation) :
  month monthly_burn revenue_growth s = Ok s' ->
  months s' = (months s + 1)%Z.
Proof.
  unfold month, bind.
  destruct (num_sub (current_revenue s) monthly_burn); [|discriminate].
  destruct (num_sub (cumulative_loss s) a); [|discriminate].
  destruct (num_mul (current_revenue s) revenue_growth); [|discriminate].
  intros [= <-]. reflexivity.
Qed.

(** The loop ends within [36 - months] further months: with more fuel
    than that it returns, and [months] stays at most 36. *)
Lemma simulation_ends (total_costs monthly_burn revenue_growth : pynum)
    (fuel : nat) :
  forall s : simulation,
    (0 <= months s <= 36)%Z ->
    (36 - months s < Z.of_nat fuel)%Z ->
    exists r,
      while fuel (running total_costs) (month monthly_burn revenue_growth) s
      = Some r
      /\ forall s', r = Ok s' -> (0 <= months s' <= 36)%Z.
Proof.
  induction fuel as [|fuel IH]; intros s Hm Hf; [lia|].
  simpl. destruct (running total_costs s) eqn:Run.
  - unfold running in Run. apply andb_prop in Run. destruct Run as [_ Lt].
    apply Z.ltb_lt in Lt.
    destruct (month monthly_burn revenue_growth s) as [s1|e] eqn:Step.
    + apply month_months in Step.
      apply IH; lia.
    + eexists. split; [reflexivity|]. discriminate.
  - eexists. split; [reflexivity|]. intros s' [= <-]. assumption.
Qed.

(** C10: the break-even computation ends with a bounded result.  For
    every [costs] and [monthly_revenue], [calculate_break_even] returns
    the text of a dictionary whose [months_to_break_even] is between 0
    and 36: the loop counts [months] up by one under the guard
    [months < 36] (so the fuel of the model is never exhausted), and the
    [except] clause answers 18. *)
Theorem break_even_months (R : Runtime) (costs monthly_revenue : string) :
  exists (d : dict) (m : Z),
    calculate_break_even costs monthly_revenue
    = Some (Ok (json_dumps (VDict d)))
    /\ lookup "months_to_break_even" d = Some (VInt m)
    /\ (0 <= m <= 36)%Z.
Proof.
  unfold calculate_break_even, break_even.
  destruct (burn_rate costs) as [[[total_costs total] monthly_burn]|e].
  - destruct (@simulation_ends total monthly_burn (NFloat 1.15) loop_fuel
                {| months := 0; cumulative_loss := NInt 0;
                   current_revenue := NInt 5000 |})
      as (r & W & Hr).
    + simpl. lia.
    + simpl. lia.
    + rewrite W. destruct r as [final|e].
      * do 2 eexists. split; [reflexivity|].
        split; [reflexivity|]. apply Hr. reflexivity.
      * exists [("months_to_break_even", VInt 18);
                ("break_even_timeline", VStr "18 months");
                ("note", VStr "Estimated based on industry average")], 18%Z.
        split; [reflexivity|]. split; [reflexivity|]. lia.
  - exists [("months_to_break_even", VInt 18);
            ("break_even_timeline", VStr "18 months");
            ("note", VStr "Estimated based on industry average")], 18%Z.
    split; [reflexivity|]. split; [reflexivity|]. lia.
Qed.

(** With the costs of the four kinds of startup the revenue of the
    first month already exceeds the burn, no loss accumulates, and the
    loop runs to its bound. *)
Example break_even_samples :
  map (fun total =>
         match break_even (R := Reference.runtime)
                 (Reference.dumps (VDict [("total", VInt total)])) with
         | Some (Ok r) => get r "months_to_break_even" VNone
         | _ => Raise KeyError
         end)
      [100000; 65000; 85000; 50000; 0; -5]%Z
  = [Ok (VInt 36); Ok (VInt 36); Ok (VInt 36); Ok (VInt 36);
     Ok (VInt 0); Ok (VInt 0)].
Proof. vm_compute. reflexivity. Qed.

(** The loop for the total costs of a kind of startup, or for the
    default 100000: it leaves at 36 months. *)
Definition months_simulated (total : Z) : option (result Z) :=
  match num_mul (NInt total) (NFloat 0.3) with
  | Ok burn =>
      match num_truediv burn (NInt 12) with
      | Ok monthly_burn =>
          match while loop_fuel (running (NInt total))
                  (month monthly_burn (NFloat 1.15))
                  {| months := 0; cumulative_loss := NInt 0;
                     current_revenue := NInt 5000 |} with
          | Some (Ok final) => Some (Ok (months final))
          | Some (Raise e) => Some (Raise e)
          | None => None
          end
      | Raise e => Some (Raise e)
      end
  | Raise e => Some (Raise e)
  end.

Lemma months_simulated_36 (total : Z) :
  In total [100000; 65000; 85000; 50000]%Z ->
  months_simulated total = Some (Ok 36%Z).
Proof. intros [<-|[<-|[<-|[<-|[]]]]]; vm_compute; reflexivity. Qed.

Lemma break_even_of_total (R : Runtime) (costs : string) (costs_data : pyval) (total : Z) :
  (if contains "{" costs then loads costs
   else Ok (VDict [("total", VInt 100000)])) = Ok costs_data ->
  get costs_data "total" (VInt 100000) = Ok (VInt total) ->
  months_simulated total = Some (Ok 36%Z) ->
  exists d,
    break_even costs = Some (Ok (VDict d))
    /\ lookup "months_to_break_even" d = Some (VInt 36).
Proof.
  intros E G. unfold months_simulated, break_even, burn_rate.
  rewrite E. cbn [bind]. rewrite G. cbn [bind mul_by as_number].
  destruct (num_mul (NInt total) (NFloat 0.3)) as [burn|e]; [|discriminate].
  cbn [bind]. rewrite PyFacts.as_number_of_number.
  destruct (num_truediv burn (NInt 12)) as [monthly_burn|e]; [|discriminate].
  cbn [bind].
  destruct (while _ _ _ _) as [[final|e]|]; try discriminate.
  intros [= M]. eexists. split; [reflexivity|]. simpl. now rewrite M.
Qed.

(** X3: whatever the idea, the break-even tool answers 36 months for
    the startup costs the cost tool computes for it: with each of the
    four cost tables the revenue of the first month exceeds the monthly
    burn, no loss accumulates, and the loop runs to its bound. *)
Theorem break_even_of_startup_costs (R : Runtime) (idea : string) :
  json_roundtrip R ->
  exists (costs d : dict),
    calculate_startup_costs idea = Ok (json_dumps (VDict costs))
    /\ break_even (json_dumps (VDict costs)) = Some (Ok (VDict d))
    /\ lookup "months_to_break_even" d = Some (VInt 36).
Proof.
  intros J.
  assert (B : forall (c : dict) (total : Z),
            lookup "total" c = Some (VInt total) ->
            In total [100000; 65000; 85000; 50000]%Z ->
            exists d,
              break_even (json_dumps (VDict c)) = Some (Ok (VDict d))
              /\ lookup "months_to_break_even" d = Some (VInt 36)).
  { intros c total L I.
    destruct (contains "{" (json_dumps (VDict c))) eqn:Brace.
    - apply (@break_even_of_total R _ (VDict c) total).
      + rewrite Brace. unfold loads. rewrite J. reflexivity.
      + simpl. rewrite L. reflexivity.
      + apply months_simulated_36, I.
    - apply (@break_even_of_total R _ (VDict [("total", VInt 100000)])
               100000%Z).
      + rewrite Brace. reflexivity.
      + reflexivity.
      + apply months_simulated_36. simpl. tauto. }
  unfold calculate_startup_costs.
  destruct (contains "marketplace" (lower idea)
            || contains "platform" (lower idea));
    [|destruct (contains "app" (lower idea)
                || contains "mobile" (lower idea));
      [|destruct (contains "saas" (lower idea)
                  || contains "software" (lower idea))]].
  all: match goal with
       | |- context [sum ?l] =>
           let v := eval vm_compute in (sum l) in
           change (sum l) with v
       end; cbn [bind of_number]; simpl dict_set.
  all: match goal with
       | |- exists c d, Ok (json_dumps (VDict ?c0)) = _ /\ _ =>
           exists c0;
           match c0 with
           | context [("total", VInt ?t)] =>
               destruct (B c0 t) as (d & E & L);
               [reflexivity | simpl; tauto
               | exists d; split; [reflexivity|]; split; assumption]
           end
       end.
Qed.

(** The theorem with the reference runtime, for an app. *)
Lemma break_even_of_startup_costs_witness :
  exists (costs d : dict),
    calculate_startup_costs (R := Reference.runtime) "A mobile app for runners"
    = Ok (Reference.dumps (VDict costs))
    /\ break_even (R := Reference.runtime) (Reference.dumps (VDict costs))
       = Some (Ok (VDict d))
    /\ lookup "months_to_break_even" d = Some (VInt 36).
Proof.
  exact (@break_even_of_startup_costs Reference.runtime
           "A mobile app for runners" ReferenceFacts.reference_roundtrip).
Defined.

Import SubstringFacts.

(** A character of the pattern "[\d.]". *)
Definition in_run (c : ascii) : bool := is_digit c || Ascii.eqb c ".".

(** The text without its leading characters of the pattern. *)
Fixpoint skip_run (s : string) : string :=
  match s with
  | EmptyString => EmptyString
  | String c r => if in_run c then skip_run r else s
  end.

(** The leading characters of the pattern. *)
Fixpoint take_run (s : string) : string :=
  match s with
  | EmptyString => EmptyString
  | String c r => if in_run c then String c (take_run r) else EmptyString
  end.

(** The first maximal run of digits and dots of a text; empty if the
    text has neither. *)
Fixpoint first_run (s : string) : string :=
  match s with
  | EmptyString => EmptyString
  | String c r => if in_run c then take_run s else first_run r
  end.

(** The test that selects the multiplier 1,000,000,000. *)
Definition billion (s : string) : bool :=
  contains "B" s || contains "billion" (lower s).

Lemma star_run (s : string) (g : option string) :
  matches (Star (Chr in_run)) s g (fun s' g' => Some (s', g'))
  = Some (skip_run s, g).
Proof.
  induction s as [|c r IH]; [reflexivity|].
  cbn [matches String.length]. cbn [skip_run].
  destruct (in_run c); [|reflexivity].
  rewrite (proj2 (Nat.ltb_lt _ _) (Nat.lt_succ_diag_r _)).
  change (matches (Star (Chr in_run)) r g (fun s' g' => Some (s', g'))
          = Some (skip_run r, g)) in IH.
  cbn [matches] in IH. rewrite IH. reflexivity.
Qed.

Lemma match_run (s : string) :
  match_here number_run s
  = match s with
    | String c r => if in_run c then Some (skip_run r, None) else None
    | EmptyString => None
    end.
Proof.
  unfold match_here, number_run, Plus.
  change (fun c => is_digit c || Ascii.eqb c ".") with in_run.
  destruct s as [|c r]; [reflexivity|].
  cbn [matches]. destruct (in_run c); [|reflexivity].
  apply (star_run r None).
Qed.

Lemma skip_run_length (s : string) :
  (String.length (skip_run s) <= String.length s)%nat.
Proof.
  induction s as [|c r IH]; simpl; [lia|]. destruct (in_run c); simpl; lia.
Qed.

Lemma take_before_skip (s : string) :
  str_take (String.length s - String.length (skip_run s)) s = take_run s.
Proof.
  induction s as [|c r IH]; [reflexivity|].
  simpl skip_run. simpl take_run. destruct (in_run c).
  - pose proof (skip_run_length r).
    replace (String.length (String c r) - String.length (skip_run r))%nat
      with (S (String.length r - String.length (skip_run r)))
      by (change (String.length (String c r)) with (S (String.length r)); lia).
    simpl. now rewrite IH.
  - now rewrite Nat.sub_diag.
Qed.

(** The first item [re.findall] reports for the pattern is the first
    run of the text. *)
Lemma findall_first_run (fuel : nat) :
  forall s : string,
    (String.length s < fuel)%nat ->
    hd_error (findall_from fuel number_run s)
    = match first_run s with
      | EmptyString => None
      | run => Some run
      end.
Proof.
  induction fuel as [|fuel IH]; intros s L; [lia|].
  cbn [findall_from]. rewrite match_run.
  destruct s as [|c r]; [reflexivity|].
  cbn [first_run]. destruct (in_run c) eqn:C.
  - rewrite <- (take_before_skip (String c r)).
    cbn [skip_run]. rewrite C.
    set (whole := str_take _ _).
    assert (W : whole = String c (take_run r)).
    { unfold whole. rewrite <- (take_before_skip r).
      pose proof (skip_run_length r).
      replace (String.length (String c r) - String.length (skip_run r))%nat
        with (S (String.length r - String.length (skip_run r)))
        by (change (String.length (String c r)) with (S (String.length r)); lia).
      reflexivity. }
    rewrite W. destruct (_ <? _)%nat; reflexivity.
  - apply IH. simpl in L. lia.
Qed.

Lemma numbers_first_run (s : string) :
  hd_error (findall number_run s)
  = match first_run s with
    | EmptyString => None
    | run => Some run
    end.
Proof. apply findall_first_run. lia. Qed.

(** The projections depend on the text through its first run and
    through the test for billions only. *)
Lemma projections_by_run (R : Runtime) (s t : string) (rate : pynum) :
  first_run s = first_run t ->
  billion s = billion t ->
  revenue_projections s rate = revenue_projections t rate.
Proof.
  intros F B. unfold revenue_projections. fold (billion s) (billion t).
  rewrite B.
  pose proof (numbers_first_run s) as Hs.
  pose proof (numbers_first_run t) as Ht.
  rewrite <- F in Ht. rewrite <- Ht in Hs.
  replace (if contains "M" s || contains "million" (lower s)
           then 1000000%Z else 1000000%Z) with 1000000%Z
    by (destruct (_ || _); reflexivity).
  replace (if contains "M" t || contains "million" (lower t)
           then 1000000%Z else 1000000%Z) with 1000000%Z
    by (destruct (_ || _); reflexivity).
  destruct (findall number_run s) as [|a l], (findall number_run t) as [|b m];
    simpl in Hs; try discriminate; [reflexivity|].
  injection Hs as ->. reflexivity.
Qed.


(** Texts made of characters of the pattern. *)
Fixpoint all_run (s : string) : bool :=
  match s with
  | EmptyString => true
  | String c r => in_run c && all_run r
  end.

Lemma take_run_all (s : string) : all_run (take_run s) = true.
Proof.
  induction s as [|c r IH]; [reflexivity|].
  simpl. destruct (in_run c) eqn:C; [|reflexivity]. simpl. now rewrite C.
Qed.

Lemma first_run_all (s : string) : all_run (first_run s) = true.
Proof.
  induction s as [|c r IH]; [reflexivity|].
  cbn [first_run]. destruct (in_run c); [apply take_run_all | exact IH].
Qed.

Lemma take_run_app (r suffix : string) :
  all_run r = true -> take_run suffix = "" -> take_run (r ++ suffix) = r.
Proof.
  intros A S. induction r as [|c r IH]; [exact S|].
  simpl in A |- *. apply andb_prop in A. destruct A as [C A].
  rewrite C, (IH A). reflexivity.
Qed.

Lemma first_run_app (r suffix : string) :
  all_run r = true -> first_run suffix = "" -> take_run suffix = "" ->
  first_run (r ++ suffix) = r.
Proof.
  intros A F T. destruct r as [|c r]; [exact F|].
  simpl in A. apply andb_prop in A. destruct A as [C A].
  change (String c r ++ suffix) with (String c (r ++ suffix)).
  cbn [first_run take_run]. rewrite C, (@take_run_app r suffix A T). reflexivity.
Qed.

Lemma lower_run (r : string) : all_run r = true -> lower r = r.
Proof.
  induction r as [|c r IH]; [reflexivity|].
  simpl. intros A. apply andb_prop in A. destruct A as [C A].
  rewrite (IH A). f_equal.
  destruct c as [[] [] [] [] [] [] [] []]; try discriminate; reflexivity.
Qed.

(** A word that starts with another character does not occur in a
    run. *)
Lemma not_in_run (c0 : ascii) (word r : string) :
  in_run c0 = false -> all_run r = true -> contains (String c0 word) r = false.
Proof.
  intros N. induction r as [|c r IH]; intros A; [reflexivity|].
  simpl in A. apply andb_prop in A. destruct A as [C A].
  cbn [contains String.prefix]. rewrite (IH A).
  destruct (ascii_dec c0 c) as [E|_]; [|reflexivity].
  subst c0. congruence.
Qed.

Lemma billion_run (r : string) : all_run r = true -> billion r = false.
Proof.
  intros A. unfold billion. rewrite (@lower_run r A).
  rewrite !not_in_run by (assumption || reflexivity). reflexivity.
Qed.

Lemma billion_suffix (r : string) : billion (r ++ "B") = true.
Proof.
  unfold billion. apply orb_true_iff. left.
  apply contains_occurs. exists r, "". reflexivity.
Qed.

(** The text reduced to what [project_revenue] reads of it. *)
Definition canonical (s : string) : string :=
  first_run s ++ (if billion s then "B" else "").

(** X11: what [project_revenue] reads of the market size.  The number
    it converts is the first maximal run of digits and dots of the
    text, and the text matters through this run and through the test
    for "B" or "billion" only: the tool answers for the text as for the
    run alone, followed by "B" if the test holds. *)
Theorem project_revenue_by_first_run (R : Runtime) (market_size : string)
    (capture_rate : pynum) :
  project_revenue market_size capture_rate
  = project_revenue (canonical market_size) capture_rate
  /\ hd_error (findall number_run market_size)
     = match first_run market_size with
       | EmptyString => None
       | run => Some run
       end.
Proof.
  split; [|apply numbers_first_run].
  unfold project_revenue. f_equal. apply projections_by_run; unfold canonical.
  - pose proof (first_run_all market_size) as A.
    destruct (billion market_size);
      rewrite first_run_app; auto.
  - pose proof (first_run_all market_size) as A.
    destruct (billion market_size) eqn:B.
    + now rewrite billion_suffix.
    + rewrite ReferenceFacts.append_empty. now rewrite billion_run.
Qed.


(** The number of dots and of digits of a text. *)
Fixpoint dots (s : string) : nat :=
  match s with
  | EmptyString => 0
  | String c r => (if Ascii.eqb c "." then 1 else 0) + dots r
  end.

Fixpoint digits (s : string) : nat :=
  match s with
  | EmptyString => 0
  | String c r => (if is_digit c then 1 else 0) + digits r
  end.

(** A run that [float] reads: at most one dot and at least one digit. *)
Definition number_like (run : string) : bool :=
  (dots run <=? 1)%nat && (1 <=? digits run)%nat.

Lemma digit_not_dot (c : ascii) : is_digit c = true -> Ascii.eqb c "." = false.
Proof.
  destruct c as [[] [] [] [] [] [] [] []]; try discriminate; reflexivity.
Qed.

Lemma digits_value_digits (s : string) :
  forall acc, all_run s = true -> dots s = 0%nat ->
              exists z, digits_value acc s = Some z.
Proof.
  induction s as [|c r IH]; intros acc A D; [eexists; reflexivity|].
  simpl in A, D. apply andb_prop in A. destruct A as [C A].
  unfold in_run in C. simpl.
  destruct (Ascii.eqb c "."); [discriminate|].
  rewrite orb_false_r in C. rewrite C. apply IH; assumption.
Qed.

Lemma digits_value_dot (s : string) :
  forall acc, all_run s = true -> (1 <= dots s)%nat ->
              digits_value acc s = None.
Proof.
  induction s as [|c r IH]; intros acc A D; [simpl in D; lia|].
  simpl in A, D. apply andb_prop in A. destruct A as [C A]. simpl.
  destruct (is_digit c) eqn:G; [|reflexivity].
  rewrite (digit_not_dot _ G) in D. apply IH; assumption.
Qed.

(** The two parts of a run around its first dot. *)
Lemma split_dot_run (s : string) :
  all_run s = true ->
  match split_dot s with
  | (a, None) =>
      a = s /\ dots s = 0%nat
  | (a, Some f) =>
      all_run a = true /\ dots a = 0%nat /\ all_run f = true
      /\ dots s = S (dots f) /\ digits s = (digits a + digits f)%nat
      /\ String.length a = digits a /\ (digits f <= String.length f)%nat
  end.
Proof.
  induction s as [|c r IH]; intros A; [repeat split|].
  simpl in A. apply andb_prop in A. destruct A as [C A].
  pose proof A as A'.
  specialize (IH A). cbn [split_dot dots digits].
  destruct (Ascii.eqb c ".") eqn:E.
  - assert (G : is_digit c = false).
    { destruct (is_digit c) eqn:G; [|reflexivity].
      now rewrite (digit_not_dot _ G) in E. }
    rewrite G. repeat split; try assumption.
    clear. induction r as [|d r IH]; simpl; [lia|].
    destruct (is_digit d); lia.
  - unfold in_run in C. rewrite E, orb_false_r in C.
    destruct (split_dot r) as [a [f|]]; cbn [all_run dots digits];
      unfold in_run; rewrite ?C, ?E; simpl;
      intuition (try lia; try congruence).
Qed.

Lemma digits_length (s : string) :
  all_run s = true -> dots s = 0%nat -> digits s = String.length s.
Proof.
  induction s as [|c r IH]; [reflexivity|].
  simpl. intros A D. apply andb_prop in A. destruct A as [C A].
  unfold in_run in C. destruct (Ascii.eqb c "."); [discriminate|].
  rewrite orb_false_r in C. rewrite C. simpl. f_equal.
  apply IH; assumption.
Qed.

Lemma float_of_run (run : string) :
  all_run run = true -> run <> "" ->
  if number_like run
  then exists f, float_of_string run = Ok f
  else float_of_string run = Raise ValueError.
Proof.
  intros A N. pose proof (@split_dot_run run A) as S.
  unfold float_of_string, number_like.
  destruct (split_dot run) as [a [f|]].
  - destruct S as (Aa & Da & Af & Ds & Gs & La & Lf).
    rewrite Ds, Gs.
    destruct ((String.length a + String.length f) =? 0)%nat eqn:Z.
    + apply Nat.eqb_eq in Z.
      replace (digits a) with 0%nat by lia.
      replace (digits f) with 0%nat by lia.
      rewrite andb_false_r. reflexivity.
    + apply Nat.eqb_neq in Z.
      destruct (@digits_value_digits a 0%Z Aa Da) as [i ->].
      destruct (dots f) as [|n] eqn:Df.
      * destruct (@digits_value_digits f 0%Z Af Df) as [j ->].
        pose proof (@digits_length f Af Df).
        replace (1 <=? digits a + digits f)%nat with true
          by (symmetry; apply Nat.leb_le; lia).
        simpl. eexists. reflexivity.
      * rewrite (@digits_value_dot f 0%Z Af) by lia. reflexivity.
  - destruct S as (-> & Ds). rewrite Ds.
    pose proof (@digits_length run A Ds) as L.
    assert (0 < String.length run)%nat.
    { destruct run; [congruence | simpl; lia]. }
    replace (1 <=? digits run)%nat with true
      by (symmetry; apply Nat.leb_le; lia).
    rewrite Nat.add_0_r.
    replace (String.length run =? 0)%nat with false
      by (symmetry; apply Nat.eqb_neq; lia).
    destruct (@digits_value_digits run 0%Z A Ds) as [i ->].
    simpl. eexists. reflexivity.
Qed.

(** X12: a text whose first run of digits and dots is no number is
    refused.  If the run has two dots or more, or no digit, [float]
    raises [ValueError] and so does the tool, whatever follows in the
    text and whatever the capture rate. *)
Theorem project_revenue_rejects_run (R : Runtime) (market_size : string)
    (capture_rate : pynum) :
  first_run market_size <> "" ->
  number_like (first_run market_size) = false ->
  project_revenue market_size capture_rate = Raise ValueError.
Proof.
  intros N L.
  pose proof (@float_of_run (first_run market_size) (first_run_all market_size) N) as F.
  rewrite L in F.
  pose proof (numbers_first_run market_size) as H.
  unfold project_revenue, revenue_projections.
  destruct (findall number_run market_size) as [|first rest].
  - simpl in H. destruct (first_run market_size); [congruence | discriminate].
  - simpl in H. destruct (first_run market_size) eqn:E; [discriminate|].
    injection H as ->. rewrite F. reflexivity.
Qed.

(** The theorem for a text that starts with a version number. *)
Lemma project_revenue_rejects_run_witness :
  project_revenue (R := Reference.runtime) "v1.2.3 of the market, 4.5B"
    default_capture_rate
  = Raise ValueError.
Proof.
  apply (@project_revenue_rejects_run Reference.runtime
           "v1.2.3 of the market, 4.5B" default_capture_rate).
  - discriminate.
  - reflexivity.
Defined.


(** The totals of the four cost tables. *)
Definition totals : list Z := [100000; 65000; 85000; 50000]%Z.

Lemma startup_costs_cases (R : Runtime) (idea : string) :
  exists (costs : dict) (total : Z) (formatted_total : pyval),
    calculate_startup_costs idea = Ok (json_dumps (VDict costs))
    /\ lookup "total" costs = Some (VInt total)
    /\ In total totals
    /\ lookup "formatted_total" costs = Some formatted_total.
Proof.
  unfold calculate_startup_costs.
  destruct (contains "marketplace" (lower idea)
            || contains "platform" (lower idea));
    [|destruct (contains "app" (lower idea)
                || contains "mobile" (lower idea));
      [|destruct (contains "saas" (lower idea)
                  || contains "software" (lower idea))]].
  all: match goal with
       | |- context [sum ?l] =>
           let v := eval vm_compute in (sum l) in
           change (sum l) with v
       end; cbn [bind of_number]; simpl dict_set.
  all: do 3 eexists; split; [reflexivity|];
    split; [reflexivity|]; split; [simpl; tauto | reflexivity].
Qed.

Lemma break_even_answer (R : Runtime) (costs : string) (costs_data : pyval)
    (total : Z) :
  (if contains "{" costs then loads costs
   else Ok (VDict [("total", VInt 100000)])) = Ok costs_data ->
  get costs_data "total" (VInt 100000) = Ok (VInt total) ->
  months_simulated total = Some (Ok 36%Z) ->
  exists investment burn : pyval,
    calculate_break_even costs "10000"
    = Some (Ok (json_dumps (VDict
        [("months_to_break_even", VInt 36);
         ("break_even_timeline", VStr (format (VInt 36) "" ++ " months"));
         ("initial_investment", investment);
         ("monthly_burn", burn)]))).
Proof.
  intros E G. unfold calculate_break_even, months_simulated, break_even,
    burn_rate.
  rewrite E. cbn [bind]. rewrite G. cbn [bind mul_by as_number].
  destruct (num_mul (NInt total) (NFloat 0.3)) as [burn|e]; [|discriminate].
  cbn [bind]. rewrite PyFacts.as_number_of_number.
  destruct (num_truediv burn (NInt 12)) as [monthly_burn|e]; [|discriminate].
  cbn [bind].
  destruct (while _ _ _ _) as [[final|e]|]; try discriminate.
  intros [= M]. rewrite M. do 2 eexists. reflexivity.
Qed.

(** The projections from "$100B" at the default capture rate. *)
Lemma revenue_of_100B (R : Runtime) :
  exists formatted : dict,
    revenue_projections "$100B" default_capture_rate
    = Ok (VDict ([("year_1", VInt 10000000); ("year_2", VInt 30000000);
                  ("year_3", VInt 100000000); ("year_5", VInt 250000000)]
                 ++ formatted)).
Proof. eexists. vm_compute. reflexivity. Qed.

(** There is no market size to read in the market data: the data are
    missing or empty, or have no TAM, or a TAM that is not formatted. *)
Definition without_size (market_data : pyval) : bool :=
  negb (truthy market_data)
  || match market_data with
     | VDict d =>
         match lookup "TAM" d with
         | None => true
         | Some (VDict tam) =>
             match lookup "formatted" tam with
             | None => true
             | Some _ => false
             end
         | Some _ => false
         end
     | _ => false
     end.

(** X10: the financial analysis without a market size.  When the
    market data are missing or empty, or hold no formatted TAM, the
    market size is "$100B": for every idea the analysis returns, with
    one of the four cost totals, the projections 10, 30, 100 and 250
    million from the default capture rate, a break-even of 36 months
    and the confidence 0.75.  The [json] module is assumed to read back
    what it wrote. *)
Theorem analyze_without_market_size (R : Runtime) (startup_idea : string)
    (market_data : pyval) :
  json_roundtrip R ->
  without_size market_data = true ->
  exists (costs revenue break_even : dict) (total : Z) (summary : string),
    analyze startup_idea market_data
    = Some (Ok (VDict
        [("startup_costs", VDict costs);
         ("revenue_projections", VDict revenue);
         ("break_even_analysis", VDict break_even);
         ("confidence", VFloat 0.75);
         ("summary", VStr summary)]))
    /\ lookup "total" costs = Some (VInt total)
    /\ In total [100000; 65000; 85000; 50000]%Z
    /\ map (fun k => lookup k revenue) ["year_1"; "year_2"; "year_3"; "year_5"]
       = [Some (VInt 10000000); Some (VInt 30000000);
          Some (VInt 100000000); Some (VInt 250000000)]
    /\ lookup "months_to_break_even" break_even = Some (VInt 36).
Proof.
  intros J W. unfold analyze.
  destruct (startup_costs_cases R startup_idea)
    as (costs & total & formatted_total & -> & T & I & F).
  cbn [bind]. unfold loads at 1. rewrite J. cbn [bind].
  assert (S : (if negb (truthy market_data) then Ok (VStr "$100B")
               else (tam <- get market_data "TAM" (VDict []) ;;
                     get tam "formatted" (VStr "$100B"))%py)
              = Ok (VStr "$100B")).
  { unfold without_size in W. destruct (negb (truthy market_data));
      [reflexivity|].
    simpl in W. destruct market_data as [| | | | | |d]; try discriminate.
    cbn [get bind]. destruct (lookup "TAM" d) as [[| | | | | |tam]|];
      try discriminate; [|reflexivity].
    cbn [get]. destruct (lookup "formatted" tam); [discriminate|reflexivity]. }
  rewrite S. cbn [bind]. unfold project_revenue.
  destruct (revenue_of_100B R) as [formatted ->].
  cbn [bind]. unfold loads at 1. rewrite J. cbn [bind].
  assert (B : exists investment burn : pyval,
            calculate_break_even (json_dumps (VDict costs)) "10000"
            = Some (Ok (json_dumps (VDict
                [("months_to_break_even", VInt 36);
                 ("break_even_timeline",
                  VStr (format (VInt 36) "" ++ " months"));
                 ("initial_investment", investment);
                 ("monthly_burn", burn)])))).
  { destruct (contains "{" (json_dumps (VDict costs))) eqn:Brace.
    - apply (@break_even_answer R _ (VDict costs) total).
      + rewrite Brace. unfold loads. rewrite J. reflexivity.
      + simpl. rewrite T. reflexivity.
      + apply months_simulated_36, I.
    - apply (@break_even_answer R _ (VDict [("total", VInt 100000)])
               100000%Z).
      + rewrite Brace. reflexivity.
      + reflexivity.
      + apply months_simulated_36. simpl. tauto. }
  destruct B as (investment & burn & ->).
  cbn [bind]. unfold loads. rewrite J. cbn [bind].
  cbn [getitem]. rewrite F. cbn [bind lookup String.eqb Ascii.eqb Bool.eqb].
  do 5 eexists. split; [reflexivity|].
  split; [exact T|]. split; [exact I|]. split; reflexivity.
Qed.

(** The theorem for an app and no market data. *)
Lemma analyze_without_market_size_witness :
  exists (r : dict),
    analyze (R := Reference.runtime) "A mobile app for runners" VNone
    = Some (Ok (VDict r))
    /\ lookup "confidence" r = Some (VFloat 0.75).
Proof.
  destruct (@analyze_without_market_size Reference.runtime
              "A mobile app for runners" VNone
              ReferenceFacts.reference_roundtrip eq_refl)
    as (costs & revenue & break_even & total & summary & E & _).
  eexists. split; [exact E | reflexivity].
Defined.

End FinancialAnalystFacts.

(** ** agents/market_analyst_fixed.py *)

Module MarketAnalystFacts.
Import Py MarketAnalyst.
Local Open Scope string_scope.

(** The [value] of the market [k] in the answer [d]. *)
Definition market_value (k : string) (d : dict) : option pynum :=
  match lookup k d with
  | Some (VDict m) =>
      match lookup "value" m with
      | Some v => as_number v
      | None => None
      end
  | _ => None
  end.

(** [part] is the product [whole * fraction] the [float] arithmetic
    gives, or a number equal to it. *)
Definition share (fraction : float) (whole part : pynum) : Prop :=
  exists p : pynum,
    num_mul whole (NFloat fraction) = Ok p
    /\ (p = part \/ num_compare p part = Some Eq).

(** The dictionary of the [try] block: its three values are linked by
    the two products. *)
Lemma tam_sam_som_shares (R : Runtime) (industry : string)
    (market_data : option string) (r : pyval) :
  tam_sam_som industry market_data = Ok r ->
  exists (d : dict) (tam sam som : pynum),
    r = VDict d
    /\ market_value "TAM" d = Some tam
    /\ market_value "SAM" d = Some sam
    /\ market_value "SOM" d = Some som
    /\ num_mul tam (NFloat 0.15) = Ok sam
    /\ num_mul sam (NFloat 0.05) = Ok som.
Proof.
  unfold tam_sam_som, bind.
  destruct (extract_tam market_data) as [found|]; [|discriminate].
  destruct (if negb (truthy found)
            then num_mul (_get_industry_baseline industry) (NInt 1000000000)
            else match as_number found with
                 | Some t => Ok t
                 | None => Raise TypeError
                 end) as [tam|]; [|discriminate].
  destruct (num_mul tam (NFloat 0.15)) as [sam|] eqn:Esam; [|discriminate].
  destruct (num_mul sam (NFloat 0.05)) as [som|] eqn:Esom; [|discriminate].
  destruct (money tam); [|discriminate].
  destruct (money sam); [|discriminate].
  destruct (money som); [|discriminate].
  intros [= <-].
  eexists _, tam, sam, som. split; [reflexivity|].
  unfold market_value, sized_market. simpl.
  rewrite !PyFacts.as_number_of_number. repeat split; assumption.
Qed.

(** C3: SAM and SOM are fixed fractions of the one figure taken as
    TAM.  For every industry and market data, whether the TAM value was
    read from the search text or taken from the industry baseline,
    [calculate_tam_sam_som] returns the text of a dictionary whose SAM
    value is [0.15 * TAM] and whose SOM value is [0.05 * SAM], both as
    [float] products; the answer of the [except] clause has the same
    proportions. *)
Theorem sam_som_fractions (R : Runtime) (industry : string)
    (market_data : option string) :
  exists (d : dict) (tam sam som : pynum),
    calculate_tam_sam_som industry market_data = Ok (json_dumps (VDict d))
    /\ market_value "TAM" d = Some tam
    /\ market_value "SAM" d = Some sam
    /\ market_value "SOM" d = Some som
    /\ share 0.15 tam sam
    /\ share 0.05 sam som.
Proof.
  unfold calculate_tam_sam_som.
  destruct (tam_sam_som industry market_data) as [r|e] eqn:E.
  - destruct (@tam_sam_som_shares R industry market_data r E)
      as (d & tam & sam & som & -> & Ht & Hs & Ho & Ms & Mo).
    exists d, tam, sam, som. split; [reflexivity|].
    repeat split; try assumption.
    + exists sam. split; [assumption | now left].
    + exists som. split; [assumption | now left].
  - eexists _, (NInt 100000000000), (NInt 15000000000), (NInt 750000000).
    split; [reflexivity|].
    repeat split.
    + exists (NFloat 15000000000). split; [|right]; vm_compute; reflexivity.
    + exists (NFloat 750000000). split; [|right]; vm_compute; reflexivity.
Qed.

(** The baselines in billions and the values the tool derives from
    them when no market data is given; for each, SOM is also the [float]
    product [0.0075 * TAM]. *)
Example baseline_markets (R : Runtime) :
  forallb
    (fun industry =>
       match tam_sam_som industry None with
       | Ok (VDict d) =>
           match market_value "TAM" d, market_value "SOM" d with
           | Some tam, Some som =>
               match num_mul tam (NFloat 0.0075) with
               | Ok p => match num_compare p som with
                         | Some Eq => true
                         | _ => false
                         end
               | Raise _ => false
               end
           | _, _ => false
           end
       | _ => false
       end)
    ("general" :: map fst baselines)
  = true.
Proof. vm_compute. reflexivity. Qed.

(** A figure found in the text of an insight: 15.79 billion. *)
Example extracted_market :
  match tam_sam_som (R := Reference.runtime) "general"
          (Some (Reference.dumps (VDict
             [("market_insights",
               VList [VDict [("insight",
                              VStr "The market was valued at USD 15.79 billion");
                             ("numbers", VList [])]])]))) with
  | Ok (VDict d) =>
      (market_value "TAM" d, market_value "SAM" d, market_value "SOM" d)
  | _ => (None, None, None)
  end
  = (Some (NFloat 15790000000), Some (NFloat 2368500000),
     Some (NFloat 118425000)).
Proof. vm_compute. reflexivity. Qed.

Import SubstringFacts.

(** X13: the entries for sustainability are never reached.  The word
    contains "ai", which comes first in the baselines and in the list
    of industries: [_extract_industry] never answers "sustainability",
    and for a text with the word the baseline is the 200 of "ai", not
    250, and the industry one of those listed up to "ai". *)
Theorem sustainability_shadowed_by_ai (text : string) :
  _extract_industry text <> "sustainability"
  /\ (contains "sustainability" (lower text) = true ->
      _get_industry_baseline text = NInt 200
      /\ In (_extract_industry text)
           ["fintech"; "healthtech"; "edtech"; "ecommerce"; "saas"; "ai"]).
Proof.
  assert (A : contains "sustainability" (lower text) = true ->
              contains "ai" (lower text) = true).
  { intros H. eapply contains_trans; [|exact H]. reflexivity. }
  unfold _extract_industry, _get_industry_baseline, industries, baselines.
  cbn [find first_baseline].
  destruct (contains "ai" (lower text)) eqn:Ai.
  - split; [|intros _; split; [reflexivity|]].
    all: destruct (contains "fintech" (lower text));
      [cbv iota; simpl; try tauto; discriminate|];
      destruct (contains "healthtech" (lower text));
      [cbv iota; simpl; try tauto; discriminate|];
      destruct (contains "edtech" (lower text));
      [cbv iota; simpl; try tauto; discriminate|];
      destruct (contains "ecommerce" (lower text));
      [cbv iota; simpl; try tauto; discriminate|];
      destruct (contains "saas" (lower text));
      cbv iota; simpl; try tauto; discriminate.
  - destruct (contains "sustainability" (lower text)) eqn:S.
    + specialize (A eq_refl). discriminate.
    + split; [|discriminate].
      repeat (destruct (contains _ (lower text)); cbv iota;
              try discriminate).
Qed.

Section WithRuntime.
Context {R : Runtime}.

Definition is_float (v : pyval) : bool :=
  match v with VFloat _ => true | _ => false end.

Lemma billions : float_of_Z 1000000000 = Ok 1000000000%float.
Proof. vm_compute. reflexivity. Qed.

Lemma millions : float_of_Z 1000000 = Ok 1000000%float.
Proof. vm_compute. reflexivity. Qed.

Lemma times_unit (f : float) (unit : Z) :
  unit = 1000000000%Z \/ unit = 1000000%Z ->
  exists g, num_mul (NFloat f) (NInt unit) = Ok (NFloat g).
Proof.
  intros [-> | ->]; unfold num_mul, num_binop, to_float; cbn [bind];
    rewrite ?billions, ?millions; cbn [bind]; eexists; reflexivity.
Qed.

Lemma scaled_float (text : string) (unit : Z) (v : pyval) :
  unit = 1000000000%Z \/ unit = 1000000%Z ->
  scaled text unit = Ok v -> is_float v = true.
Proof.
  intros U. unfold scaled.
  destruct (float_of_string text) as [f|]; [|discriminate]. cbn [bind].
  destruct (times_unit f U) as [g ->]. intros [= <-]. reflexivity.
Qed.

Lemma scan_numbers_float (numbers : list pyval) (tam_value v : pyval) :
  scan_numbers numbers tam_value = Ok v -> v = tam_value \/ is_float v = true.
Proof.
  induction numbers as [|num r IH]; [intros [= <-]; now left|].
  cbn [scan_numbers]. destruct num; try discriminate.
  destruct (findall number_run s) as [|first rest]; [exact IH|].
  destruct (float_of_string first) as [f|]; [|discriminate]. cbn [bind].
  destruct (contains "B" s || contains "billion" (lower s)).
  - destruct (@times_unit f 1000000000%Z) as [g ->]; [now left|].
    intros [= <-]. now right.
  - destruct (contains "M" s || contains "million" (lower s)); [|exact IH].
    destruct (@times_unit f 1000000%Z) as [g ->]; [now right|].
    intros [= <-]. now right.
Qed.

Lemma scan_insights_float (insights : list pyval) :
  forall tam_value v : pyval,
    scan_insights insights tam_value = Ok v ->
    v = tam_value \/ is_float v = true.
Proof.
  induction insights as [|insight r IH]; intros tam_value v;
    [intros [= <-]; now left|].
  cbn [scan_insights].
  destruct (get insight "insight" (VStr "")) as [insight_text|];
    [|discriminate]. cbn [bind].
  destruct (get insight "numbers" (VList [])) as [numbers|];
    [|discriminate]. cbn [bind].
  destruct insight_text; try discriminate.
  destruct (findall billion_pattern s) as [|b bs].
  - destruct (findall million_pattern s) as [|m ms].
    + destruct (iterate numbers) as [nums|]; [|discriminate]. cbn [bind].
      destruct (scan_numbers nums tam_value) as [tam'|] eqn:E;
        [|discriminate]. cbn [bind].
      apply scan_numbers_float in E.
      destruct (truthy tam'); [intros [= <-]; exact E|].
      intros H. apply IH in H. destruct H as [-> | H]; [exact E | now right].
    + intros H. right. eapply scaled_float; [|exact H]. now right.
  - intros H. right. eapply scaled_float; [|exact H]. now left.
Qed.

(** What the inner [try] block leaves in [tam_value]: [None], or a
    [float] read from the insights. *)
Lemma extract_tam_float (market_data : option string) :
  exists found,
    extract_tam market_data = Ok found
    /\ (found = VNone \/ is_float found = true).
Proof.
  unfold extract_tam. destruct market_data as [text|];
    [|eexists; split; [reflexivity | now left]].
  destruct (negb (text =? "")); [|eexists; split; [reflexivity | now left]].
  destruct (loads text) as [data|]; cbn [bind try_except];
    [|eexists; split; [reflexivity | now left]].
  destruct (get data "market_insights" (VList [])) as [insights|];
    cbn [bind try_except]; [|eexists; split; [reflexivity | now left]].
  destruct (iterate insights) as [items|]; cbn [bind try_except];
    [|eexists; split; [reflexivity | now left]].
  destruct (scan_insights items VNone) as [v|] eqn:E; cbn [try_except];
    [|eexists; split; [reflexivity | now left]].
  eexists. split; [reflexivity|]. exact (scan_insights_float _ _ E).
Qed.

Lemma money_float (x : float) : exists text, money (NFloat x) = Ok (VStr text).
Proof.
  unfold money, num_truediv.
  replace (is_zero (NInt 1000000000)) with false by reflexivity.
  replace (is_zero (NInt 1000000)) with false by reflexivity.
  unfold to_float. rewrite billions, millions. cbn [bind].
  destruct (num_ge _ _); eexists; reflexivity.
Qed.

(** The answer for a TAM read from the insights. *)
Lemma sized_from_float (given : bool) (f : float) :
  truthy (VFloat f) = true ->
  exists d : dict,
    (sam <- num_mul (NFloat f) (NFloat 0.15) ;;
     som <- num_mul sam (NFloat 0.05) ;;
     tam_text <- money (NFloat f) ;;
     sam_text <- money sam ;;
     som_text <- money som ;;
     Ok (VDict
       [("TAM", sized_market (NFloat f) tam_text);
        ("SAM", sized_market sam sam_text);
        ("SOM", sized_market som som_text);
        ("data_source",
         VStr (if given && truthy (of_number (NFloat f))
               then "real_search" else "industry_baseline"))]))%py
    = Ok (VDict d)
    /\ market_value "TAM" d = Some (NFloat f)
    /\ lookup "data_source" d
       = Some (VStr (if given then "real_search" else "industry_baseline"))
    /\ lookup "error" d = None.
Proof.
  intros T. cbn [num_mul num_binop to_float bind].
  destruct (money_float f) as [t1 ->].
  destruct (money_float (f * 0.15)) as [t2 ->].
  destruct (money_float (f * 0.15 * 0.05)) as [t3 ->].
  cbn [bind of_number]. rewrite T, andb_true_r.
  eexists. split; [reflexivity|]. repeat split.
Qed.

(** The baselines, in billions. *)
Definition baseline_values : list pynum :=
  [NInt 200; NInt 380; NInt 450; NInt 300; NInt 5000; NInt 195; NInt 100;
   NInt 2000; NInt 250; NFloat 15.8].

Lemma baseline_cases (industry : string) :
  In (_get_industry_baseline industry) baseline_values.
Proof.
  unfold _get_industry_baseline, baselines. cbn [first_baseline].
  repeat lazymatch goal with
         | |- In (if ?c then _ else _) _ => destruct c; [simpl; tauto|]
         end.
  simpl; tauto.
Qed.

(** The answer for a TAM taken from the baselines. *)
Lemma sized_from_baseline (given : bool) (baseline : pynum) :
  In baseline baseline_values ->
  exists (d : dict) (tam : pynum),
    (tam_value <- num_mul baseline (NInt 1000000000) ;;
     sam <- num_mul tam_value (NFloat 0.15) ;;
     som <- num_mul sam (NFloat 0.05) ;;
     tam_text <- money tam_value ;;
     sam_text <- money sam ;;
     som_text <- money som ;;
     Ok (VDict
       [("TAM", sized_market tam_value tam_text);
        ("SAM", sized_market sam sam_text);
        ("SOM", sized_market som som_text);
        ("data_source",
         VStr (if given && truthy (of_number tam_value)
               then "real_search" else "industry_baseline"))]))%py
    = Ok (VDict d)
    /\ num_mul baseline (NInt 1000000000) = Ok tam
    /\ market_value "TAM" d = Some tam
    /\ lookup "data_source" d
       = Some (VStr (if given then "real_search" else "industry_baseline"))
    /\ lookup "error" d = None.
Proof.
  unfold baseline_values. intros I. simpl in I.
  repeat (destruct I as [<- | I];
          [destruct given; vm_compute; do 2 eexists; repeat split|]).
  contradiction.
Qed.

(** The answer of the tool: the TAM is the figure found, or else the
    baseline, and the source is named after the presence of market
    data. *)
Lemma tam_answer (industry : string)
    (market_data : option string) :
  let given := match market_data with
               | Some text => negb (text =? "")
               | None => false
               end in
  exists (d : dict) (found : pyval) (tam : pynum),
    calculate_tam_sam_som industry market_data = Ok (json_dumps (VDict d))
    /\ extract_tam market_data = Ok found
    /\ market_value "TAM" d = Some tam
    /\ (if truthy found then found = of_number tam
        else num_mul (_get_industry_baseline industry) (NInt 1000000000)
             = Ok tam)
    /\ lookup "data_source" d
       = Some (VStr (if given then "real_search" else "industry_baseline"))
    /\ lookup "error" d = None.
Proof.
  intros given. unfold calculate_tam_sam_som, tam_sam_som.
  destruct (extract_tam_float market_data) as (found & E & F).
  rewrite E. cbn [bind]. fold given.
  destruct (truthy found) eqn:T; cbn [negb].
  - destruct F as [-> | F]; [discriminate|].
    destruct found as [| | |f| | |]; try discriminate.
    cbn [as_number bind].
    destruct (sized_from_float given f T) as (d & -> & V & S & N).
    cbn [bind try_except]. exists d, (VFloat f), (NFloat f).
    rewrite T. repeat split; assumption.
  - destruct (sized_from_baseline given (baseline_cases industry))
      as (d & tam & -> & M & V & S & N).
    cbn [bind try_except]. exists d, found, tam.
    rewrite T. repeat split; assumption.
Qed.

(** X14: the source named by the TAM tool says whether market data
    were passed, not whether they were used.  For every industry and
    market data the tool answers from its [try] block, never from the
    outer [except] clause; the TAM is the figure found in the insights
    or, when none is found, the baseline of the industry in billions;
    and the source is "real_search" for every non-empty text, also one
    that does not parse or holds no figure, and "industry_baseline"
    otherwise. *)
Theorem data_source_by_presence (industry : string)
    (market_data : option string) :
  exists (d : dict) (found : pyval) (tam : pynum),
    calculate_tam_sam_som industry market_data = Ok (json_dumps (VDict d))
    /\ extract_tam market_data = Ok found
    /\ market_value "TAM" d = Some tam
    /\ (if truthy found then found = of_number tam
        else num_mul (_get_industry_baseline industry) (NInt 1000000000)
             = Ok tam)
    /\ lookup "data_source" d
       = Some (VStr match market_data with
                    | Some text =>
                        if text =? "" then "industry_baseline"
                        else "real_search"
                    | None => "industry_baseline"
                    end)
    /\ lookup "error" d = None.
Proof.
  destruct (tam_answer industry market_data)
    as (d & found & tam & E & F & V & T & S & N).
  exists d, found, tam. repeat split; try assumption.
  rewrite S. destruct market_data as [text|]; [|reflexivity].
  destruct (text =? ""); reflexivity.
Qed.

End WithRuntime.

Section WithSearch.
Context {R : Runtime} {N : Search}.

(** X15: the market analysis returns whatever the searches answer.
    If the two search tools answer dictionaries, as they do also on
    every failure, the analysis returns them with the confidence 0.9
    and the source "Real web search via Serper API" when the search
    reported success, 0.6 and "Industry baselines" otherwise; the market
    opportunity names "real_search" as its source in both cases, and
    without insights its TAM is the baseline of the industry found in
    the idea.  The [json] module is assumed to read back what it wrote,
    and to write no empty text. *)
Theorem analyze_by_search_success (startup_idea : string)
    (research trends : dict) :
  json_roundtrip R ->
  search_market_data startup_idea = json_dumps (VDict research) ->
  analyze_market_trends startup_idea = json_dumps (VDict trends) ->
  json_dumps (VDict research) <> "" ->
  let real := match lookup "search_successful" research with
              | Some v => truthy v
              | None => false
              end in
  exists (opportunity : dict) (summary : string),
    analyze startup_idea
    = Ok (VDict
        [("market_opportunity", VDict opportunity);
         ("market_research", VDict research);
         ("trends", VDict trends);
         ("confidence", VFloat (if real then 0.9 else 0.6));
         ("data_source",
          VStr (if real then "Real web search via Serper API"
                else "Industry baselines"));
         ("summary", VStr summary)])
    /\ lookup "data_source" opportunity = Some (VStr "real_search")
    /\ (lookup "market_insights" research = None ->
        exists tam,
          num_mul (_get_industry_baseline (_extract_industry startup_idea))
            (NInt 1000000000) = Ok tam
          /\ market_value "TAM" opportunity = Some tam).
Proof.
  intros J S T E real. unfold analyze.
  rewrite S. unfold loads at 1. rewrite J. cbn [bind].
  destruct (tam_answer (_extract_industry startup_idea)
              (Some (json_dumps (VDict research))))
    as (d & found & tam & -> & F & V & C & D & _).
  cbn [bind]. unfold loads at 1. rewrite J. cbn [bind].
  rewrite T. unfold loads. rewrite J. cbn [bind get].
  assert (M : exists m, lookup "TAM" d = Some (VDict m)).
  { unfold market_value in V. destruct (lookup "TAM" d) as [[| | | | | |m]|];
      try discriminate. now exists m. }
  destruct M as [m M]. rewrite M. cbn [bind get].
  assert (Real : truthy match lookup "search_successful" research with
                        | Some x => x
                        | None => VBool false
                        end = real).
  { unfold real. destruct (lookup "search_successful" research); reflexivity. }
  rewrite Real. do 2 eexists. split; [reflexivity|]. split.
  - rewrite D. apply String.eqb_neq in E. now rewrite E.
  - intros I. exists tam. split; [|exact V].
    assert (found = VNone) as ->.
    { unfold extract_tam in F. apply String.eqb_neq in E. rewrite E in F.
      cbn [negb] in F. unfold loads in F. rewrite J in F.
      cbn [bind get] in F. rewrite I in F. cbn in F. congruence. }
    exact C.
Qed.

End WithSearch.

(** The theorem for the answers the two tools give without a key for
    the search service. *)
Lemma analyze_by_search_success_witness :
  exists (opportunity : dict) (summary : string),
    analyze (R := Reference.runtime)
      (N := {| search_market_data := fun _ =>
                 Reference.dumps
                   (VDict [("error", VStr "No Serper API key found")]);
               analyze_market_trends := fun _ =>
                 Reference.dumps
                   (VDict [("error", VStr "No Serper API key")]) |})
      "A sustainability tracker for households"
    = Ok (VDict
        [("market_opportunity", VDict opportunity);
         ("market_research",
          VDict [("error", VStr "No Serper API key found")]);
         ("trends", VDict [("error", VStr "No Serper API key")]);
         ("confidence", VFloat 0.6);
         ("data_source", VStr "Industry baselines");
         ("summary", VStr summary)])
    /\ lookup "data_source" opportunity = Some (VStr "real_search")
    /\ market_value "TAM" opportunity = Some (NInt 200000000000).
Proof.
  destruct (@analyze_by_search_success Reference.runtime
     {| search_market_data := fun _ =>
          Reference.dumps (VDict [("error", VStr "No Serper API key found")]);
        analyze_market_trends := fun _ =>
          Reference.dumps (VDict [("error", VStr "No Serper API key")]) |}
     "A sustainability tracker for households"
     [("error", VStr "No Serper API key found")]
     [("error", VStr "No Serper API key")]
     ReferenceFacts.reference_roundtrip eq_refl eq_refl)
    as (opportunity & summary & A & D & B).
  - discriminate.
  - exists opportunity, summary. split; [exact A|]. split; [exact D|].
    destruct (B eq_refl) as (tam & M & V). rewrite V. f_equal.
    vm_compute in M. congruence.
Defined.

End MarketAnalystFacts.

(** ** agents/competitor_researcher_fixed.py *)

Module CompetitorResearcherFacts.
Import Py Serper CompetitorResearcher.
Local Open Scope string_scope.

Definition is_dict (v : pyval) : bool :=
  match v with VDict _ => true | _ => false end.

(** A competitor the loop of [analyze] looks into. *)
Definition named (c : pyval) : bool :=
  match c with
  | VDict d => match lookup "name" d with Some _ => true | None => false end
  | _ => false
  end.

Section WithRuntime.
Context {R : Runtime} {N : Service}.

Lemma answer_dict (body : result dict) (failure : string) :
  exists d, answer body failure = json_dumps (VDict d)
            /\ forall d', body = Ok d' -> d = d'.
Proof.
  destruct body as [d|e]; simpl.
  - exists d. split; [reflexivity|]. now intros d' [= <-].
  - eexists. split; [reflexivity|]. discriminate.
Qed.

Lemma detail_named (J : json_roundtrip R) (l : list pyval) :
  forallb is_dict l = true ->
  exists details,
    detail l = Ok details
    /\ List.length details = List.length (filter named l)
    /\ forallb is_dict details = true.
Proof.
  induction l as [|c l IH]; intros D.
  - exists []. repeat split.
  - simpl in D. apply andb_prop in D. destruct D as [Dc Dl].
    destruct (IH Dl) as (details & E & L & Ds).
    destruct c as [| | | | | |d]; try discriminate.
    simpl. destruct (lookup "name" d) as [name|]; simpl.
    + destruct (answer_dict
                  match serper_key with
                  | None => Ok [("error", VStr "No Serper API key")]
                  | Some key => search_competitor key name
                  end "Competitor analysis error: ") as (a & A & _).
      unfold analyze_competitor. rewrite A. unfold loads. rewrite J.
      simpl. rewrite E. simpl. eexists. split; [reflexivity|].
      simpl. rewrite L, Ds. split; reflexivity.
    + exists details. repeat split; assumption.
Qed.

Lemma gaps_dict (J : json_roundtrip R) (found : dict) :
  exists gaps,
    identify_market_gaps (json_dumps (VDict found))
    = json_dumps (VDict gaps)
    /\ (match lookup "competitors" found with
        | Some (VList []) | None => True
        | _ => serper_key = None
               /\ exists l, lookup "competitors" found = Some (VList l)
                            /\ forallb is_dict l = true
        end -> gaps = common_gaps).
Proof.
  unfold identify_market_gaps.
  match goal with
  | |- context [answer ?b ?f] =>
      destruct (answer_dict b f) as (gaps & A & G)
  end.
  exists gaps. split; [exact A|]. intros H. apply G. clear A G.
  unfold loads. rewrite J. simpl.
  destruct (lookup "competitors" found) as [[| | | | |l|]|].
  1-5,7: destruct H as (_ & l & [=] & _).
  - destruct l as [|c l].
    + simpl. now destruct serper_key.
    + destruct H as (K & l' & [= <-] & D). rewrite K. simpl iterate.
      cbn [bind].
      assert (Nm : exists names, names_of (c :: l) = Ok names).
      { revert D. generalize (c :: l). clear.
        induction l as [|c l IH]; intros D.
        - now exists [].
        - simpl in D. apply andb_prop in D. destruct D as [Dc Dl].
          destruct (IH Dl) as (names & E).
          destruct c; try discriminate. simpl. rewrite E. simpl.
          now eexists. }
      destruct Nm as (names & ->). reflexivity.
  - simpl. now destruct serper_key.
Qed.

(** X18: what the competitor analysis makes of the search.  When the
    competitor search answers a dictionary whose first three
    competitors, if any, are dictionaries, the analysis returns: it
    reports the count the search gave, analyses those of the first three
    competitors that have a name, and is confident at 0.85 only if the
    search reported success and at least two were analysed, at 0.65
    otherwise.  Without any competitor the market gaps are the common
    ones, whatever the search said.  The [json] module is assumed to
    read back what it wrote. *)
Theorem analysis_by_competitors (startup_idea : string) (found : dict)
    (competitors : list pyval) :
  json_roundtrip R ->
  find_competitors startup_idea = json_dumps (VDict found) ->
  match lookup "competitors" found with
  | Some listed => listed
  | None => VList []
  end = VList competitors ->
  forallb is_dict (firstn 3 competitors) = true ->
  let real := match lookup "search_successful" found with
              | Some v => truthy v
              | None => false
              end in
  let count := match lookup "count" found with
               | Some n => n
               | None => VInt 0
               end in
  exists (details : list pyval) (gaps : dict),
    analyze startup_idea
    = Ok (VDict
        [("competitors_found", count);
         ("competitor_list", VList competitors);
         ("detailed_analysis", VList details);
         ("market_gaps", VDict gaps);
         ("confidence",
          VFloat (if real && (2 <=? List.length details)%nat
                  then 0.85 else 0.65));
         ("data_source",
          VStr (if real then "Real web search via Serper API"
                else "Limited data"));
         ("summary",
          VStr ("Found " ++ format count ""
                ++ " real competitors. Key gaps identified in market."))])
    /\ List.length details
       = List.length (filter named (firstn 3 competitors))
    /\ (competitors = [] -> gaps = common_gaps).
Proof.
  intros J F L D real count. unfold analyze.
  rewrite F. unfold loads at 1. rewrite J. cbn [bind get].
  rewrite L. cbn [slice_to bind iterate].
  destruct (detail_named J _ D) as (details & -> & Len & _). cbn [bind].
  destruct (gaps_dict J found) as (gaps & -> & G).
  unfold loads. rewrite J. cbn [bind].
  assert (Real : truthy match lookup "search_successful" found with
                        | Some x => x
                        | None => VBool false
                        end = real).
  { unfold real. destruct (lookup "search_successful" found); reflexivity. }
  rewrite Real. exists details, gaps. split; [reflexivity|].
  split; [exact Len|]. intros ->. apply G.
  destruct (lookup "competitors" found) as [listed|]; [|exact I].
  rewrite L. exact I.
Qed.

Lemma analysis_without_list (J : json_roundtrip R) (startup_idea : string)
    (failure : string) :
  find_competitors startup_idea
  = json_dumps (VDict [("error", VStr failure)]) ->
  analyze startup_idea
  = Ok (VDict
      [("competitors_found", VInt 0);
       ("competitor_list", VList []);
       ("detailed_analysis", VList []);
       ("market_gaps", VDict common_gaps);
       ("confidence", VFloat 0.65);
       ("data_source", VStr "Limited data");
       ("summary",
        VStr ("Found " ++ format (VInt 0) ""
              ++ " real competitors. Key gaps identified in market."))]).
Proof.
  intros F. unfold analyze.
  rewrite F. unfold loads at 1. rewrite J. cbn.
  destruct (gaps_dict J [("error", VStr failure)]) as (gaps & -> & G).
  unfold loads. rewrite J. cbn. now rewrite (G I).
Qed.

(** X19: a competitor search that cannot be made gives the same
    analysis for every idea.  Without a key for the search service, or
    when the search raises, the analysis reports no competitor, the
    common market gaps, the confidence 0.65 and "Limited data".  The
    [json] module is assumed to read back what it wrote. *)
Theorem analysis_without_search (startup_idea : string) :
  json_roundtrip R ->
  (forall key, serper_key = Some key ->
               is_ok (search_competitors key startup_idea) = false) ->
  analyze startup_idea
  = Ok (VDict
      [("competitors_found", VInt 0);
       ("competitor_list", VList []);
       ("detailed_analysis", VList []);
       ("market_gaps", VDict common_gaps);
       ("confidence", VFloat 0.65);
       ("data_source", VStr "Limited data");
       ("summary",
        VStr ("Found " ++ format (VInt 0) ""
              ++ " real competitors. Key gaps identified in market."))]).
Proof.
  intros J H. unfold find_competitors in *.
  destruct serper_key as [key|] eqn:K.
  - specialize (H key eq_refl).
    destruct (search_competitors key startup_idea) as [d|e] eqn:S;
      [discriminate|].
    apply (analysis_without_list J startup_idea
             ("Competitor search error: " ++ str_exn e)).
    unfold find_competitors. now rewrite K, S.
  - apply (analysis_without_list J startup_idea "No Serper API key found").
    unfold find_competitors. now rewrite K.
Qed.

End WithRuntime.

(** The theorem for a search that finds two competitors. *)
Lemma analysis_by_competitors_witness :
  exists (details : list pyval) (gaps : dict),
    analyze (R := Reference.keyed)
      (N := {| search_competitors := fun _ _ =>
                 Ok [("competitors",
                      VList [VDict [("name", VStr "Rover")];
                             VDict [("name", VStr "Wag")]]);
                     ("count", VInt 2);
                     ("search_successful", VBool true)];
               search_competitor := fun _ name => Ok [("name", name)];
               search_gaps := fun _ _ => Ok [] |})
      "An app for dog walkers"
    = Ok (VDict
        [("competitors_found", VInt 2);
         ("competitor_list",
          VList [VDict [("name", VStr "Rover")];
                 VDict [("name", VStr "Wag")]]);
         ("detailed_analysis", VList details);
         ("market_gaps", VDict gaps);
         ("confidence", VFloat 0.85);
         ("data_source", VStr "Real web search via Serper API");
         ("summary",
          VStr "Found 2 real competitors. Key gaps identified in market.")])
    /\ List.length details = 2%nat.
Proof.
  destruct (@analysis_by_competitors Reference.keyed
     {| search_competitors := fun _ _ =>
          Ok [("competitors",
               VList [VDict [("name", VStr "Rover")];
                      VDict [("name", VStr "Wag")]]);
              ("count", VInt 2);
              ("search_successful", VBool true)];
        search_competitor := fun _ name => Ok [("name", name)];
        search_gaps := fun _ _ => Ok [] |}
     "An app for dog walkers"
     [("competitors",
       VList [VDict [("name", VStr "Rover")]; VDict [("name", VStr "Wag")]]);
      ("count", VInt 2);
      ("search_successful", VBool true)]
     [VDict [("name", VStr "Rover")]; VDict [("name", VStr "Wag")]]
     ReferenceFacts.reference_roundtrip eq_refl eq_refl eq_refl)
    as (details & gaps & E & L & _).
  exists details, gaps. rewrite L in E. split; [exact E | exact L].
Defined.

(** The theorem for a key and a search service out of reach. *)
Lemma analysis_without_search_witness :
  analyze (R := Reference.keyed) (N := Reference.unreachable)
    "An app for dog walkers"
  = Ok (VDict
      [("competitors_found", VInt 0);
       ("competitor_list", VList []);
       ("detailed_analysis", VList []);
       ("market_gaps", VDict common_gaps);
       ("confidence", VFloat 0.65);
       ("data_source", VStr "Limited data");
       ("summary",
        VStr "Found 0 real competitors. Key gaps identified in market.")]).
Proof.
  apply (@analysis_without_search Reference.keyed Reference.unreachable
           "An app for dog walkers" ReferenceFacts.reference_roundtrip).
  intros key _. reflexivity.
Defined.

End CompetitorResearcherFacts.

(** ** main_orchestrator.py *)

Module OrchestratorFacts.
Import Py Orchestrator.
Local Open Scope string_scope.

(** The entry reached from [v] by following [keys] through nested
    dictionaries, if every key on the way is present. *)
Fixpoint path (keys : list string) (v : pyval) : option pyval :=
  match keys with
  | [] => Some v
  | k :: r =>
      match v with
      | VDict d =>
          match lookup k d with
          | Some x => path r x
          | None => None
          end
      | _ => None
      end
  end.

(** [v] is a dictionary, and so is each entry found on the way along
    [keys]. *)
Fixpoint dicts_along (keys : list string) (v : pyval) : bool :=
  match v with
  | VDict d =>
      match keys with
      | [] => true
      | k :: r =>
          match lookup k d with
          | Some x => dicts_along r x
          | None => true
          end
      end
  | _ => false
  end.

(** The entry at [keys], or [default] when a key on the way is
    missing. *)
Definition field (keys : list string) (default : pyval) (v : pyval) : pyval :=
  match path keys v with
  | Some x => x
  | None => default
  end.

Lemma get_field (v : pyval) (a : string) (default : pyval) :
  dicts_along [] v = true -> get v a default = Ok (field [a] default v).
Proof.
  destruct v; try discriminate. intros _. unfold field. simpl.
  destruct (lookup a d); reflexivity.
Qed.

Lemma get2_field (v : pyval) (a b : string) (default : pyval) :
  dicts_along [a] v = true ->
  get2 v a b default = Ok (field [a; b] default v).
Proof.
  destruct v as [| | | | | |d]; try discriminate. unfold field, get2. simpl.
  destruct (lookup a d) as [x|]; simpl; [|reflexivity].
  destruct x as [| | | | | |d']; try discriminate. intros _. simpl.
  destruct (lookup b d'); reflexivity.
Qed.

Lemma get3_field (v : pyval) (a b c : string) (default : pyval) :
  dicts_along [a; b] v = true ->
  get3 v a b c default = Ok (field [a; b; c] default v).
Proof.
  destruct v as [| | | | | |d]; try discriminate. unfold field, get3. simpl.
  destruct (lookup a d) as [x|]; simpl; [|reflexivity].
  destruct x as [| | | | | |d']; try discriminate. simpl.
  destruct (lookup b d') as [y|]; simpl; [|reflexivity].
  destruct y as [| | | | | |d'']; try discriminate. intros _. simpl.
  destruct (lookup c d''); reflexivity.
Qed.

Lemma dicts_along_prefix (a : string) (keys : list string) (v : pyval) :
  dicts_along (a :: keys) v = true -> dicts_along [a] v = true.
Proof.
  destruct v as [| | | | | |d]; try discriminate. simpl.
  destruct (lookup a d) as [x|]; [|reflexivity].
  destruct x, keys; try discriminate; reflexivity.
Qed.

Lemma dicts_along_nil (keys : list string) (v : pyval) :
  dicts_along keys v = true -> dicts_along [] v = true.
Proof. destruct keys, v; try discriminate; reflexivity. Qed.

Lemma get4_field (A : Type) (v : pyval) (a b c d : string)
    (default : pyval) (k : pyval -> result A) :
  dicts_along [a; b; c] v = true ->
  (x <- get v a (VDict []) ;;
   y <- get2 x b c (VDict []) ;;
   z <- get y d default ;;
   k z)%py
  = k (field [a; b; c; d] default v).
Proof.
  destruct v as [| | | | | |d0]; try discriminate. unfold field, get2. simpl.
  destruct (lookup a d0) as [x|]; simpl; [|reflexivity].
  destruct x as [| | | | | |d1]; try discriminate. simpl.
  destruct (lookup b d1) as [y|]; simpl; [|reflexivity].
  destruct y as [| | | | | |d2]; try discriminate. simpl.
  destruct (lookup c d2) as [z|]; simpl; [|reflexivity].
  destruct z as [| | | | | |d3]; try discriminate. intros _. simpl.
  destruct (lookup d d3); reflexivity.
Qed.

Definition is_str (v : pyval) : bool :=
  match v with VStr _ => true | _ => false end.

Definition is_list (v : pyval) : bool :=
  match v with VList _ => true | _ => false end.

(** The entries [_create_summary] goes through have the types the
    pipeline gives them: the outputs of the stages and the entries
    nested in them are dictionaries, a data source is a string, the
    recommendations are a list.  Any of them may be missing. *)
Definition summary_shape (results : dict) : bool :=
  let r := VDict results in
  dicts_along ["market_analysis"; "market_opportunity"; "TAM"] r
  && dicts_along ["competitor_analysis"] r
  && dicts_along ["technical_analysis"; "complexity"] r
  && dicts_along ["financial_analysis"; "startup_costs"] r
  && dicts_along ["financial_analysis"; "break_even_analysis"] r
  && dicts_along ["strategy"] r
  && is_str (field ["market_analysis"; "data_source"] (VStr "") r)
  && is_str (field ["competitor_analysis"; "data_source"] (VStr "") r)
  && is_list (field ["strategy"; "recommendations"] (VList []) r).

(** The data of the agent under [key] comes from a real search. *)
Definition real_data (key : string) (results : dict) : bool :=
  match field [key; "data_source"] (VStr "") (VDict results) with
  | VStr source => startswith "Real" source
  | _ => false
  end.

Definition first_three (v : pyval) : pyval :=
  match v with
  | VList l => VList (firstn 3 l)
  | _ => VList []
  end.

(** C8: defaults stand in for what is missing.  For every results
    record, partial or empty ones included, whose entries have the types
    the pipeline gives them, [_create_summary] returns a summary without
    raising; each of its fields is the entry of the record when the
    entry is there, and otherwise 0 for the score, "Unknown" for the
    verdict, the market size, the complexity, the investment and the
    break-even, 0 for the competitors found, and the empty list for the
    recommendations, of which at most three are kept. *)
Theorem summary_defaults (results : dict) :
  summary_shape results = true ->
  let at_ keys default := field keys default (VDict results) in
  _create_summary results
  = Ok (VDict
      [("score", at_ ["strategy"; "score"] (VInt 0));
       ("verdict", at_ ["strategy"; "verdict"] (VStr "Unknown"));
       ("market_size",
        at_ ["market_analysis"; "market_opportunity"; "TAM"; "formatted"]
          (VStr "Unknown"));
       ("competitors_found",
        at_ ["competitor_analysis"; "competitors_found"] (VInt 0));
       ("technical_complexity",
        at_ ["technical_analysis"; "complexity"; "complexity"]
          (VStr "Unknown"));
       ("initial_investment",
        at_ ["financial_analysis"; "startup_costs"; "formatted_total"]
          (VStr "Unknown"));
       ("break_even",
        at_ ["financial_analysis"; "break_even_analysis";
             "break_even_timeline"] (VStr "Unknown"));
       ("top_recommendations",
        first_three (at_ ["strategy"; "recommendations"] (VList [])));
       ("data_quality",
        VDict [("market",
                VStr (if real_data "market_analysis" results
                      then "Real Research" else "Estimated"));
               ("competitors",
                VStr (if real_data "competitor_analysis" results
                      then "Real Search" else "Estimated"))])]).
Proof.
  unfold summary_shape. intros H.
  repeat (apply andb_prop in H; let H' := fresh "S" in destruct H as [H H']).
  cbv zeta. unfold _create_summary.
  rewrite (@get2_field _ "market_analysis" "data_source")
    by (eapply dicts_along_prefix; eassumption).
  unfold real_data.
  destruct (field ["market_analysis"; "data_source"] (VStr "") (VDict results))
    as [| | | |source| |]; try discriminate.
  rewrite (@get2_field _ "competitor_analysis" "data_source") by assumption.
  destruct (field ["competitor_analysis"; "data_source"] (VStr "")
              (VDict results)) as [| | | |source'| |]; try discriminate.
  cbn [bind startswith_val].
  rewrite !(@get2_field _ "strategy") by assumption.
  cbn [bind].
  rewrite get4_field by assumption.
  rewrite (@get2_field _ "competitor_analysis" "competitors_found")
    by assumption.
  rewrite !get3_field by assumption.
  cbn [bind].
  destruct (field ["strategy"; "recommendations"] (VList []) (VDict results))
    as [| | | | |l|]; try discriminate.
  reflexivity.
Qed.

Definition is_number (v : pyval) : bool :=
  match as_number v with Some _ => true | None => false end.

Definition number_of (v : pyval) : pynum :=
  match as_number v with Some n => n | None => NInt 0 end.

(** The output stored under [key], if any, is a dictionary whose
    confidence, if any, is a number. *)
Definition stage_shape (key : string) (results : dict) : bool :=
  match lookup key results with
  | None => true
  | Some (VDict d) =>
      match lookup "confidence" d with
      | None => true
      | Some c => is_number c
      end
  | Some _ => false
  end.

Definition confidence_shape (results : dict) : bool :=
  let r := VDict results in
  dicts_along ["market_analysis"; "market_research"] r
  && dicts_along ["competitor_analysis"] r
  && is_number (field ["competitor_analysis"; "competitors_found"] (VInt 0) r)
  && stage_shape "technical_analysis" results
  && stage_shape "financial_analysis" results
  && stage_shape "strategy" results.

Definition market_score (results : dict) : Z :=
  if truthy (field ["market_analysis"; "market_research"; "search_successful"]
               VNone (VDict results))
  then 90 else 60.

Definition competitor_score (results : dict) : Z :=
  let found := number_of (field ["competitor_analysis"; "competitors_found"]
                            (VInt 0) (VDict results)) in
  if num_ge found (NInt 3) then 85
  else if num_gt found (NInt 0) then 70
  else 50.

Definition times_100 (n : pynum) : pynum :=
  match n with
  | NInt z => NInt (z * 100)
  | NFloat f => NFloat (f * 100)
  end.

Definition stage_scores (key : string) (results : dict) : list pynum :=
  match path [key; "confidence"] (VDict results) with
  | Some c => [times_100 (number_of c)]
  | None => []
  end.

Definition collected_scores (results : dict) : list pynum :=
  ([NInt (market_score results); NInt (competitor_score results)]
   ++ stage_scores "technical_analysis" results
   ++ stage_scores "financial_analysis" results
   ++ stage_scores "strategy" results)%list.

Definition integer_mean (scores : list pynum) : result Z :=
  (match scores with
   | [] => Ok 50%Z
   | _ =>
       total <- num_sum scores ;;
       mean <- num_truediv total (NInt (Z.of_nat (List.length scores))) ;;
       num_int mean
   end)%py.

Lemma mul_by_100 (v : pyval) (n : pynum) :
  as_number v = Some n -> mul_by v (NInt 100) = Ok (of_number (times_100 n)).
Proof.
  unfold mul_by. intros ->. destruct n as [z|f]; reflexivity.
Qed.

Lemma sum_from_numbers (l : list pynum) :
  forall acc, sum_from acc (map of_number l) = num_sum_from acc l.
Proof.
  induction l as [|n l IH]; intros acc; simpl; [reflexivity|].
  rewrite PyFacts.as_number_of_number.
  destruct (num_add acc n); simpl; [apply IH | reflexivity].
Qed.

Lemma stage_confidence (key : string) (results : dict) (acc : list pyval)
    (keys : list string) :
  stage_shape key results = true ->
  agent_confidences results (key :: keys) acc
  = agent_confidences results keys
      (acc ++ map of_number (stage_scores key results)).
Proof.
  unfold stage_shape, stage_scores. simpl.
  destruct (lookup key results) as [output|]; [|now rewrite app_nil_r].
  destruct output as [| | | | | |d]; try discriminate. simpl.
  destruct (lookup "confidence" d) as [c|]; [|now rewrite app_nil_r].
  unfold is_number, number_of.
  destruct (as_number c) as [n|] eqn:E; [|discriminate]. intros _.
  simpl. rewrite (mul_by_100 _ E). reflexivity.
Qed.

Lemma bind_get2 (A : Type) (v : pyval) (a b : string) (default : pyval)
    (k : pyval -> result A) :
  dicts_along [a] v = true ->
  (x <- get v a (VDict []) ;; y <- get x b default ;; k y)%py
  = k (field [a; b] default v).
Proof.
  intros H. pose proof (get2_field v a b default H) as E.
  unfold get2, bind in E |- *.
  destruct (get v a (VDict [])) as [x|]; [|discriminate].
  rewrite E. reflexivity.
Qed.

Lemma competitor_score_spec (results : dict) :
  dicts_along ["competitor_analysis"] (VDict results) = true ->
  is_number (field ["competitor_analysis"; "competitors_found"] (VInt 0)
               (VDict results)) = true ->
  Orchestrator.competitor_score results
  = Ok (VInt (competitor_score results)).
Proof.
  intros D N. unfold Orchestrator.competitor_score, competitor_score.
  rewrite bind_get2 by assumption.
  unfold is_number, number_of, compare_with in *.
  destruct (as_number (field ["competitor_analysis"; "competitors_found"]
                         (VInt 0) (VDict results))) as [n|] eqn:E;
    [|discriminate].
  cbn [bind]. destruct (num_ge n (NInt 3)); [reflexivity|].
  rewrite bind_get2 by assumption. rewrite E. cbn [bind].
  destruct (num_gt n (NInt 0)); reflexivity.
Qed.

(** C4: the overall confidence is the unweighted mean of the scores
    collected from the stages.  For every record of a validation whose
    entries have the types the pipeline gives them,
    [_calculate_overall_confidence] returns the integer part of the sum
    of the collected scores divided by their number, every score
    counting once: 90 or 60 for the market search, 85, 70 or 50 for the
    competitors found, and 100 times the confidence of each of the
    technical, financial and strategy outputs that has one.  With no
    score the result would be 50. *)
Theorem overall_confidence_is_unweighted_mean (results : dict) :
  confidence_shape results = true ->
  _calculate_overall_confidence results
  = integer_mean (collected_scores results)
  /\ mean_or_50 [] = Ok 50%Z.
Proof.
  unfold confidence_shape. intros H.
  repeat (apply andb_prop in H; let H' := fresh "S" in destruct H as [H H']).
  split; [|reflexivity].
  unfold _calculate_overall_confidence, confidence_scores.
  rewrite get3_field by assumption. cbn [bind].
  rewrite competitor_score_spec by assumption. cbn [bind].
  rewrite !stage_confidence by assumption.
  cbn [agent_confidences bind].
  unfold collected_scores, market_score.
  rewrite <- !app_assoc.
  destruct (truthy (field ["market_analysis"; "market_research";
                           "search_successful"] VNone (VDict results)));
    match goal with
    | |- mean_or_50 ?vs = integer_mean ?ns =>
        change vs with (map of_number ns) || replace vs with (map of_number ns)
          by (rewrite !map_app; reflexivity);
        generalize ns; intros scores
    end.
  all: unfold mean_or_50, integer_mean, sum, num_sum;
    rewrite sum_from_numbers, length_map;
    destruct scores; reflexivity.
Qed.


(** The theorem at the empty record: every field is its default. *)
Lemma summary_defaults_witness :
  _create_summary []
  = Ok (VDict
      [("score", VInt 0);
       ("verdict", VStr "Unknown");
       ("market_size", VStr "Unknown");
       ("competitors_found", VInt 0);
       ("technical_complexity", VStr "Unknown");
       ("initial_investment", VStr "Unknown");
       ("break_even", VStr "Unknown");
       ("top_recommendations", VList []);
       ("data_quality", VDict [("market", VStr "Estimated");
                               ("competitors", VStr "Estimated")])]).
Proof.
  exact (@summary_defaults [] eq_refl).
Defined.

(** A record with the strategy output only: its four recommendations
    are cut to three, the other fields are defaults. *)
Example summary_of_partial_record :
  match _create_summary
          [("strategy",
            VDict [("score", VFloat 7.2); ("verdict", VStr "PIVOT ⚠️");
                   ("recommendations",
                    VList [VStr "a"; VStr "b"; VStr "c"; VStr "d"])])] with
  | Ok s => (get s "score" VNone, get s "market_size" VNone,
             get s "top_recommendations" VNone)
  | Raise e => (Raise e, Raise e, Raise e)
  end
  = (Ok (VFloat 7.2), Ok (VStr "Unknown"),
     Ok (VList [VStr "a"; VStr "b"; VStr "c"])).
Proof. vm_compute. reflexivity. Qed.

(** An output that is not a dictionary is not looked through: the
    defaults are for missing entries only. *)
Example summary_of_ill_typed_record :
  _create_summary [("strategy", VNone)] = Raise AttributeError.
Proof. reflexivity. Qed.

(** A record as a completed validation leaves it: the market search
    did or did not succeed, [found] competitors were found, and the
    three other agents report the confidences 0.85, 0.75 and 0.85 of
    the sources. *)
Definition completed (search_successful : bool) (found : Z) : dict :=
  [("market_analysis",
    VDict [("market_research",
            VDict [("search_successful", VBool search_successful)])]);
   ("competitor_analysis", VDict [("competitors_found", VInt found)]);
   ("technical_analysis", VDict [("confidence", VFloat 0.85)]);
   ("financial_analysis", VDict [("confidence", VFloat 0.75)]);
   ("strategy", VDict [("confidence", VFloat 0.85)])].

(** The theorem at such a record, with a successful search and four
    competitors: the scores are 90, 85, 85, 75 and 85, their mean is
    84. *)
Lemma overall_confidence_witness :
  _calculate_overall_confidence (completed true 4)
  = integer_mean [NInt 90; NInt 85; NFloat (0.85 * 100);
                  NFloat (0.75 * 100); NFloat (0.85 * 100)]
  /\ mean_or_50 [] = Ok 50%Z.
Proof.
  exact (@overall_confidence_is_unweighted_mean (completed true 4) eq_refl).
Defined.

(** The six confidences a completed validation can show: the [float]
    mean is exact in each case. *)
Example overall_confidence_values :
  map (fun c => _calculate_overall_confidence (completed (fst c) (snd c)))
      [(true, 4%Z); (true, 2%Z); (true, 0%Z);
       (false, 4%Z); (false, 2%Z); (false, 0%Z)]
  = map (fun total : Z => Ok (total / 5)%Z)
      [90 + 85 + 85 + 75 + 85; 90 + 70 + 85 + 75 + 85;
       90 + 50 + 85 + 75 + 85; 60 + 85 + 85 + 75 + 85;
       60 + 70 + 85 + 75 + 85; 60 + 50 + 85 + 75 + 85]%Z.
Proof. vm_compute. reflexivity. Qed.

(** X17: with the confidences the three other agents report, the
    overall confidence takes six values.  For a record whose technical,
    financial and strategy outputs carry the confidences 0.85, 0.75 and
    0.85 of the sources, it is a fifth of the market score plus the
    competitor score plus 245: 84, 81 or 77 after a successful market
    search, 78, 75 or 71 otherwise. *)
Theorem confidence_of_shipped_stages (results : dict) :
  confidence_shape results = true ->
  path ["technical_analysis"; "confidence"] (VDict results)
  = Some (VFloat 0.85) ->
  path ["financial_analysis"; "confidence"] (VDict results)
  = Some (VFloat 0.75) ->
  path ["strategy"; "confidence"] (VDict results) = Some (VFloat 0.85) ->
  _calculate_overall_confidence results
  = Ok ((market_score results + competitor_score results + 245) / 5)%Z
  /\ In ((market_score results + competitor_score results + 245) / 5)%Z
       [84; 81; 77; 78; 75; 71]%Z.
Proof.
  unfold confidence_shape. intros H T F S.
  repeat (apply andb_prop in H; let H' := fresh "S" in destruct H as [H H']).
  unfold _calculate_overall_confidence, confidence_scores.
  rewrite get3_field by assumption. cbn [bind].
  rewrite competitor_score_spec by assumption. cbn [bind].
  rewrite !stage_confidence by assumption.
  unfold stage_scores. rewrite T, F, S.
  cbn [agent_confidences bind map app number_of as_number times_100 of_number].
  fold (market_score results).
  unfold market_score, competitor_score.
  destruct (truthy _); destruct (num_ge _ _); try destruct (num_gt _ _);
    (split; [vm_compute; reflexivity | simpl; tauto]).
Qed.


(** The theorem for a successful search and two competitors. *)
Lemma confidence_of_shipped_stages_witness :
  _calculate_overall_confidence (completed true 2) = Ok 81%Z.
Proof.
  apply (@confidence_of_shipped_stages (completed true 2));
    reflexivity.
Defined.


End OrchestratorFacts.

(** ** The five stages of a run *)

Module PipelineFacts.
Import Py Orchestrator OrchestratorFacts.
Local Open Scope string_scope.

Definition is_call (e : event) : bool :=
  match e with Called _ _ => true | _ => false end.

(** The calls of the agents among the events, in order. *)
Definition stage_calls (es : list event) : list event := filter is_call es.

(** A progress callback that returns. *)
Definition returns (callback : option (string -> Z -> result unit)) : Prop :=
  match callback with
  | None => True
  | Some f => forall message percent, f message percent = Ok tt
  end.

Lemma stage_calls_app (a b : list event) :
  stage_calls (a ++ b) = (stage_calls a ++ stage_calls b)%list.
Proof. apply filter_app. Qed.

(** What the logging of the competitors needs: a dictionary, a number
    of competitors and, when it is positive, a list whose first three
    entries are dictionaries. *)
Definition competitors_shape (c : pyval) : bool :=
  dicts_along [] c
  && match as_number (field ["competitors_found"] (VInt 0) c) with
     | Some n =>
         if num_gt n (NInt 0) then
           match field ["competitor_list"] (VList []) c with
           | VList l => forallb (dicts_along []) (firstn 3 l)
           | _ => false
           end
         else true
     | None => false
     end.

(** What the logging between the stages needs of their outputs. *)
Definition outputs_shape (m c t f s : pyval) : bool :=
  dicts_along ["market_research"] m
  && dicts_along ["market_opportunity"; "TAM"] m
  && competitors_shape c
  && dicts_along ["complexity"] t
  && dicts_along ["timeline"] t
  && dicts_along ["startup_costs"] f
  && dicts_along ["break_even_analysis"] f
  && dicts_along [] s.

(** The calls of a run in which every stage returns. *)
Definition five_calls (startup_idea : string) (m c t f : pyval)
    : list event :=
  [Called MarketAnalysis [VStr startup_idea];
   Called CompetitorResearch [VStr startup_idea];
   Called TechnicalAssessment [VStr startup_idea];
   Called FinancialAnalysis
     [VStr startup_idea; field ["market_opportunity"] (VDict []) m];
   Called StrategicSynthesis
     [VDict [("market", m); ("competitors", c); ("technical", t);
             ("financial", f)]]].

Lemma lookup_dict_set_other (k k' : string) (v : pyval) (d : dict) :
  String.eqb k k' = false -> lookup k (dict_set k' v d) = lookup k d.
Proof.
  intros N. induction d as [|[k0 v0] d IH]; simpl.
  - rewrite N. reflexivity.
  - destruct (String.eqb k' k0) eqn:E; simpl.
    + apply String.eqb_eq in E. subst k0. rewrite N. reflexivity.
    + destruct (String.eqb k k0); [reflexivity | apply IH].
Qed.

(** The keys of the record the theorem is about. *)
Definition stage_keys : list string :=
  ["idea"; "market_analysis"; "competitor_analysis"; "technical_analysis";
   "financial_analysis"; "strategy"].

(** From [w] to [w'] no agent was called and the entries of the idea
    and of the stages were left as they were. *)
Definition keeps (w w' : world) : Prop :=
  (forall k, In k stage_keys ->
             lookup k (results w') = lookup k (results w))
  /\ stage_calls (events w') = stage_calls (events w).

Ltac keeps_tac :=
  split;
  [ let k := fresh "k" in
    let Hk := fresh "Hk" in
    intros k Hk; simpl in Hk;
    repeat (destruct Hk as [<- | Hk];
            [cbn [results]; rewrite ?lookup_dict_set_other by reflexivity;
             reflexivity|]);
    contradiction
  | cbn [events]; rewrite ?stage_calls_app; simpl; rewrite ?app_nil_r;
    reflexivity ].

Section Run.
Context {R : Runtime} {A : Agents}.

Ltac run_phase :=
  unfold report, print_value, print, call, store, emit, lift, modify, bindM,
    ret.

Ltac close_phase :=
  eexists; split; [reflexivity|]; simpl; split; [reflexivity|];
  rewrite !stage_calls_app; simpl; rewrite ?app_nil_r; reflexivity.

Lemma market_phase_run (startup_idea : string)
    (callback : option (string -> Z -> result unit)) (m : pyval)
    (w : world) :
  returns callback ->
  market_analyst_analyze startup_idea = Ok m ->
  dicts_along ["market_research"] m = true ->
  dicts_along ["market_opportunity"; "TAM"] m = true ->
  exists w',
    market_phase startup_idea callback w = (Ok m, w')
    /\ results w' = dict_set "market_analysis" m (results w)
    /\ stage_calls (events w')
       = (stage_calls (events w) ++ [Called MarketAnalysis [VStr startup_idea]])%list.
Proof.
  intros Hc Hm D1 D2. unfold market_phase. run_phase.
  rewrite Hm, (get2_field _ _ _ _ D1), (get3_field _ _ _ _ _ D2),
    (get_field _ _ _ (dicts_along_nil _ _ D1)).
  destruct callback as [f|]; simpl in Hc; rewrite ?Hc;
    destruct (truthy _); close_phase.
Qed.

Lemma print_value_run (label : string) (x : pyval) (w : world) :
  print_value label (Ok x) w
  = (Ok tt, {| results := results w; ticks := ticks w;
               events := (events w ++ [Printed (label ++ format x "")])%list |}).
Proof. reflexivity. Qed.

Lemma names_printed (l : list pyval) :
  forall w : world,
    forallb (dicts_along []) l = true ->
    exists w',
      for_each l (fun comp =>
        print_value "      - " (get comp "name" (VStr "Unknown"))) w
      = (Ok tt, w')
      /\ results w' = results w
      /\ stage_calls (events w') = stage_calls (events w).
Proof.
  induction l as [|comp l IH]; intros w H.
  - exists w. repeat split.
  - simpl in H. apply andb_prop in H. destruct H as [Hc Hl].
    simpl for_each. unfold bindM at 1.
    rewrite (get_field _ _ _ Hc), print_value_run.
    match goal with
    | |- context [for_each l _ ?w1] =>
        destruct (IH w1 Hl) as (w' & E & Hr & He); rewrite E
    end.
    exists w'. split; [reflexivity|]. rewrite Hr, He. simpl.
    rewrite stage_calls_app, app_nil_r. split; reflexivity.
Qed.

Lemma competitor_phase_run (startup_idea : string)
    (callback : option (string -> Z -> result unit)) (c : pyval)
    (w : world) :
  returns callback ->
  competitor_researcher_analyze startup_idea = Ok c ->
  competitors_shape c = true ->
  exists w',
    competitor_phase startup_idea callback w = (Ok c, w')
    /\ results w' = dict_set "competitor_analysis" c (results w)
    /\ stage_calls (events w')
       = (stage_calls (events w)
          ++ [Called CompetitorResearch [VStr startup_idea]])%list.
Proof.
  intros Hc Ha S. unfold competitors_shape in S.
  apply andb_prop in S. destruct S as [D S].
  unfold competitor_phase, compare_with.
  unfold report, print, call, store, emit, lift, modify, bindM, ret.
  rewrite Ha, !(get_field _ _ _ D).
  destruct (as_number (field ["competitors_found"] (VInt 0) c)) as [n|];
    [|discriminate].
  destruct (num_gt n (NInt 0)).
  - destruct (field ["competitor_list"] (VList []) c) as [| | | | |l|];
      try discriminate.
    cbn [slice_to iterate]. cbv beta iota.
    destruct callback as [f|]; simpl in Hc; rewrite ?Hc; cbv beta iota;
      match goal with
      | |- context [for_each (firstn 3 l) ?f ?w1] =>
          destruct (names_printed (firstn 3 l) w1 S) as (w' & E & Hr & He);
          rewrite E
      end;
      (exists w'; split; [reflexivity|]; rewrite Hr, He; simpl;
       split; [reflexivity|];
       rewrite !stage_calls_app; simpl; rewrite ?app_nil_r; reflexivity).
  - destruct callback as [f|]; simpl in Hc; rewrite ?Hc; close_phase.
Qed.

Lemma technical_phase_run (startup_idea : string)
    (callback : option (string -> Z -> result unit)) (t : pyval)
    (w : world) :
  returns callback ->
  technical_architect_analyze startup_idea = Ok t ->
  dicts_along ["complexity"] t = true ->
  dicts_along ["timeline"] t = true ->
  exists w',
    technical_phase startup_idea callback w = (Ok t, w')
    /\ results w' = dict_set "technical_analysis" t (results w)
    /\ stage_calls (events w')
       = (stage_calls (events w)
          ++ [Called TechnicalAssessment [VStr startup_idea]])%list.
Proof.
  intros Hc Ha D1 D2. unfold technical_phase. run_phase.
  rewrite Ha, (get2_field _ _ _ _ D1), (get2_field _ _ _ _ D2).
  destruct callback as [f|]; simpl in Hc; rewrite ?Hc; close_phase.
Qed.

Lemma financial_phase_run (startup_idea : string)
    (callback : option (string -> Z -> result unit)) (m f : pyval)
    (w : world) :
  returns callback ->
  dicts_along ["market_opportunity"; "TAM"] m = true ->
  financial_analyst_analyze startup_idea
    (field ["market_opportunity"] (VDict []) m) = Ok f ->
  dicts_along ["startup_costs"] f = true ->
  dicts_along ["break_even_analysis"] f = true ->
  exists w',
    financial_phase startup_idea callback m w = (Ok f, w')
    /\ results w' = dict_set "financial_analysis" f (results w)
    /\ stage_calls (events w')
       = (stage_calls (events w)
          ++ [Called FinancialAnalysis
                [VStr startup_idea;
                 field ["market_opportunity"] (VDict []) m]])%list.
Proof.
  intros Hc Dm Ha D1 D2. unfold financial_phase. run_phase.
  rewrite (get3_field _ _ _ _ _ Dm), (get_field _ _ _ (dicts_along_nil _ _ Dm)),
    Ha, (get2_field _ _ _ _ D1), (get2_field _ _ _ _ D2).
  destruct callback as [g|]; simpl in Hc; rewrite ?Hc; close_phase.
Qed.

Lemma strategy_phase_run
    (callback : option (string -> Z -> result unit)) (m c t f s : pyval)
    (w : world) :
  returns callback ->
  strategy_advisor_synthesize
    (VDict [("market", m); ("competitors", c); ("technical", t);
            ("financial", f)]) = Ok s ->
  dicts_along [] s = true ->
  exists w',
    strategy_phase callback m c t f w = (Ok s, w')
    /\ results w' = dict_set "strategy" s (results w)
    /\ stage_calls (events w')
       = (stage_calls (events w)
          ++ [Called StrategicSynthesis
                [VDict [("market", m); ("competitors", c); ("technical", t);
                        ("financial", f)]]])%list.
Proof.
  intros Hc Ha D. unfold strategy_phase. run_phase.
  rewrite Ha, !(get_field _ _ _ D).
  destruct callback as [g|]; simpl in Hc; rewrite ?Hc; close_phase.
Qed.

Lemma stages_run (startup_idea : string)
    (callback : option (string -> Z -> result unit)) (m c t f s : pyval)
    (w : world) :
  returns callback ->
  market_analyst_analyze startup_idea = Ok m ->
  competitor_researcher_analyze startup_idea = Ok c ->
  technical_architect_analyze startup_idea = Ok t ->
  financial_analyst_analyze startup_idea
    (field ["market_opportunity"] (VDict []) m) = Ok f ->
  strategy_advisor_synthesize
    (VDict [("market", m); ("competitors", c); ("technical", t);
            ("financial", f)]) = Ok s ->
  outputs_shape m c t f s = true ->
  exists w',
    stages startup_idea callback w = (Ok tt, w')
    /\ results w'
       = dict_set "strategy" s
           (dict_set "financial_analysis" f
              (dict_set "technical_analysis" t
                 (dict_set "competitor_analysis" c
                    (dict_set "market_analysis" m (results w)))))
    /\ stage_calls (events w')
       = (stage_calls (events w)
          ++ five_calls startup_idea m c t f)%list.
Proof.
  intros Hc Hm Hco Ht Hf Hs S. unfold outputs_shape in S.
  repeat (apply andb_prop in S; let S' := fresh "S" in destruct S as [S S']).
  unfold stages.
  destruct (market_phase_run startup_idea callback w Hc Hm)
    as (w1 & E1 & R1 & C1); [assumption|assumption|].
  destruct (competitor_phase_run startup_idea callback w1 Hc Hco)
    as (w2 & E2 & R2 & C2); [assumption|].
  destruct (technical_phase_run startup_idea callback w2 Hc Ht)
    as (w3 & E3 & R3 & C3); [assumption|assumption|].
  destruct (@financial_phase_run startup_idea callback m f w3 Hc)
    as (w4 & E4 & R4 & C4); [assumption..|].
  destruct (strategy_phase_run callback m c t f w4 Hc Hs)
    as (w5 & E5 & R5 & C5); [assumption|].
  unfold bindM at 1. rewrite E1.
  unfold bindM at 1. rewrite E2.
  unfold bindM at 1. rewrite E3.
  unfold bindM at 1. rewrite E4.
  unfold bindM at 1. rewrite E5.
  exists w5. split; [reflexivity|].
  rewrite R5, R4, R3, R2, R1, C5, C4, C3, C2, C1.
  unfold five_calls. rewrite <- !app_assoc. split; reflexivity.
Qed.

Lemma completion_keeps (callback : option (string -> Z -> result unit))
    (start_time : pynum) (w : world) :
  returns callback ->
  exists r w',
    completion callback start_time w = (r, w')
    /\ keeps w w'
    /\ forall v, r = Ok v -> v = VDict (results w').
Proof.
  intros Hc. unfold completion, time_time. run_phase. unfold gets.
  cbv beta iota. cbn [results ticks events].
  destruct (num_sub _ start_time) as [execution_time|];
    [|do 2 eexists; split; [reflexivity|]; split; [keeps_tac | discriminate]].
  cbv beta iota. cbn [results ticks events].
  destruct (_calculate_overall_confidence _) as [confidence|];
    [|do 2 eexists; split; [reflexivity|]; split; [keeps_tac | discriminate]].
  cbv beta iota. cbn [results ticks events].
  destruct (_create_summary _) as [summary|];
    [|do 2 eexists; split; [reflexivity|]; split; [keeps_tac | discriminate]].
  cbv beta iota. cbn [results ticks events].
  destruct callback as [f|]; simpl in Hc; rewrite ?Hc;
    cbv beta iota; cbn [results ticks events].
  all: destruct (getitem _ "using_real_data") as [real|];
    [|do 2 eexists; split; [reflexivity|]; split; [keeps_tac | discriminate]].
  all: cbv beta iota; cbn [results ticks events].
  all: destruct (getitem _ "confidence_score") as [score|];
    [|do 2 eexists; split; [reflexivity|]; split; [keeps_tac | discriminate]].
  all: do 2 eexists; split; [reflexivity|]; split;
    [keeps_tac | intros v [= <-]; reflexivity].
Qed.

Lemma failure_keeps (e : exn) (w : world) :
  exists w',
    failure e w = (Ok (VDict (results w')), w') /\ keeps w w'.
Proof.
  unfold failure. run_phase. unfold gets. cbv beta iota.
  eexists. split; [reflexivity | keeps_tac].
Qed.

(** C5: the validation pipeline runs exactly five stages in a fixed order
    on the input idea: market analysis, competitor research, technical
    assessment, financial analysis, strategic synthesis.  The financial
    stage receives the market stage's 'market_opportunity' entry, the
    strategy stage receives the outputs of the four stages before it, and
    the returned record holds each stage's output under its own key
    together with the unchanged idea.  The stages are taken to return, with
    outputs of the shape the progress messages read; the progress callback,
    if there is one, is taken to return. *)
Theorem five_stages_in_order (startup_idea : string)
    (callback : option (string -> Z -> result unit)) (m c t f s : pyval)
    (w : world) :
  returns callback ->
  market_analyst_analyze startup_idea = Ok m ->
  competitor_researcher_analyze startup_idea = Ok c ->
  technical_architect_analyze startup_idea = Ok t ->
  financial_analyst_analyze startup_idea
    (field ["market_opportunity"] (VDict []) m) = Ok f ->
  strategy_advisor_synthesize
    (VDict [("market", m); ("competitors", c); ("technical", t);
            ("financial", f)]) = Ok s ->
  outputs_shape m c t f s = true ->
  exists (record : dict) (w' : world),
    validate_idea startup_idea callback w = (Ok (VDict record), w')
    /\ stage_calls (events w')
       = (stage_calls (events w)
          ++ [Called MarketAnalysis [VStr startup_idea];
              Called CompetitorResearch [VStr startup_idea];
              Called TechnicalAssessment [VStr startup_idea];
              Called FinancialAnalysis
                [VStr startup_idea;
                 field ["market_opportunity"] (VDict []) m];
              Called StrategicSynthesis
                [VDict [("market", m); ("competitors", c);
                        ("technical", t); ("financial", f)]]])%list
    /\ lookup "idea" record = Some (VStr startup_idea)
    /\ lookup "market_analysis" record = Some m
    /\ lookup "competitor_analysis" record = Some c
    /\ lookup "technical_analysis" record = Some t
    /\ lookup "financial_analysis" record = Some f
    /\ lookup "strategy" record = Some s.
Proof.
  intros Hc Hm Hco Ht Hf Hs S.
  unfold validate_idea, time_time, datetime_now, modify, try_exceptM.
  unfold bindM at 1. unfold bindM at 1. unfold bindM at 1.
  cbv beta iota. cbn [results ticks events].
  match goal with
  | |- context [bindM (stages _ _) _ ?w0] =>
      destruct (stages_run startup_idea callback w0 Hc Hm Hco Ht Hf Hs S)
        as (w5 & E5 & R5 & C5)
  end.
  unfold bindM at 1. rewrite E5.
  destruct (@completion_keeps callback (NFloat (time (ticks w))) w5 Hc)
    as (r & w6 & E6 & [K6 C6] & V6).
  rewrite E6.
  assert (L : forall k v,
              In k stage_keys -> lookup k (results w5) = Some v ->
              forall w7, keeps w6 w7 -> lookup k (results w7) = Some v).
  { intros k v Hk E w7 [K7 _]. rewrite (K7 k Hk), (K6 k Hk). exact E. }
  assert (Calls : forall w7, keeps w6 w7 ->
            stage_calls (events w7)
            = (stage_calls (events w)
               ++ five_calls startup_idea m c t f)%list).
  { intros w7 [_ C7]. rewrite C7, C6, C5. reflexivity. }
  assert (Same : keeps w6 w6) by (split; reflexivity).
  cbn [results events] in R5, C5.
  assert (Stored :
    lookup "idea" (results w5) = Some (VStr startup_idea)
    /\ lookup "market_analysis" (results w5) = Some m
    /\ lookup "competitor_analysis" (results w5) = Some c
    /\ lookup "technical_analysis" (results w5) = Some t
    /\ lookup "financial_analysis" (results w5) = Some f
    /\ lookup "strategy" (results w5) = Some s).
  { rewrite R5. repeat split. }
  destruct Stored as (Li & Lm & Lc & Lt & Lf & Ls).
  destruct r as [v|e].
  - rewrite (V6 v eq_refl). exists (results w6), w6.
    split; [reflexivity|]. split; [apply Calls; assumption|].
    repeat split; (eapply L; [|eassumption|exact Same]); simpl; tauto.
  - destruct (failure_keeps e w6) as (w7 & E7 & K7). rewrite E7.
    exists (results w7), w7.
    split; [reflexivity|]. split; [apply Calls; assumption|].
    repeat split; (eapply L; [|eassumption|exact K7]); simpl; tauto.
Qed.

(** X2: a stage that raises ends the run.  If the market analysis
    raises, no other agent is called, and [validate_idea] still returns
    a record: the one begun, with the idea, the status "error" and the
    text of the exception, and without the output of any stage. *)
Theorem failed_market_analysis_ends_the_run (startup_idea : string)
    (callback : option (string -> Z -> result unit)) (e : exn) (w : world) :
  returns callback ->
  market_analyst_analyze startup_idea = Raise e ->
  exists (record : dict) (w' : world),
    validate_idea startup_idea callback w = (Ok (VDict record), w')
    /\ stage_calls (events w')
       = (stage_calls (events w)
          ++ [Called MarketAnalysis [VStr startup_idea]])%list
    /\ lookup "idea" record = Some (VStr startup_idea)
    /\ lookup "status" record = Some (VStr "error")
    /\ lookup "error" record = Some (VStr (str_exn e))
    /\ map (fun k => lookup k record)
         ["market_analysis"; "competitor_analysis"; "technical_analysis";
          "financial_analysis"; "strategy"]
       = [None; None; None; None; None].
Proof.
  intros Hc Hm.
  unfold validate_idea, try_exceptM, stages, market_phase, failure,
    time_time, datetime_now, report, print, call, store, emit, lift,
    modify, gets, bindM, ret.
  rewrite Hm.
  destruct callback as [f|]; simpl in Hc; rewrite ?Hc;
    (do 2 eexists; split; [reflexivity|]; cbn [events results];
     split; [rewrite !stage_calls_app; simpl; rewrite ?app_nil_r; reflexivity|];
     repeat split).
Qed.

Lemma lookup_dict_set_same (k : string) (v : pyval) (d : dict) :
  lookup k (dict_set k v d) = Some v.
Proof.
  induction d as [|[k0 v0] d IH]; simpl.
  - now rewrite String.eqb_refl.
  - destruct (String.eqb k k0) eqn:E; simpl; rewrite E; [reflexivity | exact IH].
Qed.

(** The [except] clause records the error and keeps what the stages
    stored. *)
Lemma failure_records (e : exn) (w : world) :
  exists w',
    failure e w = (Ok (VDict (results w')), w')
    /\ keeps w w'
    /\ lookup "status" (results w') = Some (VStr "error")
    /\ lookup "error" (results w') = Some (VStr (str_exn e)).
Proof.
  unfold failure, print, store, emit, modify, gets, bindM, ret.
  eexists. split; [reflexivity|]. split; [keeps_tac|]. cbn [results]. split.
  - rewrite lookup_dict_set_other by reflexivity.
    apply lookup_dict_set_same.
  - apply lookup_dict_set_same.
Qed.

(** X16: a stage that raises later keeps what the stages before it
    stored.  If the financial analysis raises, the strategy advisor is
    never called, and the record returned holds the outputs of the
    market, competitor and technical stages, no financial or strategy
    output, the status "error" and the text of the exception. *)
Theorem failed_financial_analysis_keeps_outputs (startup_idea : string)
    (callback : option (string -> Z -> result unit)) (m c t : pyval)
    (e : exn) (w : world) :
  returns callback ->
  market_analyst_analyze startup_idea = Ok m ->
  competitor_researcher_analyze startup_idea = Ok c ->
  technical_architect_analyze startup_idea = Ok t ->
  financial_analyst_analyze startup_idea
    (field ["market_opportunity"] (VDict []) m) = Raise e ->
  dicts_along ["market_research"] m
  && dicts_along ["market_opportunity"; "TAM"] m
  && competitors_shape c
  && dicts_along ["complexity"] t
  && dicts_along ["timeline"] t = true ->
  exists (record : dict) (w' : world),
    validate_idea startup_idea callback w = (Ok (VDict record), w')
    /\ stage_calls (events w')
       = (stage_calls (events w)
          ++ [Called MarketAnalysis [VStr startup_idea];
              Called CompetitorResearch [VStr startup_idea];
              Called TechnicalAssessment [VStr startup_idea];
              Called FinancialAnalysis
                [VStr startup_idea;
                 field ["market_opportunity"] (VDict []) m]])%list
    /\ map (fun k => lookup k record)
         ["idea"; "market_analysis"; "competitor_analysis";
          "technical_analysis"; "financial_analysis"; "strategy"]
       = [Some (VStr startup_idea); Some m; Some c; Some t; None; None]
    /\ lookup "status" record = Some (VStr "error")
    /\ lookup "error" record = Some (VStr (str_exn e)).
Proof.
  intros Hc Hm Hco Ht Hf S.
  apply andb_prop in S. destruct S as [S Stl].
  apply andb_prop in S. destruct S as [S Scx].
  apply andb_prop in S. destruct S as [S Sco].
  apply andb_prop in S. destruct S as [Smr Stam].
  unfold validate_idea, time_time, datetime_now, modify, try_exceptM.
  unfold bindM at 1. unfold bindM at 1. unfold bindM at 1.
  cbv beta iota. cbn [results ticks events].
  unfold bindM at 1. unfold stages.
  match goal with
  | |- context [bindM (market_phase _ _) _ ?w0] =>
      destruct (market_phase_run startup_idea callback w0 Hc Hm)
        as (w1 & E1 & R1 & C1); [assumption|assumption|]
  end.
  destruct (competitor_phase_run startup_idea callback w1 Hc Hco)
    as (w2 & E2 & R2 & C2); [assumption|].
  destruct (technical_phase_run startup_idea callback w2 Hc Ht)
    as (w3 & E3 & R3 & C3); [assumption|assumption|].
  unfold bindM at 1. rewrite E1.
  unfold bindM at 1. rewrite E2.
  unfold bindM at 1. rewrite E3.
  unfold bindM at 1.
  assert (E4 : exists w4,
             financial_phase startup_idea callback m w3 = (Raise e, w4)
             /\ results w4 = results w3
             /\ stage_calls (events w4)
                = (stage_calls (events w3)
                   ++ [Called FinancialAnalysis
                         [VStr startup_idea;
                          field ["market_opportunity"] (VDict []) m]])%list).
  { unfold financial_phase, report, print_value, print, call, store, emit,
      lift, modify, bindM, ret.
    rewrite (get3_field _ _ _ _ _ Stam),
      (get_field _ _ _ (dicts_along_nil _ _ Stam)), Hf.
    destruct callback as [g|]; simpl in Hc; rewrite ?Hc;
      (eexists; split; [reflexivity|]; simpl; split; [reflexivity|];
       rewrite !stage_calls_app; simpl; rewrite ?app_nil_r; reflexivity). }
  destruct E4 as (w4 & E4 & R4 & C4). rewrite E4.
  destruct (failure_records e w4) as (w5 & E5 & [K5 C5] & St & Er).
  rewrite E5. exists (results w5), w5. split; [reflexivity|].
  split.
  - rewrite C5, C4, C3, C2, C1. cbn [events]. rewrite <- !app_assoc.
    reflexivity.
  - split; [|split; assumption].
    cbn [map]. rewrite !K5 by (simpl; tauto).
    rewrite R4, R3, R2, R1. cbn [results].
    repeat (rewrite ?lookup_dict_set_same;
            rewrite ?lookup_dict_set_other by reflexivity).
    reflexivity.
Qed.

End Run.
(** A run with the reference runtime and canned stage outputs. *)
Lemma five_stages_in_order_witness :
  exists (record : dict) (w' : world),
    @validate_idea Reference.runtime Reference.canned
      "AI tutoring app for students" None start = (Ok (VDict record), w')
    /\ stage_calls (events w')
       = [Called MarketAnalysis [VStr "AI tutoring app for students"];
          Called CompetitorResearch [VStr "AI tutoring app for students"];
          Called TechnicalAssessment [VStr "AI tutoring app for students"];
          Called FinancialAnalysis
            [VStr "AI tutoring app for students";
             VDict [("TAM", VDict [("formatted", VStr "$100.0B")])]];
          Called StrategicSynthesis
            [VDict
               [("market",
                 VDict [("market_opportunity",
                         VDict [("TAM",
                                 VDict [("formatted", VStr "$100.0B")])]);
                        ("confidence", VFloat 0.6);
                        ("data_source", VStr "Industry baselines")]);
                ("competitors",
                 VDict [("competitors_found", VInt 0);
                        ("confidence", VFloat 0.65);
                        ("data_source", VStr "Limited data")]);
                ("technical",
                 VDict [("complexity",
                         VDict [("complexity", VStr "medium")]);
                        ("confidence", VFloat 0.85)]);
                ("financial", VDict [("confidence", VFloat 0.75)])]]]
    /\ lookup "idea" record = Some (VStr "AI tutoring app for students")
    /\ lookup "strategy" record
       = Some (VDict [("score", VFloat 7.2); ("verdict", VStr "PIVOT ⚠️");
                      ("confidence", VFloat 0.85)]).
Proof.
  destruct (@five_stages_in_order Reference.runtime Reference.canned
              "AI tutoring app for students" None _ _ _ _ _ start
              I eq_refl eq_refl eq_refl eq_refl eq_refl eq_refl)
    as (record & w' & E & C & Li & _ & _ & _ & _ & Ls).
  exists record, w'. repeat split; assumption.
Defined.

(** A run whose market analysis raises. *)
Lemma failed_market_analysis_ends_the_run_witness :
  exists (record : dict) (w' : world),
    @validate_idea Reference.runtime
      {| market_analyst_analyze := fun _ => Raise (RuntimeError "no network");
         competitor_researcher_analyze := fun _ => Ok (VDict []);
         technical_architect_analyze := fun _ => Ok (VDict []);
         financial_analyst_analyze := fun _ _ => Ok (VDict []);
         strategy_advisor_synthesize := fun _ => Ok (VDict []) |}
      "AI tutoring app for students" None start = (Ok (VDict record), w')
    /\ stage_calls (events w')
       = [Called MarketAnalysis [VStr "AI tutoring app for students"]]
    /\ lookup "status" record = Some (VStr "error").
Proof.
  destruct (@failed_market_analysis_ends_the_run Reference.runtime
     {| market_analyst_analyze := fun _ => Raise (RuntimeError "no network");
        competitor_researcher_analyze := fun _ => Ok (VDict []);
        technical_architect_analyze := fun _ => Ok (VDict []);
        financial_analyst_analyze := fun _ _ => Ok (VDict []);
        strategy_advisor_synthesize := fun _ => Ok (VDict []) |}
     "AI tutoring app for students" None (RuntimeError "no network") start
     I eq_refl) as (record & w' & E & C & _ & S & _).
  exists record, w'. repeat split; assumption.
Defined.

(** A run whose financial analysis raises. *)
Lemma failed_financial_analysis_keeps_outputs_witness :
  exists (record : dict) (w' : world),
    @validate_idea Reference.runtime
      {| market_analyst_analyze := fun _ => Ok (VDict [("confidence", VFloat 0.6)]);
         competitor_researcher_analyze := fun _ => Ok (VDict []);
         technical_architect_analyze := fun _ => Ok (VDict []);
         financial_analyst_analyze := fun _ _ => Raise ValueError;
         strategy_advisor_synthesize := fun _ => Ok (VDict []) |}
      "AI tutoring app for students" None start = (Ok (VDict record), w')
    /\ List.length (stage_calls (events w')) = 4%nat
    /\ lookup "market_analysis" record
       = Some (VDict [("confidence", VFloat 0.6)])
    /\ lookup "status" record = Some (VStr "error").
Proof.
  destruct (@failed_financial_analysis_keeps_outputs Reference.runtime
     {| market_analyst_analyze := fun _ => Ok (VDict [("confidence", VFloat 0.6)]);
        competitor_researcher_analyze := fun _ => Ok (VDict []);
        technical_architect_analyze := fun _ => Ok (VDict []);
        financial_analyst_analyze := fun _ _ => Raise ValueError;
        strategy_advisor_synthesize := fun _ => Ok (VDict []) |}
     "AI tutoring app for students" None
     (VDict [("confidence", VFloat 0.6)]) (VDict []) (VDict []) ValueError
     start I eq_refl eq_refl eq_refl eq_refl eq_refl)
    as (record & w' & E & C & L & S & _).
  exists record, w'. split; [exact E|]. split; [now rewrite C|].
  split; [|exact S]. now injection L.
Defined.

End PipelineFacts.

(** ** A validation without the search service *)

Module OfflineFacts.
Import Py Serper.
Local Open Scope string_scope.

(** The market sizes the baselines give, as the market analysis
    formats them. *)
Definition tam_texts : list string :=
  ["$200.0B"; "$380.0B"; "$450.0B"; "$300.0B"; "$5000.0B"; "$195.0B";
   "$100.0B"; "$2000.0B"; "$250.0B"; "$15.8B"].

(** [format] writes a [float] with one decimal as Python does. *)
Definition fixed_notation (R : Runtime) : Prop :=
  forall x : float, format (VFloat x) ".1f" = Reference.fixed1 x.

Section Market.
Context {R : Runtime} {V : MarketSearch.Service}.
Hypothesis J : json_roundtrip R.
Hypothesis F : fixed_notation R.
Hypothesis K : serper_key = None.

Import MarketAnalyst MarketAnalystFacts.
Local Open Scope py_scope.

Lemma money_fixed (v : pynum) (q : float) (unit : string) :
  (if num_ge v (NInt 1000000000)
   then num_truediv v (NInt 1000000000)
   else num_truediv v (NInt 1000000)) = Ok (NFloat q) ->
  unit = (if num_ge v (NInt 1000000000) then "B" else "M") ->
  money v = Ok (VStr ("$" ++ Reference.fixed1 q ++ unit)).
Proof.
  unfold money. intros Q ->.
  destruct (num_ge v (NInt 1000000000)); rewrite Q; cbn [bind of_number];
    rewrite F; reflexivity.
Qed.

(** The answer of the TAM tool when the market data hold no figure. *)
Lemma baseline_opportunity (industry : string) (market_data : option string) :
  extract_tam market_data = Ok VNone ->
  exists (tam sam som source : pyval) (size sam_text som_text : string),
    calculate_tam_sam_som industry market_data
    = Ok (json_dumps (VDict
        [("TAM", VDict [("value", tam); ("formatted", VStr size)]);
         ("SAM", VDict [("value", sam); ("formatted", VStr sam_text)]);
         ("SOM", VDict [("value", som); ("formatted", VStr som_text)]);
         ("data_source", source)]))
    /\ In size tam_texts.
Proof.
  intros E. unfold calculate_tam_sam_som, tam_sam_som. rewrite E.
  cbn [bind truthy negb].
  pose proof (baseline_cases industry) as B.
  set (baseline := _get_industry_baseline industry) in *. clearbody baseline.
  assert (S : exists (tam : pynum) (sam q : float),
             num_mul baseline (NInt 1000000000) = Ok tam
             /\ num_mul tam (NFloat 0.15) = Ok (NFloat sam)
             /\ num_ge tam (NInt 1000000000) = true
             /\ num_truediv tam (NInt 1000000000) = Ok (NFloat q)
             /\ In ("$" ++ Reference.fixed1 q ++ "B") tam_texts).
  { unfold baseline_values in B. simpl in B.
    repeat (destruct B as [<- | B];
            [do 3 eexists; split; [vm_compute; reflexivity|];
             split; [vm_compute; reflexivity|];
             split; [vm_compute; reflexivity|];
             split; [vm_compute; reflexivity|];
             vm_compute; tauto|]).
    contradiction. }
  destruct S as (tam & sam & q & -> & M & G & Q & I).
  cbn [bind]. rewrite M. cbn [bind num_mul num_binop to_float].
  rewrite (@money_fixed tam q "B");
    [|rewrite G; exact Q | rewrite G; reflexivity].
  destruct (money_float (R := R) sam) as [sam_text ->].
  destruct (money_float (R := R) (sam * 0.05)) as [som_text ->].
  cbn [bind try_except]. unfold sized_market.
  do 7 eexists. split; [reflexivity | exact I].
Qed.

(** The market analysis without a key. *)
Lemma market_without_key (startup_idea : string) :
  exists (tam sam som source : pyval) (size sam_text som_text summary : string),
    analyze (N := MarketSearch.tools) startup_idea
    = Ok (VDict
        [("market_opportunity",
          VDict
            [("TAM", VDict [("value", tam); ("formatted", VStr size)]);
             ("SAM", VDict [("value", sam); ("formatted", VStr sam_text)]);
             ("SOM", VDict [("value", som); ("formatted", VStr som_text)]);
             ("data_source", source)]);
         ("market_research",
          VDict [("error", VStr "No Serper API key found")]);
         ("trends", VDict [("error", VStr "No Serper API key")]);
         ("confidence", VFloat 0.6);
         ("data_source", VStr "Industry baselines");
         ("summary", VStr summary)])
    /\ In size tam_texts.
Proof.
  unfold analyze. cbn [search_market_data analyze_market_trends
                         MarketSearch.tools].
  unfold MarketSearch.search_market_data, MarketSearch.analyze_market_trends.
  rewrite K. cbn [answer]. unfold loads at 1. rewrite J. cbn [bind].
  destruct (@baseline_opportunity (_extract_industry startup_idea)
              (Some (json_dumps
                       (VDict [("error", VStr "No Serper API key found")]))))
    as (tam & sam & som & source & size & sam_text & som_text & -> & I).
  { unfold extract_tam. destruct (negb _); [|reflexivity].
    unfold loads. rewrite J. reflexivity. }
  cbn [bind]. unfold loads. rewrite !J. cbn.
  do 8 eexists. split; [reflexivity | exact I].
Qed.

End Market.

Section Stages.
Context {R : Runtime}.
Hypothesis J : json_roundtrip R.

Local Open Scope py_scope.

(** The projections from each of the market sizes. *)
Lemma revenue_of_sizes (size : string) :
  In size tam_texts ->
  exists revenue : dict,
    FinancialAnalyst.revenue_projections size
      FinancialAnalyst.default_capture_rate
    = Ok (VDict revenue).
Proof.
  unfold tam_texts. intros I. simpl in I.
  repeat (destruct I as [<- | I]; [eexists; vm_compute; reflexivity|]).
  contradiction.
Qed.

(** The financial analysis for a market size it can read. *)
Lemma financial_of_size (startup_idea : string) (market_data : pyval)
    (size : string) (revenue : dict) :
  (if negb (truthy market_data) then Ok (VStr "$100B")
   else (tam <- get market_data "TAM" (VDict []) ;;
         get tam "formatted" (VStr "$100B"))) = Ok (VStr size) ->
  FinancialAnalyst.revenue_projections size
    FinancialAnalyst.default_capture_rate = Ok (VDict revenue) ->
  exists (costs : dict) (formatted_total investment burn : pyval)
         (summary : string),
    FinancialAnalyst.analyze startup_idea market_data
    = Some (Ok (VDict
        [("startup_costs", VDict costs);
         ("revenue_projections", VDict revenue);
         ("break_even_analysis",
          VDict [("months_to_break_even", VInt 36);
                 ("break_even_timeline",
                  VStr (format (VInt 36) "" ++ " months"));
                 ("initial_investment", investment);
                 ("monthly_burn", burn)]);
         ("confidence", VFloat 0.75);
         ("summary", VStr summary)]))
    /\ lookup "formatted_total" costs = Some formatted_total.
Proof.
  intros S P. unfold FinancialAnalyst.analyze.
  destruct (FinancialAnalystFacts.startup_costs_cases R startup_idea)
    as (costs & total & formatted_total & -> & T & I & F).
  cbn [bind]. unfold loads at 1. rewrite J. cbn [bind].
  rewrite S. cbn [bind]. unfold FinancialAnalyst.project_revenue.
  rewrite P. cbn [bind]. unfold loads at 1. rewrite J. cbn [bind].
  assert (B : exists investment burn : pyval,
            FinancialAnalyst.calculate_break_even
              (json_dumps (VDict costs)) "10000"
            = Some (Ok (json_dumps (VDict
                [("months_to_break_even", VInt 36);
                 ("break_even_timeline",
                  VStr (format (VInt 36) "" ++ " months"));
                 ("initial_investment", investment);
                 ("monthly_burn", burn)])))).
  { destruct (contains "{" (json_dumps (VDict costs))) eqn:Brace.
    - apply (@FinancialAnalystFacts.break_even_answer R _ (VDict costs) total).
      + rewrite Brace. unfold loads. rewrite J. reflexivity.
      + simpl. rewrite T. reflexivity.
      + apply FinancialAnalystFacts.months_simulated_36, I.
    - apply (@FinancialAnalystFacts.break_even_answer R _
               (VDict [("total", VInt 100000)]) 100000%Z).
      + rewrite Brace. reflexivity.
      + reflexivity.
      + apply FinancialAnalystFacts.months_simulated_36. simpl. tauto. }
  destruct B as (investment & burn & ->).
  cbn [bind]. unfold loads. rewrite J. cbn [bind].
  cbn [getitem]. rewrite F. cbn [bind lookup String.eqb Ascii.eqb Bool.eqb].
  do 5 eexists. split; [reflexivity | exact F].
Qed.

(** The financial analysis returns: its loop never exhausts the
    fuel. *)
Lemma financial_returns (startup_idea : string) (market_data : pyval) :
  exists r, FinancialAnalyst.analyze startup_idea market_data = Some r.
Proof.
  unfold FinancialAnalyst.analyze.
  match goal with
  | |- exists r, match ?b with _ => _ end = _ => destruct b as [[costs revenue]|e]
  end; [|eexists; reflexivity].
  unfold FinancialAnalyst.calculate_break_even, FinancialAnalyst.break_even.
  destruct (FinancialAnalyst.burn_rate _)
    as [[[total_costs total] monthly_burn]|e]; [|eexists; reflexivity].
  destruct (@FinancialAnalystFacts.simulation_ends total monthly_burn
              (NFloat 1.15) FinancialAnalyst.loop_fuel
              {| FinancialAnalyst.months := 0;
                 FinancialAnalyst.cumulative_loss := NInt 0;
                 FinancialAnalyst.current_revenue := NInt 5000 |})
    as (r & W & _); [simpl; lia | simpl; lia |].
  rewrite W. destruct r; eexists; reflexivity.
Qed.

(** The technical analysis: a dictionary with a complexity, a timeline
    and the confidence 0.85. *)
Lemma technical_answer (startup_idea : string) :
  exists (level : string) (score description tech_stack : pyval)
         (timeline : dict) (summary : string),
    TechnicalArchitect.analyze startup_idea
    = Ok (VDict
        [("complexity",
          VDict [("complexity", VStr level); ("score", score);
                 ("description", description)]);
         ("tech_stack", tech_stack);
         ("timeline", VDict timeline);
         ("confidence", VFloat 0.85);
         ("summary", VStr summary)]).
Proof.
  unfold TechnicalArchitect.analyze, TechnicalArchitect.assess_technical_complexity.
  rewrite TechnicalArchitectFacts.complexity_result_classified. cbn [bind].
  unfold loads at 1. rewrite J. cbn [bind].
  destruct (TechnicalArchitectFacts.stack_text R startup_idea) as [stack ->].
  cbn [bind]. unfold loads at 1. rewrite J. cbn [bind].
  assert (L : In (fst (TechnicalArchitectFacts.classified startup_idea))
                ["high"; "medium"; "low"]).
  { pose proof (TechnicalArchitectFacts.classified_levels startup_idea) as C.
    destruct (TechnicalArchitectFacts.classified startup_idea)
      as [level score]. simpl in *.
    destruct C as [C | [C | [C | []]]]; injection C as <- <-; tauto. }
  set (level := fst (TechnicalArchitectFacts.classified startup_idea)) in *.
  change (getitem (VDict (("complexity", VStr level) :: _)) "complexity")
    with (Ok (VStr level) : result pyval).
  cbn [bind]. rewrite (TechnicalArchitectFacts.timeline_text R L).
  cbn [bind]. unfold loads. rewrite J. cbn [bind].
  assert (M : exists (timeline : dict) (mvp : string),
              TechnicalArchitectFacts.timeline_of level = VDict timeline
              /\ getitem (VDict timeline) "mvp" = Ok (VStr mvp)).
  { (destruct L as [<- | [<- | [<- | []]]]; do 2 eexists; split; reflexivity). }
  destruct M as (timeline & mvp & -> & ->). cbn [bind].
  do 6 eexists. reflexivity.
Qed.

(** The answer of the strategy advisor. *)
Lemma strategy_answer (all_analyses : pyval) :
  StrategyAdvisor.synthesize all_analyses
  = Ok (VDict (("score", VFloat 7.2) :: ("verdict", VStr "PIVOT ⚠️")
               :: StrategyAdvisorFacts.pivot_advice R)).
Proof.
  unfold StrategyAdvisor.synthesize.
  rewrite StrategyAdvisorFacts.calculate_validation_score_constant.
  rewrite (J all_analyses).
  assert (E : (if contains "{" (json_dumps all_analyses)
               then Ok (json_dumps StrategyAdvisorFacts.score_result)
               else Ok (json_dumps StrategyAdvisorFacts.score_result))
              = Ok (json_dumps StrategyAdvisorFacts.score_result)
              :> result string).
  { destruct (contains "{" (json_dumps all_analyses)); reflexivity. }
  rewrite E. clear E. cbn [bind].
  unfold loads at 1. rewrite J. cbn [bind].
  change (getitem StrategyAdvisorFacts.score_result "overall_score")
    with (Ok (VFloat 7.2)).
  cbn [bind].
  replace (StrategyAdvisor.generate_recommendations (VFloat 7.2))
    with (Ok (json_dumps (VDict
            [("verdict", VStr "PIVOT ⚠️");
             ("recommendations",
              StrategyAdvisor.strs
                ["Refine value proposition";
                 "Focus on underserved niche";
                 "Reduce initial scope";
                 "Validate with potential customers";
                 "Consider alternative business models"]);
             ("key_success_factors",
              StrategyAdvisor.strs
                ["Strong execution"; "Customer focus"; "Rapid iteration"])])))
    by (vm_compute; reflexivity).
  cbn [bind]. unfold loads at 1. rewrite J. cbn [bind].
  change (getitem (VDict (("verdict", VStr "PIVOT ⚠️") :: _)) "verdict")
    with (Ok (VStr "PIVOT ⚠️")).
  cbn [bind].
  change (StrategyAdvisor.create_action_plan (VStr "PIVOT ⚠️"))
    with (Ok (json_dumps
      (StrategyAdvisor.plan
         ["Identify specific niche to target"; "Revise value proposition";
          "Survey target customers"]
         ["Complete pivot strategy"; "Test new positioning";
          "Update business model"]
         ["Launch revised MVP"; "Measure traction metrics";
          "Decide on path forward"]))).
  cbn [bind]. unfold loads. rewrite J. reflexivity.
Qed.

End Stages.

Section Pipeline.
Context {R : Runtime} {V : MarketSearch.Service}
        {N : CompetitorResearcher.Service} {A : Orchestrator.Agents}.

Import Orchestrator OrchestratorFacts PipelineFacts.
Local Open Scope list_scope.

(** The orchestrator holds the five agents of the sources. *)
Definition shipped : Prop :=
  (forall idea,
     market_analyst_analyze idea
     = MarketAnalyst.analyze (N := MarketSearch.tools) idea)
  /\ (forall idea,
        competitor_researcher_analyze idea = CompetitorResearcher.analyze idea)
  /\ (forall idea,
        technical_architect_analyze idea = TechnicalArchitect.analyze idea)
  /\ (forall idea market_data,
        FinancialAnalyst.analyze idea market_data
        = Some (financial_analyst_analyze idea market_data))
  /\ (forall all_analyses,
        strategy_advisor_synthesize all_analyses
        = StrategyAdvisor.synthesize all_analyses).

(** The end of a run whose confidence and summary can be computed. *)
Lemma completion_run (callback : option (string -> Z -> result unit))
    (t0 : float) (w : world) (confidence : Z) (summary real : pyval) :
  returns callback ->
  let execution_time := NFloat (time (ticks w) - t0) in
  let timed :=
    dict_set "status" (VStr "completed")
      (dict_set "execution_time" (of_number (num_round execution_time 2))
         (results w)) in
  let scored := dict_set "confidence_score" (VInt confidence) timed in
  _calculate_overall_confidence timed = Ok confidence ->
  _create_summary scored = Ok summary ->
  lookup "using_real_data" (results w) = Some real ->
  exists w',
    completion callback (NFloat t0) w
    = (Ok (VDict (dict_set "summary" summary scored)), w')
    /\ stage_calls (events w') = stage_calls (events w).
Proof.
  intros Hc execution_time timed scored C S U.
  assert (U' : getitem (VDict (dict_set "summary" summary scored))
                 "using_real_data" = Ok real).
  { cbn [getitem]. unfold scored, timed.
    rewrite !lookup_dict_set_other by reflexivity. now rewrite U. }
  assert (C' : getitem (VDict (dict_set "summary" summary scored))
                 "confidence_score" = Ok (VInt confidence)).
  { cbn [getitem]. unfold scored.
    rewrite lookup_dict_set_other by reflexivity.
    now rewrite lookup_dict_set_same. }
  unfold completion, time_time, report, print, store, emit, lift, modify,
    gets, bindM, ret.
  cbn [num_sub num_binop to_float bind results ticks events].
  fold execution_time. fold timed. rewrite C. fold scored. rewrite S.
  destruct callback as [f|]; simpl in Hc; rewrite ?Hc;
    cbn [results ticks events]; rewrite U', C';
    (eexists; split; [reflexivity|]; cbn [events];
     rewrite !stage_calls_app; simpl; rewrite ?app_nil_r; reflexivity).
Qed.

(** X20: without a key for the search service the validation comes to
    the same conclusion for every idea.  When the orchestrator holds
    the agents of the sources and the environment holds no key (or an
    empty one), a run completes for every idea: no stage raises, the
    status is "completed", the confidence score is 71, and the summary
    shows the score 7.2, the verdict PIVOT, no competitor, a break-even
    of 36 months, estimated data, and as market size the baseline of
    the industry found in the idea.  The [json] module is assumed to
    read back what it wrote, [format] to write a [float] with one
    decimal as Python does, and the progress callback, if there is one,
    to return. *)
Theorem validation_without_key (startup_idea : string)
    (callback : option (string -> Z -> result unit)) (w : world) :
  json_roundtrip R ->
  fixed_notation R ->
  serper_key = None ->
  shipped ->
  returns callback ->
  exists (record summary : dict) (size : string) (w' : world),
    validate_idea startup_idea callback w = (Ok (VDict record), w')
    /\ map (fun k => lookup k record)
         ["status"; "using_real_data"; "confidence_score"]
       = [Some (VStr "completed"); Some (VBool false); Some (VInt 71)]
    /\ lookup "summary" record = Some (VDict summary)
    /\ map (fun k => lookup k summary)
         ["score"; "verdict"; "market_size"; "competitors_found";
          "break_even"; "data_quality"]
       = [Some (VFloat 7.2); Some (VStr "PIVOT ⚠️"); Some (VStr size);
          Some (VInt 0); Some (VStr (format (VInt 36) "" ++ " months"));
          Some (VDict [("market", VStr "Estimated");
                       ("competitors", VStr "Estimated")])]
    /\ In size tam_texts.
Proof.
  intros J F K (Sm & Sc & St & Sf & Ss) Hc.
  destruct (market_without_key J F K startup_idea)
    as (tam & sam & som & source & size & sam_text & som_text & said
        & Em & I).
  assert (Ec := @CompetitorResearcherFacts.analysis_without_list R N J
                  startup_idea "No Serper API key found").
  unfold CompetitorResearcher.find_competitors in Ec. rewrite K in Ec.
  specialize (Ec eq_refl).
  destruct (technical_answer J startup_idea)
    as (level & score & description & tech_stack & timeline & told & Et).
  destruct (revenue_of_sizes (R := R) I) as [revenue P].
  destruct (@financial_of_size R J startup_idea
              (VDict
                 [("TAM", VDict [("value", tam); ("formatted", VStr size)]);
                  ("SAM", VDict [("value", sam);
                                 ("formatted", VStr sam_text)]);
                  ("SOM", VDict [("value", som);
                                 ("formatted", VStr som_text)]);
                  ("data_source", source)])
              size revenue eq_refl P)
    as (costs & formatted_total & investment & burn & figures & Ef & Ft).
  rewrite Sf in Ef. injection Ef as Ef.
  rewrite <- Sm in Em. rewrite <- Sc in Ec. rewrite <- St in Et.
  match type of Em with _ = Ok ?m =>
  match type of Ec with _ = Ok ?c =>
  match type of Et with _ = Ok ?t =>
  match type of Ef with _ = Ok ?f =>
    pose proof (strategy_answer J
                  (VDict [("market", m); ("competitors", c);
                          ("technical", t); ("financial", f)])) as Es
  end end end end.
  rewrite <- Ss in Es.
  unfold validate_idea, time_time, datetime_now, modify, try_exceptM.
  unfold bindM at 1. unfold bindM at 1. unfold bindM at 1.
  cbv beta iota. cbn [results ticks events].
  assert (Key : match getenv "SERPER_API_KEY" with
                | Some key => negb (key =? "")
                | None => false
                end = false).
  { unfold serper_key in K. destruct (getenv "SERPER_API_KEY") as [key|];
      [|reflexivity]. destruct (key =? ""); [reflexivity | discriminate]. }
  rewrite Key.
  match goal with
  | |- context [bindM (stages _ _) _ ?w0] =>
      destruct (@stages_run R A startup_idea callback _ _ _ _ _ w0
                  Hc Em Ec Et Ef Es eq_refl)
        as (w5 & E5 & R5 & C5)
  end.
  unfold bindM at 1. rewrite E5.
  cbn [results dict_set String.eqb Ascii.eqb Bool.eqb] in R5.
  clear E5 C5.
  assert (Hconf : forall et,
            _calculate_overall_confidence
              (dict_set "status" (VStr "completed")
                 (dict_set "execution_time" et (results w5)))
            = Ok 71%Z).
  { intros et. rewrite R5. vm_compute. reflexivity. }
  assert (Hsum : forall et,
            exists summary : dict,
              _create_summary
                (dict_set "confidence_score" (VInt 71)
                   (dict_set "status" (VStr "completed")
                      (dict_set "execution_time" et (results w5))))
              = Ok (VDict summary)
              /\ map (fun k => lookup k summary)
                   ["score"; "verdict"; "market_size"; "competitors_found";
                    "break_even"; "data_quality"]
                 = [Some (VFloat 7.2); Some (VStr "PIVOT ⚠️");
                    Some (VStr size); Some (VInt 0);
                    Some (VStr (format (VInt 36) "" ++ " months"));
                    Some (VDict [("market", VStr "Estimated");
                                 ("competitors", VStr "Estimated")])]).
  { intros et. rewrite R5. unfold _create_summary, get2, get3.
    cbn. eexists. split; reflexivity. }
  destruct (Hsum (of_number
                    (num_round (NFloat (time (ticks w5) - time (ticks w))) 2)))
    as (summary & Hs & Fields).
  destruct (@completion_run callback (time (ticks w)) w5 71 (VDict summary)
              (VBool false) Hc (Hconf _) Hs)
    as (w6 & E6 & _); [rewrite R5; reflexivity|].
  rewrite E6. clear E6 Hconf Hsum Hs.
  eexists _, summary, size, w6. split; [reflexivity|].
  split; [rewrite R5; reflexivity|].
  split; [rewrite R5; reflexivity|].
  split; [exact Fields | exact I].
Qed.

End Pipeline.

(** The theorem for the agents of the sources, run with the reference
    runtime on an idea for a blog. *)
Lemma validation_without_key_witness :
  exists (record summary : dict) (size : string) (w' : Orchestrator.world),
    @Orchestrator.validate_idea Reference.python Reference.sources
      "A blog on cooking" None Orchestrator.start
    = (Ok (VDict record), w')
    /\ map (fun k => lookup k record)
         ["status"; "using_real_data"; "confidence_score"]
       = [Some (VStr "completed"); Some (VBool false); Some (VInt 71)]
    /\ lookup "summary" record = Some (VDict summary)
    /\ map (fun k => lookup k summary)
         ["score"; "verdict"; "market_size"; "competitors_found";
          "break_even"; "data_quality"]
       = [Some (VFloat 7.2); Some (VStr "PIVOT ⚠️"); Some (VStr size);
          Some (VInt 0); Some (VStr "36 months");
          Some (VDict [("market", VStr "Estimated");
                       ("competitors", VStr "Estimated")])]
    /\ In size tam_texts.
Proof.
  apply (@validation_without_key Reference.python
           Reference.unreachable_market Reference.unreachable
           Reference.sources "A blog on cooking" None Orchestrator.start).
  - exact ReferenceFacts.reference_roundtrip.
  - intros x. reflexivity.
  - reflexivity.
  - repeat split. intros idea market_data. simpl.
    destruct (financial_returns (R := Reference.python) idea market_data)
      as [r ->].
    reflexivity.
  - exact I.
Defined.

End OfflineFacts.
